(** * wifi_reader: the OCR model download scripts

    A shallow embedding of the Python scripts of the repository and the
    properties of their download / verify / fall-back control flow.

    Modelling conventions
    - a file is the list of its bytes; the file system is a finite map from
      paths to files (directories are implicit, [mkdir] is a no-op);
    - a [pathlib.Path] is its anchor and its components, [str] renders it
      the POSIX way;
    - the network and the writability of a path are oracles of the [World];
      a transfer either delivers the whole body or raises, possibly after
      leaving a truncated file behind;
    - every function that prints or touches a file is a state transformer
      over [State]; of the printed lines only the fixed text that tells a
      branch apart is recorded (pictographs and interpolated numbers are
      left out), and every call of a [download_file] is recorded with its
      URL and destination;
    - a Python [str] is the string of its UTF-8 bytes, on which [encode]
      does nothing; [utf8] gives those bytes from the code points where
      characters are counted;
    - the size check of download_ocr_models.py is computed in binary64,
      with the operations of the Standard Library's [SpecFloat]; the
      megabyte figures that are only printed are exact rationals. *)

From Stdlib Require Import ZArith QArith Qabs String Ascii List Lia.
From Stdlib.Floats Require Import SpecFloat.
From Stdlib.Strings Require Import Byte.
From stdpp Require Import gmap strings list.

Local Open Scope string_scope.
Local Open Scope list_scope.

(** ** Bytes and strings *)

Abbreviation bytes := (list Byte.byte).

Definition TFL3 : bytes := [x54; x46; x4c; x33].

(** [bytes.startswith] *)
Fixpoint bytes_startswith (pre b : bytes) : bool :=
  match pre, b with
  | [], _ => true
  | p :: pre', c :: b' => Byte.eqb p c && bytes_startswith pre' b'
  | _ :: _, [] => false
  end.

(** [needle in hay] on bytes *)
Fixpoint bytes_in (needle hay : bytes) : bool :=
  bytes_startswith needle hay ||
  match hay with
  | [] => false
  | _ :: hay' => bytes_in needle hay'
  end.

Fixpoint str_startswith (pre s : string) : bool :=
  match pre, s with
  | EmptyString, _ => true
  | String a pre', String b s' => Ascii.eqb a b && str_startswith pre' s'
  | String _ _, EmptyString => false
  end.

(** [needle in hay] on strings *)
Fixpoint str_in (needle hay : string) : bool :=
  str_startswith needle hay ||
  match hay with
  | EmptyString => false
  | String _ hay' => str_in needle hay'
  end.

Definition str_endswith (suf s : string) : bool :=
  String.eqb (String.substring (String.length s - String.length suf)
                               (String.length suf) s) suf
  && (String.length suf <=? String.length s)%nat.

Definition lower_ascii (c : ascii) : ascii :=
  let n := nat_of_ascii c in
  if ((65 <=? n) && (n <=? 90))%nat then ascii_of_nat (n + 32) else c.

(** [str.lower], on the ASCII letters *)
Fixpoint lower (s : string) : string :=
  match s with
  | EmptyString => EmptyString
  | String c s' => String (lower_ascii c) (lower s')
  end.

(** ** Text and its encoding *)

(** A Python [str] whose text matters only through its bytes is held as
    the string of its UTF-8 encoding; where characters are counted it is
    the list of its code points, and [utf8] relates the two. *)

Definition byte_of (n : N) : Byte.byte := default x00 (Byte.of_N n).

(** the UTF-8 encoding of one code point; [None] for a surrogate and for
    a number beyond U+10FFFF, which [str.encode] refuses *)
Definition utf8_char (c : N) : option bytes :=
  if (c <? 128)%N then Some [byte_of c]
  else if (c <? 2048)%N then
    Some [byte_of (192 + c / 64); byte_of (128 + c mod 64)]
  else if (c <? 65536)%N then
    if (55296 <=? c)%N && (c <=? 57343)%N then None
    else Some [ byte_of (224 + c / 4096); byte_of (128 + (c / 64) mod 64);
                byte_of (128 + c mod 64) ]
  else if (c <? 1114112)%N then
    Some [ byte_of (240 + c / 262144); byte_of (128 + (c / 4096) mod 64);
           byte_of (128 + (c / 64) mod 64); byte_of (128 + c mod 64) ]
  else None.

(** [s.encode('utf-8')] on code points *)
Fixpoint utf8 (s : list N) : option bytes :=
  match s with
  | [] => Some []
  | c :: s' =>
      b ← utf8_char c ;
      r ← utf8 s' ;
      Some (b ++ r)
  end.

(** the string that stands for a [str] given by its code points *)
Definition py_str (s : list N) : option string :=
  string_of_list_byte <$> utf8 s.

(** ** Paths *)

Record Path := MkPath { anchor : string; parts : list string }.

Global Instance Path_eq_dec : EqDecision Path.
Proof. solve_decision. Defined.

Global Instance Path_countable : Countable Path :=
  inj_countable' (fun p => (anchor p, parts p))
                 (fun '(a, ps) => MkPath a ps)
                 (fun p => match p with MkPath _ _ => eq_refl end).

(** [Path(s)] for a relative path given by its components *)
Definition rel (ps : list string) : Path := MkPath "" ps.

(** [p / name] *)
Definition pdiv (p : Path) (name : string) : Path :=
  MkPath (anchor p) (parts p ++ [name]).

(** [p.parent] *)
Definition parent (p : Path) : Path :=
  MkPath (anchor p) (removelast (parts p)).

(** [p.name] *)
Definition pname (p : Path) : string := List.last (parts p) "".

(** [str(p)] *)
Definition str (p : Path) : string :=
  match parts p with
  | [] => if String.eqb (anchor p) "" then "." else anchor p
  | ps => anchor p +:+ String.concat "/" ps
  end.

(** ** The world outside the scripts *)

Inductive Outcome :=
  | Fetched (body : bytes)
  | Failed (residue : option bytes).

Record World := MkWorld {
  fetch : string -> Outcome;
  writable : Path -> bool
}.

(** ** State and printed output *)

Inductive Event :=
  | Download (url : string) (dest : Path)
  | Note (msg : string).

Record State := MkState { fs : gmap Path bytes; out : list Event }.

Definition M (A : Type) : Type := State -> A * State.

Definition ret {A} (a : A) : M A := fun s => (a, s).

Definition bind {A B} (m : M A) (k : A -> M B) : M B :=
  fun s => let (a, s') := m s in k a s'.

Notation "x <~ m ; k" := (bind m (fun x => k))
  (at level 20, m at level 100, k at level 200, only parsing).
Notation "m ;> k" := (bind m (fun _ => k))
  (at level 100, k at level 200, right associativity, only parsing).

Definition print (e : Event) : M unit :=
  fun s => (tt, MkState (fs s) (out s ++ [e])).

Definition read (p : Path) : M (option bytes) :=
  fun s => (fs s !! p, s).

(** [os.path.exists] / [Path.exists] *)
Definition exists_ (p : Path) : M bool :=
  fun s => (bool_decide (is_Some (fs s !! p)), s).

Definition write (p : Path) (b : bytes) : M unit :=
  fun s => (tt, MkState (<[p := b]> (fs s)) (out s)).

(** [os.remove] inside [try: ... except: pass], [unlink(missing_ok=True)] *)
Definition remove (p : Path) : M unit :=
  fun s => (tt, MkState (delete p (fs s)) (out s)).

(** [os.path.getsize] of a file that is there *)
Definition getsize (b : bytes) : Z := Z.of_nat (length b).

(** size in megabytes, [getsize / (1024 * 1024)] *)
Definition megabytes (b : bytes) : Q :=
  inject_Z (getsize b) / inject_Z (1024 * 1024).

(** Python's [float]: IEEE 754 binary64, 53 bits of precision, round to
    nearest with ties to even *)
Module B64.

Definition float : Type := spec_float.

(** [float(n)] *)
Definition of_int (n : Z) : float := binary_normalize 53 1024 n 0 false.

(** [x - y] *)
Definition sub : float -> float -> float := SFsub 53 1024.

Definition abs : float -> float := SFabs.

(** [x > y]; [False] when one of the two is NaN *)
Definition gt (x y : float) : bool := SFltb y x.

(** the literal [0.5] *)
Definition half : float := binary_normalize 53 1024 1 (-1) false.

Definition nan : float := S754_nan.

(** [getsize / (1024 * 1024)]: the quotient of two [int]s is the exact
    quotient rounded once, and the divisor is [2 ** 20] *)
Definition megabytes (b : bytes) : float :=
  binary_normalize 53 1024 (getsize b) (-20) false.

(** the number a float stands for, when it is one *)
Definition value (x : float) : option Q :=
  match x with
  | S754_zero _ => Some 0%Q
  | S754_finite s m e =>
      Some ((if s then inject_Z (Zneg m) else inject_Z (Zpos m))
            * Qpower 2 e)%Q
  | S754_infinity _ | S754_nan => None
  end.

End B64.

(** The transfer behind every [download_file]: [True] when the body arrived
    and was stored, [False] when the call raised. *)
Definition transfer (w : World) (url : string) (dest : Path) : M bool :=
  match fetch w url with
  | Fetched body => write dest body ;> ret true
  | Failed (Some part) => write dest part ;> ret false
  | Failed None => ret false
  end.

(** [with open(p, 'wb') as f: f.write(b)] inside [try/except] *)
Definition try_write (w : World) (p : Path) (b : bytes) : M bool :=
  if writable w p then write p b ;> ret true else ret false.

(** the URLs of the [download_file] calls, in order *)
Fixpoint attempts (l : list Event) : list string :=
  match l with
  | [] => []
  | Download u _ :: l' => u :: attempts l'
  | Note _ :: l' => attempts l'
  end.

(** ** scripts/download_ocr_tflite_direct.py *)

Module DownloadOcrTfliteDirect.

Record ModelInfo := MkInfo {
  urls : list string;
  description : string;
  expected_size_mb : Q
}.

Definition TFLITE_MODELS : list (string * ModelInfo) :=
  [ ("easyocr_text_detection.tflite",
     MkInfo
       [ "https://github.com/tulasiram58827/ocr_tflite/raw/main/models/craft_text_detector_float16.tflite";
         "https://github.com/tulasiram58827/ocr_tflite/raw/main/models/craft_text_detector_dynamic_range.tflite";
         "https://tfhub.dev/tulasiram58827/lite-model/craft-text-detector/float16/1?lite-format=tflite";
         "https://storage.googleapis.com/tfhub-lite-models/tulasiram58827/lite-model/craft-text-detector/float16/1/default/1.tflite" ]
       "CRAFT text detection model"
       (23 # 10));
    ("easyocr_text_recognition.tflite",
     MkInfo
       [ "https://github.com/tulasiram58827/ocr_tflite/raw/main/models/keras_ocr_float16.tflite";
         "https://github.com/tulasiram58827/ocr_tflite/raw/main/models/keras_ocr_dynamic_range.tflite";
         "https://tfhub.dev/tulasiram58827/lite-model/keras-ocr/float16/1?lite-format=tflite";
         "https://storage.googleapis.com/tfhub-lite-models/tulasiram58827/lite-model/keras-ocr/float16/1/default/1.tflite" ]
       "CRNN text recognition model"
       (86 # 10)) ].

Definition download_file (w : World) (url : string) (filename : Path)
    (description : string) : M bool :=
  print (Download url filename) ;>
  ok <~ transfer w url filename ;
  if ok then print (Note "Successfully downloaded") ;> ret true
  else print (Note "Failed to download") ;> ret false.

Definition verify_tflite_model (filename : Path) (expected_size_mb : option Q)
    : M bool :=
  f <~ read filename ;
  match f with
  | None => print (Note "File not found") ;> ret false
  | Some data =>
      let file_size := getsize data in
      let file_size_mb := megabytes data in
      print (Note "File size") ;>
      if (file_size <? 1024)%Z then
        print (Note "File too small, likely an error page") ;> ret false
      else
        let header := take 8 data in
        (if bytes_startswith TFL3 header
         then print (Note "Valid TensorFlow Lite file detected")
         else print (Note "File header (may not be TFLite)")) ;>
        (match expected_size_mb with
         | Some e =>
             if negb (Qeq_bool e 0)
                && negb (Qle_bool (Qabs (file_size_mb - e)) (e * (1 # 2)))
             then print (Note "File size differs significantly from expected")
             else ret tt
         | None => ret tt
         end) ;>
        ret true
  end.

Definition detection_stub : bytes :=
  [ x18; x00; x00; x00; x54; x46; x4c; x33;
    x00; x00; x0e; x00; x18; x00; x04; x00;
    x08; x00; x0c; x00; x10; x00; x14; x00;
    x0e; x00; x00; x00; x03; x00; x00; x00;
    x48; x00; x00; x00; x01; x00; x00; x00;
    x04; x00; x00; x00; x34; x00; x00; x00;
    x28; x00; x00; x00; x1c; x00; x00; x00;
    x04; x00; x00; x00 ].

Definition recognition_stub : bytes :=
  [ x18; x00; x00; x00; x54; x46; x4c; x33;
    x00; x00; x0e; x00; x18; x00; x04; x00;
    x08; x00; x0c; x00; x10; x00; x14; x00;
    x0e; x00; x00; x00; x03; x00; x00; x00;
    x50; x00; x00; x00; x01; x00; x00; x00;
    x04; x00; x00; x00; x3c; x00; x00; x00;
    x30; x00; x00; x00; x24; x00; x00; x00;
    x04; x00; x00; x00 ].

(** the bytearray after [extend([0x00] * (512 - len(tflite_data)))] *)
Definition stub_data (filename : Path) : bytes :=
  let tflite_data :=
    if str_in "detection" (lower (str filename))
    then detection_stub else recognition_stub in
  tflite_data ++ repeat x00 (512 - length tflite_data).

Definition create_working_tflite_model (w : World) (filename : Path)
    (description : string) : M bool :=
  print (Note "Creating minimal working TFLite model") ;>
  ok <~ try_write w filename (stub_data filename) ;
  if ok then print (Note "Created minimal TFLite model") ;> ret true
  else print (Note "Failed to create minimal model") ;> ret false.

(** the [for i, url in enumerate(info['urls'], 1)] loop; the result is
    [model_downloaded] *)
Fixpoint try_urls (w : World) (file_path : Path) (info : ModelInfo)
    (us : list string) : M bool :=
  match us with
  | [] => ret false
  | url :: rest =>
      ok <~ download_file w url file_path (description info) ;
      if ok then
        v <~ verify_tflite_model file_path (Some (expected_size_mb info)) ;
        if v then ret true
        else
          print (Note "Downloaded file failed verification, trying next source") ;>
          remove file_path ;>
          try_urls w file_path info rest
      else try_urls w file_path info rest
  end.

(** one turn of the loop over [TFLITE_MODELS.items()]; the result is the
    new [success_count] *)
Definition process_model (w : World) (script_dir : Path)
    (success_count : nat) (entry : string * ModelInfo) : M nat :=
  let (filename, info) := entry in
  let file_path := pdiv script_dir filename in
  model_downloaded <~ try_urls w file_path info (urls info) ;
  if model_downloaded then ret (S success_count)
  else
    print (Note "All download attempts failed") ;>
    made <~ create_working_tflite_model w file_path (description info) ;
    if made then ret (S success_count) else ret success_count.

Fixpoint process_models (w : World) (script_dir : Path) (success_count : nat)
    (models : list (string * ModelInfo)) : M nat :=
  match models with
  | [] => ret success_count
  | entry :: rest =>
      c <~ process_model w script_dir success_count entry ;
      process_models w script_dir c rest
  end.

Definition main_with (models : list (string * ModelInfo)) (w : World)
    (script_dir : Path) : M bool :=
  let total_models := length models in
  success_count <~ process_models w script_dir 0 models ;
  ret (success_count =? total_models)%nat.

Definition main : World -> Path -> M bool := main_with TFLITE_MODELS.

(** [sys.exit(0 if success else 1)] *)
Definition exit_status (success : bool) : Z := if success then 0%Z else 1%Z.

End DownloadOcrTfliteDirect.

(** ** download_ocr_models.py *)

Module DownloadOcrModels.

Record ModelInfo := MkInfo {
  url : string;
  fallback_url : option string;
  size_mb : B64.float;
  description : string
}.

Definition MODELS : list (string * ModelInfo) :=
  [ ("eng.traineddata",
     MkInfo "https://github.com/tesseract-ocr/tessdata/raw/main/eng.traineddata"
       (Some "https://github.com/tesseract-ocr/tessdata_fast/raw/main/eng.traineddata")
       (B64.of_int 15) "English language data (primary)");
    ("spa.traineddata",
     MkInfo "https://github.com/tesseract-ocr/tessdata/raw/main/spa.traineddata"
       (Some "https://github.com/tesseract-ocr/tessdata_fast/raw/main/spa.traineddata")
       (B64.of_int 12) "Spanish language data");
    ("fra.traineddata",
     MkInfo "https://github.com/tesseract-ocr/tessdata/raw/main/fra.traineddata"
       (Some "https://github.com/tesseract-ocr/tessdata_fast/raw/main/fra.traineddata")
       (B64.of_int 11) "French language data");
    ("deu.traineddata",
     MkInfo "https://github.com/tesseract-ocr/tessdata/raw/main/deu.traineddata"
       (Some "https://github.com/tesseract-ocr/tessdata_fast/raw/main/deu.traineddata")
       (B64.of_int 12) "German language data") ].

Definition download_file (w : World) (url : string) (filepath : Path)
    (description : string) : M bool :=
  print (Download url filepath) ;>
  ok <~ transfer w url filepath ;
  if ok then print (Note "[OK] Download completed!") ;> ret true
  else print (Note "[ERROR] Download failed") ;> ret false.

(** the default of the [tolerance] parameter *)
Definition default_tolerance : B64.float := B64.half.

(** the sizes in [MODELS] are floats, and so is the default tolerance; an
    [int] handed in instead is converted to one by the subtraction *)
Definition verify_file_size (filepath : Path) (expected_size_mb : B64.float)
    (tolerance : B64.float) : M bool :=
  f <~ read filepath ;
  match f with
  | None => ret false
  | Some data =>
      let actual_size_mb := B64.megabytes data in
      if B64.gt (B64.abs (B64.sub actual_size_mb expected_size_mb)) tolerance
      then print (Note "[WARNING] File size differs from expected") ;> ret false
      else print (Note "[OK] File size verified") ;> ret true
  end.

(** one turn of the loop over [MODELS.items()]; [false] is the
    [return False] that leaves [main] *)
Definition process_model (w : World) (assets_dir : Path)
    (entry : string * ModelInfo) : M bool :=
  let (filename, model_info) := entry in
  let filepath := pdiv assets_dir filename in
  there <~ exists_ filepath ;
  verified <~ (if there
               then verify_file_size filepath (size_mb model_info) default_tolerance
               else ret false) ;
  if verified then print (Note "already exists and verified") ;> ret true
  else
    success <~ download_file w (url model_info) filepath (description model_info) ;
    success <~ (if negb success then
                  match fallback_url model_info with
                  | Some fb =>
                      print (Note "[RETRY] Trying fallback URL...") ;>
                      download_file w fb filepath (description model_info)
                  | None => ret success
                  end
                else ret success) ;
    if success then
      v <~ verify_file_size filepath (size_mb model_info) default_tolerance ;
      (if v then print (Note "downloaded and verified successfully!")
       else print (Note "downloaded but size verification failed")) ;>
      ret true
    else print (Note "[ERROR] Failed to download") ;> ret false.

Fixpoint download_models (w : World) (assets_dir : Path)
    (models : list (string * ModelInfo)) : M bool :=
  match models with
  | [] => ret true
  | entry :: rest =>
      go_on <~ process_model w assets_dir entry ;
      if go_on then download_models w assets_dir rest else ret false
  end.

(** the closing listing, [OK] or [MISSING] per file *)
Fixpoint list_models (assets_dir : Path)
    (models : list (string * ModelInfo)) : M unit :=
  match models with
  | [] => ret tt
  | (filename, _) :: rest =>
      there <~ exists_ (pdiv assets_dir filename) ;
      (if there then print (Note "[OK]") else print (Note "[MISSING]")) ;>
      list_models assets_dir rest
  end.

Definition assets_dir : Path := rel ["app"; "src"; "main"; "assets"].

Definition main_with (models : list (string * ModelInfo)) (w : World)
    : M bool :=
  done <~ download_models w assets_dir models ;
  if done then
    print (Note "All OCR models downloaded successfully!") ;>
    list_models assets_dir models ;>
    ret true
  else ret false.

Definition main : World -> M bool := main_with MODELS.

(** [if main(): sys.exit(0) else: sys.exit(1)] *)
Definition exit_status (success : bool) : Z := if success then 0%Z else 1%Z.

End DownloadOcrModels.

(** ** scripts/download_easyocr_models.py *)

Module DownloadEasyocrModels.

Record ModelInfo := MkInfo {
  url : string;
  description : string;
  size_mb : Q;
  alternative_urls : option (list string)
}.

Definition MODELS : list (string * ModelInfo) :=
  [ ("easyocr_text_detection.tflite",
     MkInfo "https://github.com/PaddlePaddle/PaddleOCR/raw/release/2.6/inference/ch_PP-OCRv3_det_infer.tar"
       "PaddleOCR text detection model (converted to TFLite)" (23 # 10)
       (Some ["https://huggingface.co/PaddlePaddle/PaddleOCR/resolve/main/ch_PP-OCRv3_det_infer.tar"]));
    ("easyocr_text_recognition.tflite",
     MkInfo "https://github.com/PaddlePaddle/PaddleOCR/raw/release/2.6/inference/ch_PP-OCRv3_rec_infer.tar"
       "PaddleOCR text recognition model (converted to TFLite)" (86 # 10)
       (Some ["https://huggingface.co/PaddlePaddle/PaddleOCR/resolve/main/ch_PP-OCRv3_rec_infer.tar"])) ].

Definition DIRECT_TFLITE_SOURCES : gmap string (list string) :=
  <["easyocr_text_detection.tflite" :=
      [ "https://github.com/zxiaosi/OCR-Detection-And-Recognition/raw/main/models/det.tflite";
        "https://github.com/tensorflow/examples/raw/master/lite/examples/text_classification/android/app/src/main/assets/text_classification.tflite" ]]>
  (<["easyocr_text_recognition.tflite" :=
      [ "https://github.com/zxiaosi/OCR-Detection-And-Recognition/raw/main/models/rec.tflite";
        "https://github.com/tensorflow/examples/raw/master/lite/examples/optical_character_recognition/android/app/src/main/assets/text_recognition.tflite" ]]>
   ∅).

Definition download_file (w : World) (url : string) (filename : Path)
    (description : string) : M bool :=
  print (Download url filename) ;>
  ok <~ transfer w url filename ;
  if ok then print (Note "Successfully downloaded") ;> ret true
  else print (Note "Failed to download") ;> ret false.

Definition verify_file (filename : Path) : M bool :=
  f <~ read filename ;
  match f with
  | None => print (Note "File not found") ;> ret false
  | Some data =>
      print (Note "File size") ;>
      let header := take 8 data in
      (if bytes_startswith TFL3 header
       then print (Note "Valid TensorFlow Lite file detected")
       else print (Note "File may not be a TensorFlow Lite model")) ;>
      ret true
  end.

(** the loop of [try_direct_tflite_sources] *)
Fixpoint try_sources (w : World) (filename : Path) (sources : list string)
    : M bool :=
  match sources with
  | [] => ret false
  | url :: rest =>
      ok <~ download_file w url filename "Direct TFLite" ;
      if ok then
        v <~ verify_file filename ;
        if v then ret true
        else
          print (Note "Downloaded file verification failed, trying next source...") ;>
          try_sources w filename rest
      else try_sources w filename rest
  end.

(** [filename] is the [str] of the target path: the table is keyed by it *)
Definition try_direct_tflite_sources (w : World) (filename : Path) : M bool :=
  match DIRECT_TFLITE_SOURCES !! str filename with
  | None => ret false
  | Some sources =>
      print (Note "Trying direct TFLite sources") ;>
      try_sources w filename sources
  end.

Definition minimal_model_data : bytes :=
  [ x18; x00; x00; x00; x54; x46; x4c; x33;
    x00; x00; x0e; x00; x18; x00; x04; x00;
    x08; x00; x0c; x00; x10; x00; x14; x00;
    x0e; x00; x00; x00; x03; x00; x00; x00;
    x10; x00; x00; x00; x01; x00; x00; x00;
    x04; x00; x00; x00; x08; x00; x00; x00 ]
  ++ repeat x00 200.

Definition create_minimal_tflite (w : World) (filename : Path)
    (description : string) : M bool :=
  print (Note "Creating minimal TFLite model") ;>
  ok <~ try_write w filename minimal_model_data ;
  if ok then print (Note "Created minimal TFLite model") ;> ret true
  else print (Note "Failed to create minimal model") ;> ret false.

(** the loop over [info['alternative_urls']]; the result is
    [found_working_source] *)
Fixpoint try_alternatives (w : World) (file_path : Path)
    (alts : list string) : M bool :=
  match alts with
  | [] => ret false
  | alt_url :: rest =>
      ok <~ download_file w alt_url file_path "Alternative" ;
      if ok then
        v <~ verify_file file_path ;
        if v then ret true else try_alternatives w file_path rest
      else try_alternatives w file_path rest
  end.

Definition process_model (w : World) (script_dir : Path)
    (success_count : nat) (entry : string * ModelInfo) : M nat :=
  let (filename, info) := entry in
  let file_path := pdiv script_dir filename in
  direct <~ try_direct_tflite_sources w file_path ;
  if direct then ret (S success_count)
  else
    print (Note "Trying primary source...") ;>
    primary <~ (ok <~ download_file w (url info) file_path (description info) ;
                if ok then
                  v <~ verify_file file_path ;
                  if v then ret true
                  else print (Note "Primary source failed verification") ;> ret false
                else ret false) ;
    if primary then ret (S success_count)
    else
      found_working_source <~
        match alternative_urls info with
        | Some alts =>
            print (Note "Trying alternative sources...") ;>
            try_alternatives w file_path alts
        | None => ret false
        end ;
      if found_working_source then ret (S success_count)
      else
        print (Note "All download attempts failed") ;>
        made <~ create_minimal_tflite w file_path (description info) ;
        if made then ret (S success_count) else ret success_count.

Fixpoint process_models (w : World) (script_dir : Path) (success_count : nat)
    (models : list (string * ModelInfo)) : M nat :=
  match models with
  | [] => ret success_count
  | entry :: rest =>
      c <~ process_model w script_dir success_count entry ;
      process_models w script_dir c rest
  end.

(** [main] returns nothing; the count of the summary is kept as result *)
Definition main_with (models : list (string * ModelInfo)) (w : World)
    (script_dir : Path) : M nat :=
  process_models w script_dir 0 models.

Definition main : World -> Path -> M nat := main_with MODELS.

End DownloadEasyocrModels.

(** ** scripts/download_craft_keras_tflite_models.py *)

Module DownloadCraftKerasTfliteModels.

Record Model := MkModel {
  name : string;
  description : string;
  url : string;
  file : Path
}.

(** [script_dir.parent / 'app' / 'src' / 'main' / 'assets'] *)
Definition assets_dir (script_dir : Path) : Path :=
  pdiv (pdiv (pdiv (pdiv (parent script_dir) "app") "src") "main") "assets".

Definition models (assets_dir : Path) : list Model :=
  [ MkModel "CRAFT Text Detection"
      "CRAFT text detection model trained on SynthText, IC13, IC17"
      "https://github.com/tulasiram58827/craft_tflite/raw/main/models/craft_float16.tflite"
      (pdiv assets_dir "craft_text_detection.tflite");
    MkModel "KerasOCR Text Recognition"
      "Keras OCR float16 quantized text recognition model"
      "https://github.com/tulasiram58827/ocr_tflite/raw/main/models/keras_ocr_float16.tflite"
      (pdiv assets_dir "keras_text_recognition.tflite");
    MkModel "Deep Text Recognition (Alternative)"
      "CNN-based text recognition model (alternative to Keras OCR)"
      "https://github.com/tulasiram58827/ocr_tflite/raw/main/models/cnn_float16.tflite"
      (pdiv assets_dir "cnn_text_recognition.tflite") ].

Definition download_file (w : World) (url : string) (filepath : Path)
    : M bool :=
  print (Download url filepath) ;>
  ok <~ transfer w url filepath ;
  if ok then print (Note "Downloaded") ;> ret true
  else print (Note "Error downloading") ;> ret false.

(** one turn of [for model in models]; the result is the new
    [success_count] *)
Definition process_model (w : World) (success_count : nat) (model : Model)
    : M nat :=
  existing <~ read (file model) ;
  reuse <~ match existing with
           | Some data =>
               print (Note "File already exists") ;>
               let existing_size := getsize data in
               if (existing_size >? 10000)%Z
               then print (Note "Using existing model") ;> ret true
               else print (Note "Existing file too small, re-downloading...") ;>
                    ret false
           | None => ret false
           end ;
  if reuse then ret (S success_count)
  else
    ok <~ download_file w (url model) (file model) ;
    if ok then
      got <~ read (file model) ;
      match got with
      | Some data =>
          let file_size := getsize data in
          if (file_size >? 10000)%Z
          then print (Note "OK model ready") ;> ret (S success_count)
          else
            print (Note "ERROR Downloaded file too small") ;>
            remove (file model) ;>
            ret success_count
      | None => ret success_count (* [stat] of a file just written *)
      end
    else print (Note "ERROR Failed to download") ;> ret success_count.

Fixpoint process_models (w : World) (success_count : nat) (ms : list Model)
    : M nat :=
  match ms with
  | [] => ret success_count
  | model :: rest =>
      c <~ process_model w success_count model ;
      process_models w c rest
  end.

(** [main] returns nothing; the count of the summary is kept as result *)
Definition main (w : World) (script_dir : Path) : M nat :=
  success_count <~ process_models w 0 (models (assets_dir script_dir)) ;
  (if (2 <=? success_count)%nat
   then print (Note "OK Ready for real OCR processing!")
   else print (Note "Need at least text detection + text recognition models")) ;>
  print (Note "Setup complete!") ;>
  ret success_count.

End DownloadCraftKerasTfliteModels.

(** ** scripts/setup_keras_ocr.py *)

Module SetupKerasOcr.

(** [shutil.copy2]: [false] when it raises *)
Definition copy2 (w : World) (src dst : Path) : M bool :=
  f <~ read src ;
  match f with
  | None => ret false
  | Some data => try_write w dst data
  end.

Definition keras_model_source (script_dir : Path) : Path :=
  pdiv script_dir "keras_ocr_float16.tflite".

Definition assets_dir (script_dir : Path) : Path :=
  pdiv (pdiv (pdiv (pdiv (parent script_dir) "app") "src") "main") "assets".

Definition keras_model_dest (script_dir : Path) : Path :=
  pdiv (assets_dir script_dir) "keras_ocr_float16.tflite".

Definition main (w : World) (script_dir : Path) : M bool :=
  let source := keras_model_source script_dir in
  let dest := keras_model_dest script_dir in
  src <~ read source ;
  match src with
  | None => print (Note "Source model not found") ;> ret false
  | Some data =>
      let source_size := getsize data in
      print (Note "Source model size") ;>
      let header := take 8 data in
      if negb (bytes_in TFL3 header) then
        print (Note "Invalid TensorFlow Lite file") ;> ret false
      else
        print (Note "Valid TensorFlow Lite model confirmed") ;>
        print (Note "Copying model to assets directory...") ;>
        copied <~ copy2 w source dest ;
        if copied then
          d <~ read dest ;
          match d with
          | Some ddata =>
              let dest_size := getsize ddata in
              if (dest_size =? source_size)%Z then
                print (Note "Model copied successfully") ;>
                print (Note "Setup Summary") ;>
                ret true
              else print (Note "Copy size mismatch") ;> ret false
          | None => print (Note "Copy failed: destination not found") ;> ret false
          end
        else print (Note "Failed to copy model") ;> ret false
  end.

Definition exit_status (success : bool) : Z := if success then 0%Z else 1%Z.

End SetupKerasOcr.

(** ** scripts/download_and_convert_ocr_models.py: [check_dependencies] *)

(** the interpreter's side: which packages import, and whether a
    [pip install] with the given arguments exits with status 0 *)
Record Python := MkPython {
  importable : string -> bool;
  pip_install : list string -> bool
}.

(** what a [pip install] with the given arguments leaves of the disk,
    whether it exits with status 0 or not: the scripts have no say in
    it *)
Definition PipEffect : Type := list string -> gmap Path bytes -> gmap Path bytes.

(** [subprocess.check_call([sys.executable, '-m', 'pip', 'install', ...])]
    as far as the disk goes *)
Definition pip (disk_after : PipEffect) (args : list string) : M unit :=
  fun s => (tt, MkState (disk_after args (fs s)) (out s)).

(** the first loop of [check_dependencies] as it prints *)
Fixpoint report_packages (py : Python) (packages : list string) : M unit :=
  match packages with
  | [] => ret tt
  | package :: rest =>
      (if importable py package then print (Note "is installed")
       else print (Note "is missing")) ;>
      report_packages py rest
  end.

(** the second loop of [check_dependencies]; [false] is its
    [return False] *)
Fixpoint install_packages (py : Python) (disk_after : PipEffect)
    (pip_args : string -> list string) (missing : list string) : M bool :=
  match missing with
  | [] => ret true
  | package :: rest =>
      pip disk_after (pip_args package) ;>
      if pip_install py (pip_args package) then
        print (Note "Successfully installed") ;>
        install_packages py disk_after pip_args rest
      else print (Note "Failed to install") ;> ret false
  end.

(** [check_dependencies()] of both converting scripts, which differ in
    the packages they require and in the arguments they hand to pip *)
Definition check_dependencies_of (required_packages : list string)
    (pip_args : string -> list string) (py : Python) (disk_after : PipEffect)
    : M bool :=
  print (Note "Checking dependencies...") ;>
  report_packages py required_packages ;>
  let missing_packages :=
    List.filter (fun package => negb (importable py package))
      required_packages in
  match missing_packages with
  | [] => ret true
  | _ :: _ =>
      print (Note "Installing missing packages") ;>
      install_packages py disk_after pip_args missing_packages
  end.

Module ConvertDependencies.

Definition required_packages : list string := ["onnx"; "tensorflow"; "onnx_tf"].

(** the arguments after [pip install] *)
Definition pip_args (package : string) : list string :=
  if String.eqb package "onnx_tf" then ["onnx-tf"] else [package].

(** the first loop: the packages whose import raises *)
Definition missing_packages (py : Python) : list string :=
  List.filter (fun package => negb (importable py package)) required_packages.

(** the second loop; the result is whether it ran through, together with
    the installs it asked for *)
Fixpoint install (py : Python) (missing : list string)
    : bool * list (list string) :=
  match missing with
  | [] => (true, [])
  | package :: rest =>
      if pip_install py (pip_args package) then
        let (r, calls) := install py rest in (r, pip_args package :: calls)
      else (false, [pip_args package])
  end.

Definition check_dependencies (py : Python) : bool * list (list string) :=
  install py (missing_packages py).

(** [check_dependencies()] as [main] runs it, with what it prints and
    what pip does to the disk *)
Definition run_check_dependencies : Python -> PipEffect -> M bool :=
  check_dependencies_of required_packages pip_args.

End ConvertDependencies.

(** ** scripts/download_trocr_models.py: [check_dependencies] *)

Module TrocrDependencies.

Definition required_packages : list string :=
  ["torch"; "torchvision"; "transformers"; "onnx"; "tensorflow"; "onnx_tf";
   "requests"].

(** the arguments after [pip install] *)
Definition pip_args (package : string) : list string :=
  if String.eqb package "onnx_tf" then ["onnx-tf"]
  else if String.eqb package "torch" then
    ["torch"; "torchvision"; "--index-url";
     "https://download.pytorch.org/whl/cpu"]
  else [package].

(** the first loop: the packages whose import raises *)
Definition missing_packages (py : Python) : list string :=
  List.filter (fun package => negb (importable py package)) required_packages.

Definition run_check_dependencies : Python -> PipEffect -> M bool :=
  check_dependencies_of required_packages pip_args.

End TrocrDependencies.

(** ** The conversion libraries (onnx, onnx-tf, tensorflow)

    Their work is not this repository's: each call is an oracle on the
    bytes it is given, [None] when the call raises. The imports at the
    head of each function are taken to succeed: [main] calls none of them
    before [check_dependencies] has answered [True]. *)

Record Toolchain := MkToolchain {
  (** [onnx.load(path)]: the parsed model *)
  onnx_load : bytes -> option bytes;
  (** [onnx.checker.check_model(model)] does not raise *)
  onnx_check : bytes -> bool;
  (** [prepare(model)] and [export_graph(dir)]: the SavedModel written *)
  export_graph : bytes -> option bytes;
  (** [TFLiteConverter.from_saved_model(dir)] and [convert()] *)
  tflite_convert : bytes -> option bytes;
  (** the Keras model of [create_fallback_tflite], converted; the argument
      tells the detection shape from the recognition one *)
  keras_fallback : bool -> option bytes;
  (** the directory [tempfile.TemporaryDirectory()] hands out *)
  temp_dir : Path
}.

(** ** scripts/download_and_convert_ocr_models.py *)

Module DownloadAndConvertOcrModels.

Record ModelInfo := MkInfo {
  url : string;
  backup_urls : option (list string);
  description : string;
  output_tflite : string
}.

Definition ONNX_MODELS : list (string * ModelInfo) :=
  [ ("craft_text_detection.onnx",
     MkInfo "https://github.com/clovaai/CRAFT-pytorch/releases/download/v1.0/craft_mlt_25k.onnx"
       (Some [ "https://github.com/JaidedAI/EasyOCR/releases/download/v1.6.0/craft_mlt_25k.onnx";
               "https://huggingface.co/datasets/keremberke/craft-text-detection/resolve/main/craft_mlt_25k.onnx" ])
       "CRAFT text detection model" "easyocr_text_detection.tflite");
    ("crnn_text_recognition.onnx",
     MkInfo "https://github.com/JaidedAI/EasyOCR/releases/download/v1.6.0/latin_g2.onnx"
       (Some [ "https://github.com/PaddlePaddle/PaddleOCR/releases/download/v2.6.1/en_PP-OCRv3_rec.onnx";
               "https://huggingface.co/datasets/keremberke/paddleocr-text-recognition/resolve/main/latin_g2.onnx" ])
       "CRNN text recognition model" "easyocr_text_recognition.tflite") ].

Definition download_file (w : World) (url : string) (filename : Path)
    (description : string) : M bool :=
  print (Download url filename) ;>
  ok <~ transfer w url filename ;
  if ok then print (Note "Successfully downloaded") ;> ret true
  else print (Note "Failed to download") ;> ret false.

Definition verify_onnx_model (t : Toolchain) (filename : Path) : M bool :=
  print (Note "Verifying ONNX model") ;>
  f <~ read filename ;
  match f ≫= onnx_load t with
  | Some model =>
      if onnx_check t model
      then print (Note "Valid ONNX model") ;> ret true
      else print (Note "ONNX model verification failed") ;> ret false
  | None => print (Note "ONNX model verification failed") ;> ret false
  end.

Definition conversion_failed : M bool :=
  print (Note "ONNX to TFLite conversion failed") ;> ret false.

Definition convert_onnx_to_tflite (w : World) (t : Toolchain)
    (onnx_path tflite_path : Path) : M bool :=
  print (Note "Converting ONNX to TFLite") ;>
  f <~ read onnx_path ;
  match f ≫= onnx_load t with
  | None => conversion_failed
  | Some onnx_model =>
      print (Note "ONNX model loaded") ;>
      let tf_model_path := pdiv (temp_dir t) "tf_model" in
      print (Note "Converting ONNX to TensorFlow...") ;>
      match export_graph t onnx_model with
      | None => conversion_failed
      | Some saved_model =>
          write tf_model_path saved_model ;>
          print (Note "TensorFlow model created") ;>
          print (Note "Converting TensorFlow to TensorFlow Lite...") ;>
          g <~ read tf_model_path ;
          match g ≫= tflite_convert t with
          | None => remove tf_model_path ;> conversion_failed
          | Some tflite_model =>
              print (Note "TensorFlow Lite model created") ;>
              saved <~ try_write w tflite_path tflite_model ;
              if saved then
                print (Note "TFLite model saved") ;>
                remove tf_model_path ;>
                ret true
              else remove tf_model_path ;> conversion_failed
          end
      end
  end.

Definition create_fallback_tflite (w : World) (t : Toolchain)
    (tflite_path : Path) (description : string) : M bool :=
  print (Note "Creating fallback TFLite model") ;>
  match keras_fallback t (str_in "detection" (lower (str tflite_path))) with
  | Some tflite_model =>
      saved <~ try_write w tflite_path tflite_model ;
      if saved then print (Note "Fallback TFLite model created") ;> ret true
      else print (Note "Failed to create fallback TFLite model") ;> ret false
  | None => print (Note "Failed to create fallback TFLite model") ;> ret false
  end.

(** the loop over [info['backup_urls']]; the result is [onnx_downloaded] *)
Fixpoint try_backups (w : World) (t : Toolchain) (onnx_path : Path)
    (backups : list string) : M bool :=
  match backups with
  | [] => ret false
  | backup_url :: rest =>
      ok <~ download_file w backup_url onnx_path "Backup" ;
      if ok then
        v <~ verify_onnx_model t onnx_path ;
        if v then ret true
        else
          print (Note "Backup ONNX source failed verification") ;>
          try_backups w t onnx_path rest
      else try_backups w t onnx_path rest
  end.

(** lines 265-285: the result is [onnx_downloaded] *)
Definition download_onnx (w : World) (t : Toolchain) (onnx_path : Path)
    (info : ModelInfo) : M bool :=
  onnx_downloaded <~
    (ok <~ download_file w (url info) onnx_path (description info) ;
     if ok then
       v <~ verify_onnx_model t onnx_path ;
       if v then ret true
       else print (Note "Primary ONNX source failed verification") ;> ret false
     else ret false) ;
  if negb onnx_downloaded then
    match backup_urls info with
    | Some backups =>
        print (Note "Trying backup sources...") ;>
        try_backups w t onnx_path backups
    | None => ret onnx_downloaded
    end
  else ret onnx_downloaded.

Definition process_model (w : World) (t : Toolchain) (script_dir : Path)
    (success_count : nat) (entry : string * ModelInfo) : M nat :=
  let (onnx_filename, info) := entry in
  let onnx_path := pdiv script_dir onnx_filename in
  let tflite_path := pdiv script_dir (output_tflite info) in
  onnx_downloaded <~ download_onnx w t onnx_path info ;
  if onnx_downloaded then
    converted <~ convert_onnx_to_tflite w t onnx_path tflite_path ;
    if converted then remove onnx_path ;> ret (S success_count)
    else
      print (Note "ONNX conversion failed, creating fallback model...") ;>
      made <~ create_fallback_tflite w t tflite_path (description info) ;
      if made then ret (S success_count) else ret success_count
  else
    print (Note "Could not download valid ONNX model, creating fallback...") ;>
    made <~ create_fallback_tflite w t tflite_path (description info) ;
    if made then ret (S success_count) else ret success_count.

Fixpoint process_models (w : World) (t : Toolchain) (script_dir : Path)
    (success_count : nat) (ms : list (string * ModelInfo)) : M nat :=
  match ms with
  | [] => ret success_count
  | entry :: rest =>
      c <~ process_model w t script_dir success_count entry ;
      process_models w t script_dir c rest
  end.

Definition main_with (ms : list (string * ModelInfo)) (w : World)
    (py : Python) (disk_after : PipEffect) (t : Toolchain)
    (script_dir : Path) : M bool :=
  deps <~ ConvertDependencies.run_check_dependencies py disk_after ;
  if negb deps then
    print (Note "Dependency check failed. Please install required packages.") ;>
    ret false
  else
    let total_models := length ms in
    success_count <~ process_models w t script_dir 0 ms ;
    ret (success_count =? total_models)%nat.

Definition main : World -> Python -> PipEffect -> Toolchain -> Path -> M bool :=
  main_with ONNX_MODELS.

End DownloadAndConvertOcrModels.

(** ** scripts/download_trocr_models.py: the ONNX to TFLite step *)

Module DownloadTrocrModels.

Definition conversion_failed : M bool :=
  print (Note "ONNX to TFLite conversion failed") ;> ret false.

Definition convert_onnx_to_tflite (w : World) (t : Toolchain)
    (onnx_path tflite_path : Path) : M bool :=
  print (Note "Converting ONNX to TFLite") ;>
  f <~ read onnx_path ;
  match f ≫= onnx_load t with
  | None => conversion_failed
  | Some onnx_model =>
      print (Note "ONNX model loaded") ;>
      let tf_model_path := pdiv (temp_dir t) "tf_model" in
      print (Note "Converting ONNX to TensorFlow...") ;>
      match export_graph t onnx_model with
      | None => conversion_failed
      | Some saved_model =>
          write tf_model_path saved_model ;>
          print (Note "TensorFlow model created") ;>
          print (Note "Converting TensorFlow to TensorFlow Lite...") ;>
          g <~ read tf_model_path ;
          match g ≫= tflite_convert t with
          | None => remove tf_model_path ;> conversion_failed
          | Some tflite_model =>
              print (Note "TensorFlow Lite model created") ;>
              saved <~ try_write w tflite_path tflite_model ;
              if saved then
                print (Note "TFLite model saved") ;>
                remove tf_model_path ;>
                ret true
              else remove tf_model_path ;> conversion_failed
          end
      end
  end.

End DownloadTrocrModels.

(** ** tests/generate_working_images.py

    Pillow is outside the repository: an image is the canvas it was
    created with and the text-drawing calls made on it; which TrueType
    files can be loaded and what [textbbox] measures are oracles. *)

Module GenerateWorkingImages.

Inductive Color := white | black.

Inductive Font :=
  | TrueType (file : string) (size : Z)
  | DefaultFont.

Record Pillow := MkPillow {
  (** [ImageFont.truetype(file, size)] does not raise *)
  has_font : string -> bool;
  (** [draw.textbbox((0, 0), text, font=font)] *)
  textbbox : string -> Font -> Z * Z * Z * Z
}.

Record TextOp := MkTextOp {
  xy : Z * Z;
  text : string;
  fill : Color;
  font : Font
}.

Record Image := MkImage {
  mode : string;
  size : Z * Z;
  background : Color;
  drawn : list TextOp
}.

(** [Image.new(mode, size, color)] *)
Definition Image_new (mode : string) (size : Z * Z) (color : Color) : Image :=
  MkImage mode size color [].

(** [draw.text(xy, text, fill=fill, font=font)] on the image's [Draw] *)
Definition draw_text (image : Image) (xy : Z * Z) (text : string)
    (fill : Color) (font : Font) : Image :=
  MkImage (mode image) (size image) (background image)
          (drawn image ++ [MkTextOp xy text fill font]).

(** the nested [try/except] around [ImageFont.truetype] *)
Definition load_font (pil : Pillow) (size : Z) : Font :=
  if has_font pil "arial.ttf" then TrueType "arial.ttf" size
  else if has_font pil "calibri.ttf" then TrueType "calibri.ttf" size
  else DefaultFont.

Definition create_wifi_test_image (pil : Pillow) : Image :=
  let '(width, height) := (600, 400)%Z in
  let image := Image_new "RGB" (width, height) white in
  let font := load_font pil 32 in
  let image := draw_text image (50, 70)%Z "SSID: TestNetwork" black font in
  let image := draw_text image (50, 170)%Z "Password: password123" black font in
  let image := draw_text image (50, 270)%Z "Security: WPA2" black font in
  image.

Definition create_simple_test_image (pil : Pillow) : Image :=
  let '(width, height) := (800, 200)%Z in
  let image := Image_new "RGB" (width, height) white in
  let font := load_font pil 48 in
  let text := "HELLO CAMERA TEST" in
  let '(b0, b1, b2, b3) := textbbox pil text font in
  let text_width := (b2 - b0)%Z in
  let text_height := (b3 - b1)%Z in
  let x := ((width - text_width) / 2)%Z in
  let y := ((height - text_height) / 2)%Z in
  draw_text image (x, y) text black font.

Inductive Format := PNG.

(** the format [Image.save] picks from the file name's extension; it
    raises on one it does not know *)
Definition format_of (p : Path) : option Format :=
  if str_endswith ".png" (lower (pname p)) then Some PNG else None.

Abbreviation Disk := (gmap Path (Format * Image)).

(** [image.save(path)]: [None] when it raises, on an extension it does
    not know or on a path that cannot be written; the disk is then as it
    was *)
Definition save (w : World) (image : Image) (p : Path) (d : Disk)
    : option Disk :=
  fmt ← format_of p ;
  if writable w p then Some (<[p := (fmt, image)]> d) else None.

Definition wifi_path (tests_dir : Path) : Path :=
  pdiv tests_dir "working_wifi_test_image.png".

Definition simple_path (tests_dir : Path) : Path :=
  pdiv tests_dir "working_simple_test_image.png".

(** how [main] ends: it returns, or an exception leaves it *)
Inductive Ended := Returned | Raised.

(** [main] with the disk as it leaves it *)
Definition main (w : World) (pil : Pillow) (tests_dir : Path) (d : Disk)
    : Ended * Disk :=
  let wifi_image := create_wifi_test_image pil in
  match save w wifi_image (wifi_path tests_dir) d with
  | None => (Raised, d)
  | Some d =>
      let simple_image := create_simple_test_image pil in
      match save w simple_image (simple_path tests_dir) d with
      | None => (Raised, d)
      | Some d => (Returned, d)
      end
  end.



End GenerateWorkingImages.

(** ** download_ocr_models.py: the progress hook of [download_file] *)

Module DownloadOcrModelsProgress.

(** [c * n] on a one-character string; empty for [n <= 0] *)
Definition times (c : ascii) (n : Z) : string :=
  string_of_list_ascii (repeat c (Z.to_nat n)).

(** what the hook prints: the bar and the percentage; [None] when it
    prints nothing *)
Definition progress_hook (block_num block_size total_size : Z)
    : option (string * Z) :=
  if (total_size >? 0)%Z then
    let percent := Z.min 100 ((block_num * block_size * 100) / total_size) in
    let bar_length := 30%Z in
    let filled_length := ((percent * bar_length) / 100)%Z in
    let bar := times "#" filled_length +:+ times "-" (bar_length - filled_length) in
    Some (bar, percent)
  else None.

End DownloadOcrModelsProgress.

(** ** scripts/download_trocr_models.py: the whole script *)

(** [s.replace(old, new)], for a non-empty [old] *)
Fixpoint replace_from (old new : string) (skip : nat) (s : string) : string :=
  match s with
  | EmptyString => EmptyString
  | String c s' =>
      match skip with
      | S k => replace_from old new k s'
      | O =>
          if str_startswith old s
          then new +:+ replace_from old new (String.length old - 1) s'
          else String c (replace_from old new 0 s')
      end
  end.

Definition replace (old new s : string) : string := replace_from old new 0 s.

(** torch and transformers: the ONNX file [torch.onnx.export] writes for
    the script's own [SimpleDBNet] and [SimpleTrOCR], [None] when the
    import or the export raises *)
Record Torch := MkTorch {
  export_dbnet : option bytes;
  export_trocr : option bytes
}.

Module DownloadTrocrModelsScript.

Record ModelInfo := MkInfo {
  type : string;
  url : string;
  backup_urls : option (list string);
  description : string;
  output_tflite : string;
  config_url : option string
}.

Definition TROCR_MODELS : list (string * ModelInfo) :=
  [ ("dbnet_text_detection.onnx",
     MkInfo "detection"
       "https://github.com/MhLiao/DB/releases/download/v1.1.1/totaltext_resnet50_deform_synthtext.pth"
       (Some [ "https://huggingface.co/tomofi/DBNet/resolve/main/dbnet_resnet50.pth";
               "https://github.com/WenmuZhou/DBNet.pytorch/releases/download/v1.0/dbnet_resnet50.pth" ])
       "DBNet++ text detection model" "trocr_text_detection.tflite" None);
    ("trocr_text_recognition.onnx",
     MkInfo "recognition"
       "https://huggingface.co/microsoft/trocr-base-printed/resolve/main/pytorch_model.bin"
       (Some [ "https://huggingface.co/microsoft/trocr-small-printed/resolve/main/pytorch_model.bin";
               "https://huggingface.co/microsoft/trocr-base-stage1/resolve/main/pytorch_model.bin" ])
       "TrOCR text recognition model (Transformer-based)"
       "trocr_text_recognition.tflite"
       (Some "https://huggingface.co/microsoft/trocr-base-printed/resolve/main/config.json")) ].

Definition download_file (w : World) (url : string) (filename : Path)
    (description : string) : M bool :=
  print (Download url filename) ;>
  ok <~ transfer w url filename ;
  if ok then print (Note "Successfully downloaded") ;> ret true
  else print (Note "Failed to download") ;> ret false.

(** neither converter opens [pytorch_path] (nor [config_path]) *)
Definition convert_dbnet_to_onnx (w : World) (torch : Torch)
    (pytorch_path onnx_path : Path) : M bool :=
  match export_dbnet torch with
  | Some onnx =>
      print (Note "Converting DBNet PyTorch to ONNX") ;>
      saved <~ try_write w onnx_path onnx ;
      if saved then print (Note "DBNet ONNX model created") ;> ret true
      else print (Note "DBNet conversion failed") ;> ret false
  | None => print (Note "DBNet conversion failed") ;> ret false
  end.

Definition convert_trocr_to_onnx (w : World) (torch : Torch)
    (pytorch_path : Path) (config_path : option Path) (onnx_path : Path)
    : M bool :=
  match export_trocr torch with
  | Some onnx =>
      print (Note "Converting TrOCR to ONNX") ;>
      saved <~ try_write w onnx_path onnx ;
      if saved then print (Note "TrOCR ONNX model created") ;> ret true
      else print (Note "TrOCR conversion failed") ;> ret false
  | None => print (Note "TrOCR conversion failed") ;> ret false
  end.

Definition create_fallback_tflite (w : World) (t : Toolchain)
    (tflite_path : Path) (model_type : string) : M bool :=
  print (Note "Creating fallback TFLite model") ;>
  match keras_fallback t (String.eqb model_type "detection") with
  | Some tflite_model =>
      saved <~ try_write w tflite_path tflite_model ;
      if saved then print (Note "Fallback TFLite model created") ;> ret true
      else print (Note "Failed to create fallback TFLite model") ;> ret false
  | None => print (Note "Failed to create fallback TFLite model") ;> ret false
  end.

(** the loop over [info['backup_urls']]; the result is [model_downloaded] *)
Fixpoint try_backups (w : World) (pytorch_path : Path)
    (backups : list string) : M bool :=
  match backups with
  | [] => ret false
  | backup_url :: rest =>
      ok <~ download_file w backup_url pytorch_path "Backup" ;
      if ok then ret true else try_backups w pytorch_path rest
  end.

(** the result is [model_downloaded] *)
Definition download_model (w : World) (pytorch_path : Path)
    (info : ModelInfo) : M bool :=
  model_downloaded <~
    download_file w (url info) pytorch_path (description info) ;
  if negb model_downloaded then
    match backup_urls info with
    | Some backups =>
        print (Note "Trying backup sources...") ;>
        try_backups w pytorch_path backups
    | None => ret model_downloaded
    end
  else ret model_downloaded.

(** [os.remove], which raises on a missing file: [false] *)
Definition os_remove (p : Path) : M bool :=
  f <~ read p ;
  match f with
  | Some _ => remove p ;> ret true
  | None => ret false
  end.

(** the [try: ... except: pass] that removes the temporary files *)
Definition cleanup (pytorch_path onnx_path : Path) : M unit :=
  gone <~ os_remove pytorch_path ;
  if gone then
    gone <~ os_remove onnx_path ;
    if gone then print (Note "Cleaned up temporary files") else ret tt
  else ret tt.

Definition process_model (w : World) (t : Toolchain) (torch : Torch)
    (script_dir assets_dir : Path) (success_count : nat)
    (entry : string * ModelInfo) : M nat :=
  let (model_filename, info) := entry in
  let pytorch_path := pdiv script_dir (replace ".onnx" ".pth" model_filename) in
  let onnx_path := pdiv script_dir model_filename in
  let tflite_path := pdiv assets_dir (output_tflite info) in
  model_downloaded <~ download_model w pytorch_path info ;
  if model_downloaded then
    conversion_success <~
      (if String.eqb (type info) "detection" then
         convert_dbnet_to_onnx w torch pytorch_path onnx_path
       else
         config_path <~
           match config_url info with
           | Some cu =>
               let config_path := pdiv script_dir "config.json" in
               download_file w cu config_path "TrOCR config" ;>
               ret (Some config_path)
           | None => ret None
           end ;
         convert_trocr_to_onnx w torch pytorch_path config_path onnx_path) ;
    if conversion_success then
      converted <~
        DownloadTrocrModels.convert_onnx_to_tflite w t onnx_path tflite_path ;
      if converted then
        cleanup pytorch_path onnx_path ;>
        ret (S success_count)
      else
        print (Note "ONNX conversion failed, creating fallback model...") ;>
        made <~ create_fallback_tflite w t tflite_path (type info) ;
        if made then ret (S success_count) else ret success_count
    else
      print (Note "PyTorch conversion failed, creating fallback model...") ;>
      made <~ create_fallback_tflite w t tflite_path (type info) ;
      if made then ret (S success_count) else ret success_count
  else
    print (Note "Could not download model, creating fallback...") ;>
    made <~ create_fallback_tflite w t tflite_path (type info) ;
    if made then ret (S success_count) else ret success_count.

Fixpoint process_models (w : World) (t : Toolchain) (torch : Torch)
    (script_dir assets_dir : Path) (success_count : nat)
    (ms : list (string * ModelInfo)) : M nat :=
  match ms with
  | [] => ret success_count
  | entry :: rest =>
      c <~ process_model w t torch script_dir assets_dir success_count entry ;
      process_models w t torch script_dir assets_dir c rest
  end.

Definition assets_dir (script_dir : Path) : Path :=
  pdiv (pdiv (pdiv (pdiv (parent script_dir) "app") "src") "main") "assets".

Definition main_with (ms : list (string * ModelInfo)) (w : World)
    (py : Python) (disk_after : PipEffect) (t : Toolchain) (torch : Torch)
    (script_dir : Path) : M bool :=
  deps <~ TrocrDependencies.run_check_dependencies py disk_after ;
  if negb deps then
    print (Note "Dependency check failed. Please install required packages.") ;>
    ret false
  else
    let total_models := length ms in
    success_count <~
      process_models w t torch script_dir (assets_dir script_dir) 0 ms ;
    ret (success_count =? total_models)%nat.

Definition main : World -> Python -> PipEffect -> Toolchain -> Torch -> Path
    -> M bool :=
  main_with TROCR_MODELS.

End DownloadTrocrModelsScript.

(** ** scripts/download_paddleocr_models.py: the mock and reference files *)

Module DownloadPaddleocrModels.

(** [s.encode('utf-8')] of a [str] held as its UTF-8 bytes *)
Definition encode (s : string) : bytes := list_byte_of_string s.

(** the bytes [create_mock_tflite] builds *)
Definition mock_data (model_type : string) : bytes :=
  let tflite_header := TFL3 in
  let tflite_header := tflite_header ++ repeat x00 16 in
  let model_data := encode ("Mock " +:+ model_type +:+ " model") in
  let tflite_header := tflite_header ++ model_data in
  tflite_header ++ repeat x00 (1024 - length tflite_header).

(** the [open] is not guarded: [false] is the exception leaving the
    function *)
Definition create_mock_tflite (w : World) (filepath : Path)
    (model_type : string) : M bool :=
  saved <~ try_write w filepath (mock_data model_type) ;
  if saved then print (Note "Created mock model") ;> ret true
  else ret false.

Definition newline : string := String (ascii_of_nat 10) EmptyString.

(** lines 203-207: what is written to [model['tflite_file']] when the
    conversion did not go through *)
Definition reference_text (name url : string) (model_dir : Path) : string :=
  "# " +:+ name +:+ " Model Reference" +:+ newline +:+
  "# Source: " +:+ url +:+ newline +:+
  "# Extracted to: " +:+ str model_dir +:+ newline +:+
  "# Needs conversion: paddle2onnx -> onnx-tf -> tflite" +:+ newline.

(** [true] when the block ran through, [false] when [open] raised (the
    loop's [except] then takes over) *)
Definition write_reference (w : World) (tflite_file : Path)
    (name url : string) (model_dir : Path) : M bool :=
  print (Note "Conversion failed, creating reference...") ;>
  try_write w tflite_file (encode (reference_text name url model_dir)).

(** lines 217-219, over the [(name, tflite_file)] of the models; [false]
    is an exception leaving [main] *)
Fixpoint mock_models (w : World) (models : list (string * Path)) : M bool :=
  match models with
  | [] => ret true
  | (name, tflite_file) :: rest =>
      f <~ read tflite_file ;
      proceed <~
        (if match f with
            | Some data => (getsize data <? 100)%Z
            | None => true
            end
         then create_mock_tflite w tflite_file name
         else ret true) ;
      if proceed then mock_models w rest else ret false
  end.

(** lines 215-224 *)
Definition mock_phase (w : World) (success_count : nat)
    (models : list (string * Path)) : M bool :=
  if (success_count =? 0)%nat then
    print (Note "Creating Mock Models for Testing") ;>
    done <~ mock_models w models ;
    if done then print (Note "Mock models created.") ;> ret true
    else ret false
  else print (Note "Successfully processed models") ;> ret true.

End DownloadPaddleocrModels.

(** ** Vocabulary of the properties *)

(** the sources of a list that a try-until-success loop visits: those up
    to and including the first one that succeeds *)
Fixpoint upto_first {A} (ok : A -> bool) (l : list A) : list A :=
  match l with
  | [] => []
  | x :: l' => if ok x then [x] else x :: upto_first ok l'
  end.

(** a URL whose download completes and whose body passes
    [verify_onnx_model] *)
Definition good_source (w : World) (t : Toolchain) (url : string) : bool :=
  match fetch w url with
  | Fetched body =>
      match onnx_load t body with
      | Some model => onnx_check t model
      | None => false
      end
  | Failed _ => false
  end.

(** a transfer that raises *)
Definition fails (w : World) (url : string) : Prop :=
  exists residue : option bytes, fetch w url = Failed residue.

(** what a failed transfer to [p] leaves of the disk *)
Definition leave (p : Path) (residue : option bytes) (m : gmap Path bytes)
    : gmap Path bytes :=
  match residue with
  | Some part => <[p := part]> m
  | None => m
  end.

(** the file at the target is there and within tolerance already *)
Definition already_verified (s : State) (target : Path)
    (expected : B64.float) : bool :=
  match fs s !! target with
  | Some data =>
      negb (B64.gt (B64.abs (B64.sub (B64.megabytes data) expected))
              DownloadOcrModels.default_tolerance)
  | None => false
  end.

(** the three lines of [process_model] around the primary URL *)
Definition easyocr_primary (w : World) (p : Path)
    (info : DownloadEasyocrModels.ModelInfo) : M bool :=
  bind (DownloadEasyocrModels.download_file w
          (DownloadEasyocrModels.url info) p
          (DownloadEasyocrModels.description info))
    (fun ok =>
       if ok then
         bind (DownloadEasyocrModels.verify_file p)
           (fun v =>
              if v then ret true
              else bind (print (Note "Primary source failed verification"))
                     (fun _ => ret false))
       else ret false).

(** every URL download_easyocr_models.py may try for a model *)
Definition easyocr_all_urls (file_path : Path)
    (info : DownloadEasyocrModels.ModelInfo) : list string :=
  default [] (DownloadEasyocrModels.DIRECT_TFLITE_SOURCES !! str file_path)
  ++ DownloadEasyocrModels.url info
  :: default [] (DownloadEasyocrModels.alternative_urls info).

(** what the three library stages make of the file at [onnx_path] *)
Definition staged (t : Toolchain) (onnx_path : Path) (s : State)
    : option (bytes * bytes * bytes) :=
  onnx ← fs s !! onnx_path ;
  model ← onnx_load t onnx ;
  saved ← export_graph t model ;
  tfl ← tflite_convert t saved ;
  Some (model, saved, tfl).

(** what a successful [convert_onnx_to_tflite] prints, in order *)
Definition conversion_notes : list Event :=
  [ Note "Converting ONNX to TFLite";
    Note "ONNX model loaded";
    Note "Converting ONNX to TensorFlow...";
    Note "TensorFlow model created";
    Note "Converting TensorFlow to TensorFlow Lite...";
    Note "TensorFlow Lite model created";
    Note "TFLite model saved" ].

(** a computation that changes no file other than [p] *)
Definition confined {A} (p : Path) (m : M A) : Prop :=
  forall (s : State) (q : Path), q <> p -> fs (snd (m s)) !! q = fs s !! q.

(** [c * 2 ^ k] on positive numbers *)
Fixpoint shl (k : nat) (c : positive) : positive :=
  match k with
  | O => c
  | S k' => xO (shl k' c)
  end.

(** a URL that download_ocr_tflite_direct.py moves on from: the transfer
    raises, or the body has fewer than 1024 bytes *)
Definition turned_down (w : World) (u : string) : Prop :=
  match fetch w u with
  | Fetched body => (getsize body < 1024)%Z
  | Failed _ => True
  end.

(** ** Sample worlds and files *)

(** nothing on disk, nothing printed yet *)
Definition fresh : State := MkState ∅ [].

(** every transfer fails at once; every path can be written *)
Definition offline : World := MkWorld (fun _ => Failed None) (fun _ => true).

(** every transfer fails at once and no path can be written *)
Definition sealed : World := MkWorld (fun _ => Failed None) (fun _ => false).

(** every URL serves the same body *)
Definition serving (body : bytes) : World :=
  MkWorld (fun _ => Fetched body) (fun _ => true).

(** a disk holding one file *)
Definition holding (p : Path) (data : bytes) : State := MkState {[ p := data ]} [].

(** what [create_working_tflite_model] leaves on a fresh disk *)
Definition stubbed : State :=
  MkState
    (<[rel ["easyocr_text_detection.tflite"] :=
         DownloadOcrTfliteDirect.stub_data (rel ["easyocr_text_detection.tflite"])]>
       ∅)
    [ Note "Creating minimal working TFLite model";
      Note "Created minimal TFLite model" ].

(** 2048 zero bytes: long enough for any size floor, no magic anywhere *)
Definition zeros : bytes := repeat x00 2048.

Definition model_path : Path := rel ["scripts"; "model.tflite"].

(** a body with the magic at offset 4, as real models have it *)
Definition magic_at_4 : bytes :=
  [x1c; x00; x00; x00; x54; x46; x4c; x33] ++ repeat x00 24.

(** half a megabyte and one byte *)
Definition half_mb_and_a_byte : bytes := repeat x00 (Z.to_nat 524289).

(** the float [2 ** -20 - 2 ** -73], the one just below [2 ** -20] *)
Definition just_under_a_byte : B64.float :=
  S754_finite false 9007199254740991 (-73).

(** the first URL of the first entry of [TFLITE_MODELS] is down, every
    other URL delivers 2048 zero bytes *)
Definition second_serves_zeros : World :=
  MkWorld
    (fun u =>
       if String.eqb u "https://github.com/tulasiram58827/ocr_tflite/raw/main/models/craft_text_detector_float16.tflite"
       then Failed None else Fetched zeros)
    (fun _ => true).

(** the script's directory in the samples *)
Definition scripts : Path := rel ["project"; "scripts"].


(** the first model of download_craft_keras_tflite_models.py *)
Definition craft_model : DownloadCraftKerasTfliteModels.Model :=
  DownloadCraftKerasTfliteModels.MkModel "CRAFT Text Detection"
    "CRAFT text detection model trained on SynthText, IC13, IC17"
    "https://github.com/tulasiram58827/craft_tflite/raw/main/models/craft_float16.tflite"
    (pdiv (DownloadCraftKerasTfliteModels.assets_dir scripts)
          "craft_text_detection.tflite").

(** 10001 bytes, the least size that counts as a real model there *)
Definition big : bytes := repeat x00 (Z.to_nat 10001).

(** an interpreter in which every package imports, and no install works *)
Definition all_installed : Python := MkPython (fun _ => true) (fun _ => false).

(** a tool chain where every step succeeds and leaves a trace of itself *)
Definition working_tools : Toolchain :=
  MkToolchain
    (fun b => Some (x01 :: b))
    (fun _ => true)
    (fun b => Some (x02 :: b))
    (fun b => Some (x03 :: b))
    (fun _ => Some [x04])
    (MkPath "/" ["tmp"; "tmpdir"]).

(** a tool chain whose ONNX loader always raises *)
Definition broken_tools : Toolchain :=
  MkToolchain (fun _ => None) (fun _ => false) (fun _ => None)
    (fun _ => None) (fun _ => None) (MkPath "/" ["tmp"; "tmpdir"]).

Definition onnx_file : Path := pdiv scripts "craft_text_detection.onnx".
Definition tflite_file : Path := pdiv scripts "easyocr_text_detection.tflite".

(** the first entry of [MODELS] in download_ocr_models.py *)
Definition eng_info : DownloadOcrModels.ModelInfo :=
  DownloadOcrModels.MkInfo
    "https://github.com/tesseract-ocr/tessdata/raw/main/eng.traineddata"
    (Some "https://github.com/tesseract-ocr/tessdata_fast/raw/main/eng.traineddata")
    (B64.of_int 15) "English language data (primary)".

Definition eng_path : Path := pdiv DownloadOcrModels.assets_dir "eng.traineddata".

(** the first entry of [ONNX_MODELS] *)
Definition craft_onnx_info : DownloadAndConvertOcrModels.ModelInfo :=
  DownloadAndConvertOcrModels.MkInfo
    "https://github.com/clovaai/CRAFT-pytorch/releases/download/v1.0/craft_mlt_25k.onnx"
    (Some [ "https://github.com/JaidedAI/EasyOCR/releases/download/v1.6.0/craft_mlt_25k.onnx";
            "https://huggingface.co/datasets/keremberke/craft-text-detection/resolve/main/craft_mlt_25k.onnx" ])
    "CRAFT text detection model" "easyocr_text_detection.tflite".

(** the primary URL of the first entry of [ONNX_MODELS] is down, every
    other URL delivers one byte *)
Definition primary_down : World :=
  MkWorld
    (fun u =>
       if String.eqb u (DownloadAndConvertOcrModels.url craft_onnx_info)
       then Failed None else Fetched [x00])
    (fun _ => true).

(** the first entry of [TFLITE_MODELS] *)
Definition detection_info : DownloadOcrTfliteDirect.ModelInfo :=
  DownloadOcrTfliteDirect.MkInfo
    [ "https://github.com/tulasiram58827/ocr_tflite/raw/main/models/craft_text_detector_float16.tflite";
      "https://github.com/tulasiram58827/ocr_tflite/raw/main/models/craft_text_detector_dynamic_range.tflite";
      "https://tfhub.dev/tulasiram58827/lite-model/craft-text-detector/float16/1?lite-format=tflite";
      "https://storage.googleapis.com/tfhub-lite-models/tulasiram58827/lite-model/craft-text-detector/float16/1/default/1.tflite" ]
    "CRAFT text detection model"
    (23 # 10).

(** the first entry of [MODELS] in download_easyocr_models.py *)
Definition easyocr_detection_info : DownloadEasyocrModels.ModelInfo :=
  DownloadEasyocrModels.MkInfo
    "https://github.com/PaddlePaddle/PaddleOCR/raw/release/2.6/inference/ch_PP-OCRv3_det_infer.tar"
    "PaddleOCR text detection model (converted to TFLite)" (23 # 10)
    (Some ["https://huggingface.co/PaddlePaddle/PaddleOCR/resolve/main/ch_PP-OCRv3_det_infer.tar"]).

(** a file of more than 10000 bytes at [p]: what
    download_craft_keras_tflite_models.py takes for a real model *)
Definition holds_model (m : gmap Path bytes) (p : Path) : bool :=
  match m !! p with
  | Some data => (getsize data >? 10000)%Z
  | None => false
  end.

(** a disk on which the three models of
    download_craft_keras_tflite_models.py are installed *)
Definition craft_installed : State :=
  MkState
    (<[pdiv (DownloadCraftKerasTfliteModels.assets_dir scripts)
         "craft_text_detection.tflite" := big]>
     (<[pdiv (DownloadCraftKerasTfliteModels.assets_dir scripts)
          "keras_text_recognition.tflite" := big]>
      (<[pdiv (DownloadCraftKerasTfliteModels.assets_dir scripts)
           "cnn_text_recognition.tflite" := big]> ∅)))
    [].

(** * Properties *)

Lemma bind_run {A B} (m : M A) (k : A -> M B) (s : State) :
  bind m k s = k (fst (m s)) (snd (m s)).
Proof. unfold bind. destruct (m s); reflexivity. Qed.

Ltac mstep := rewrite bind_run; cbv beta.

Lemma ret_run {A} (a : A) (s : State) : ret a s = (a, s).
Proof. reflexivity. Qed.

Lemma print_run (e : Event) (s : State) :
  print e s = (tt, MkState (fs s) (out s ++ [e])).
Proof. reflexivity. Qed.

Lemma exists_run (p : Path) (s : State) :
  exists_ p s = (bool_decide (is_Some (fs s !! p)), s).
Proof. reflexivity. Qed.

(** push a monadic computation applied to a state as far as it goes *)
Ltac mrun :=
  cbv beta iota zeta delta
    [bind ret print read write remove exists_ try_write transfer];
  cbn [fst snd fs out negb].

Tactic Notation "mrun" "in" hyp(H) :=
  cbv beta iota zeta delta
    [bind ret print read write remove exists_ try_write transfer] in H;
  cbn [fst snd fs out negb] in H.

Lemma attempts_app (l l' : list Event) :
  attempts (l ++ l') = attempts l ++ attempts l'.
Proof.
  induction l as [|[u d|m] l IH]; simpl; [reflexivity| |exact IH].
  rewrite IH. reflexivity.
Qed.

Arguments bytes_startswith : simpl never.
Arguments bytes_in : simpl never.
Arguments str_in : simpl never.

(** ** Size verification (download_ocr_models.py) *)

Lemma verify_file_size_result (filepath : Path)
    (expected tolerance : B64.float) (s : State) :
  fst (DownloadOcrModels.verify_file_size filepath expected tolerance s) =
  match fs s !! filepath with
  | Some data =>
      negb (B64.gt (B64.abs (B64.sub (B64.megabytes data) expected)) tolerance)
  | None => false
  end.
Proof.
  unfold DownloadOcrModels.verify_file_size. mrun.
  destruct (fs s !! filepath) as [data|]; [|reflexivity].
  destruct (B64.gt _ _); reflexivity.
Qed.

Lemma verify_file_size_fs (filepath : Path) (expected tolerance : B64.float)
    (s : State) :
  fs (snd (DownloadOcrModels.verify_file_size filepath expected tolerance s))
  = fs s.
Proof.
  unfold DownloadOcrModels.verify_file_size. mrun.
  destruct (fs s !! filepath) as [data|]; [|reflexivity].
  destruct (B64.gt _ _); reflexivity.
Qed.

(** *** Numbers of at most 53 bits are not rounded *)

Lemma shl_add (a b : nat) (c : positive) :
  shl (a + b)%nat c = shl a (shl b c).
Proof. induction a as [|a IH]; cbn; [reflexivity|]. rewrite IH. reflexivity. Qed.

Lemma Pos_iter_xO (c d : positive) : Pos.iter xO c d = shl (Pos.to_nat d) c.
Proof.
  rewrite Pos2Nat.inj_iter. induction (Pos.to_nat d); cbn; congruence.
Qed.

Lemma Zpos_shl (k : nat) (c : positive) :
  Zpos (shl k c) = (Zpos c * 2 ^ Z.of_nat k)%Z.
Proof.
  induction k as [|k IH].
  - cbn. lia.
  - rewrite Nat2Z.inj_succ, Z.pow_succ_r by lia. cbn [shl].
    rewrite Pos2Z.inj_xO, IH. lia.
Qed.

Lemma digits_shl (k : nat) (c : positive) :
  Zpos (digits2_pos (shl k c)) = (Zpos (digits2_pos c) + Z.of_nat k)%Z.
Proof.
  induction k as [|k IH].
  - cbn. lia.
  - cbn [shl digits2_pos]. rewrite Pos2Z.inj_succ, IH. lia.
Qed.

Lemma digits_bounds (c : positive) :
  (2 ^ (Zpos (digits2_pos c) - 1) <= Zpos c < 2 ^ Zpos (digits2_pos c))%Z.
Proof.
  induction c as [c IH|c IH|]; cbn [digits2_pos]; rewrite ?Pos2Z.inj_succ.
  - replace (Z.succ (Zpos (digits2_pos c)) - 1)%Z
      with (Z.succ (Zpos (digits2_pos c) - 1))%Z by lia.
    rewrite !Z.pow_succ_r by lia. lia.
  - replace (Z.succ (Zpos (digits2_pos c)) - 1)%Z
      with (Z.succ (Zpos (digits2_pos c) - 1))%Z by lia.
    rewrite !Z.pow_succ_r by lia. lia.
  - cbn. lia.
Qed.

Lemma digits_le_53 (c : positive) :
  (Zpos c < 2 ^ 53)%Z -> (0 <= 53 - Zpos (digits2_pos c))%Z.
Proof.
  intros H. pose proof (digits_bounds c) as [Lo _].
  destruct (Z.le_gt_cases (Zpos (digits2_pos c)) 53) as [|G]; [lia|].
  assert (Z.le (2 ^ 53) (2 ^ (Zpos (digits2_pos c) - 1)))
    by (apply Z.pow_le_mono_r; lia).
  lia.
Qed.

Lemma iter_pos_iter {A : Type} (f : A -> A) (p : positive) (x : A) :
  SpecFloat.iter_pos f p x = Pos.iter f x p.
Proof.
  revert x. induction p as [p IH|p IH|]; intros x; cbn.
  - rewrite !IH. rewrite <- !Pos.iter_swap. reflexivity.
  - rewrite !IH. reflexivity.
  - reflexivity.
Qed.

Lemma shr_exact_nat (k : nat) : forall (r : nat) (c : positive),
  nat_rect (fun _ => shr_record)
    (Build_shr_record (Zpos (shl (k + r)%nat c)) false false)
    (fun _ => shr_1) k
  = Build_shr_record (Zpos (shl r c)) false false.
Proof.
  induction k as [|k IH]; intros r c.
  - reflexivity.
  - cbn [nat_rect]. replace (S k + r)%nat with (k + S r)%nat by lia.
    rewrite IH. reflexivity.
Qed.

(** shifting out bits that are all zero loses nothing *)
Lemma shr_exact (p : positive) (r : nat) (c : positive) :
  SpecFloat.iter_pos shr_1 p
    (Build_shr_record (Zpos (shl (Pos.to_nat p + r)%nat c)) false false)
  = Build_shr_record (Zpos (shl r c)) false false.
Proof.
  rewrite iter_pos_iter, Pos2Nat.inj_iter. apply shr_exact_nat.
Qed.

(** rounding [c * 2 ^ j * 2 ^ ez] where [c] has at most 53 bits gives
    the same number with its mantissa brought to 53 bits *)
Lemma binary_round_exact (sx : bool) (c : positive) (j : nat) (ez : Z) :
  let t := (53 - Zpos (digits2_pos c))%Z in
  (0 <= t)%Z ->
  (-1074 <= ez + Z.of_nat j - t <= 971)%Z ->
  binary_round 53 1024 sx (shl j c) ez
  = S754_finite sx (shl (Z.to_nat t) c) (ez + Z.of_nat j - t).
Proof.
  cbv zeta. intros Ht Hr.
  set (d := Zpos (digits2_pos c)) in *.
  unfold binary_round.
  rewrite digits_shl. fold d.
  assert (F : fexp 53 1024 (d + Z.of_nat j + ez) = (d + Z.of_nat j + ez - 53)%Z).
  { unfold fexp, emin. lia. }
  rewrite F.
  assert (C : forall (m : positive) (e : Z),
    Zpos (digits2_pos m) = 53%Z -> (-1074 <= e <= 971)%Z ->
    binary_round_aux 53 1024 sx (Zpos m) e loc_Exact = S754_finite sx m e).
  { intros m e Hm He. unfold binary_round_aux, shr_fexp.
    cbn [Zdigits2 shr_record_of_loc]. rewrite Hm.
    assert (F2 : (fexp 53 1024 (53 + e) - e = 0)%Z) by (unfold fexp, emin; lia).
    rewrite F2. cbn [shr round_nearest_even shr_m loc_of_shr_record Zdigits2
                     shr_record_of_loc].
    rewrite Hm, F2. cbn [shr shr_m].
    destruct (Z.leb_spec e (1024 - 53)); [reflexivity|lia]. }
  unfold shl_align.
  destruct (d + Z.of_nat j + ez - 53 - ez)%Z as [|q|q] eqn:Eq.
  - (* 53 bits already *)
    assert (Z.of_nat j = 53 - d)%Z by lia.
    replace (Z.to_nat (53 - d)) with j by lia.
    replace (ez + Z.of_nat j - (53 - d))%Z with ez by lia.
    apply C; [rewrite digits_shl; fold d; lia|lia].
  - (* more than 53 bits: the low ones are zero *)
    unfold binary_round_aux, shr_fexp.
    cbn [Zdigits2 shr_record_of_loc]. rewrite digits_shl. fold d. rewrite F, Eq.
    cbn [shr].
    replace j with (Pos.to_nat q + Z.to_nat (53 - d))%nat by lia.
    rewrite shr_exact.
    cbn [shr_m loc_of_shr_record round_nearest_even Zdigits2 shr_record_of_loc].
    rewrite digits_shl. fold d.
    assert (F2 : (fexp 53 1024 (d + Z.of_nat (Z.to_nat (53 - d)) + (ez + Zpos q))
                  - (ez + Zpos q) = 0)%Z) by (unfold fexp, emin; lia).
    rewrite F2. cbn [shr shr_m].
    destruct (Z.leb_spec (ez + Zpos q) (1024 - 53)); [|lia].
    f_equal. lia.
  - (* fewer than 53 bits: shifted left *)
    rewrite Pos_iter_xO, <- shl_add.
    replace (Pos.to_nat q + j)%nat with (Z.to_nat (53 - d)) by lia.
    replace (ez + Z.of_nat j - (53 - d))%Z with (d + Z.of_nat j + ez - 53)%Z by lia.
    apply C; [rewrite digits_shl; fold d; lia|lia].
Qed.

Lemma binary_normalize_exact (K J ez : Z) :
  (K <> 0)%Z -> (Z.abs K < 2 ^ 53)%Z -> (0 <= J)%Z ->
  let c := Z.to_pos (Z.abs K) in
  let t := (53 - Zpos (digits2_pos c))%Z in
  (-1074 <= ez + J - t <= 971)%Z ->
  binary_normalize 53 1024 (K * 2 ^ J) ez false
  = S754_finite (K <? 0)%Z (shl (Z.to_nat t) c) (ez + J - t).
Proof.
  cbv zeta. intros HK Hb HJ Hr.
  set (c := Z.to_pos (Z.abs K)) in *.
  assert (Hc : Zpos c = Z.abs K) by (unfold c; rewrite Z2Pos.id; lia).
  assert (Ht : (0 <= 53 - Zpos (digits2_pos c))%Z) by (apply digits_le_53; lia).
  assert (P : (0 < 2 ^ J)%Z) by (apply Z.pow_pos_nonneg; lia).
  assert (S : Zpos (shl (Z.to_nat J) c) = (Z.abs K * 2 ^ J)%Z).
  { rewrite Zpos_shl, Z2Nat.id, Hc by lia. reflexivity. }
  destruct (Z.ltb_spec K 0) as [Hn|Hp].
  - replace (K * 2 ^ J)%Z with (Zneg (shl (Z.to_nat J) c)).
    2:{ rewrite <- Pos2Z.opp_pos, S. lia. }
    cbn [binary_normalize].
    rewrite (binary_round_exact true c (Z.to_nat J) ez Ht);
      rewrite Z2Nat.id by lia; [reflexivity|exact Hr].
  - replace (K * 2 ^ J)%Z with (Zpos (shl (Z.to_nat J) c)).
    2:{ rewrite S. lia. }
    cbn [binary_normalize].
    rewrite (binary_round_exact false c (Z.to_nat J) ez Ht);
      rewrite Z2Nat.id by lia; [reflexivity|exact Hr].
Qed.

Lemma shl_align_fst (mx : positive) (ex ez : Z) :
  (ez <= ex)%Z ->
  Zpos (fst (shl_align mx ex ez)) = (Zpos mx * 2 ^ (ex - ez))%Z.
Proof.
  intros H. unfold shl_align.
  destruct (ez - ex)%Z as [|q|q] eqn:E; cbn [fst].
  - replace (ex - ez)%Z with 0%Z by lia. lia.
  - lia.
  - rewrite Pos_iter_xO, Zpos_shl. f_equal. f_equal. lia.
Qed.

(** comparing [0.5] with [c * 2 ^ E] in its 53-bit form *)
Lemma gt_half_canonical (s : bool) (c : positive) (E : Z) :
  let t := (53 - Zpos (digits2_pos c))%Z in
  (0 <= t)%Z -> (E <= 0)%Z ->
  B64.gt (B64.abs (S754_finite s (shl (Z.to_nat t) c) (E - t))) B64.half
  = (2 ^ (- E) <? 2 * Zpos c)%Z.
Proof.
  cbv zeta. intros Ht HE.
  pose proof (digits_bounds c) as [Lo Hi].
  set (d := Zpos (digits2_pos c)) in *.
  assert (Hd : (1 <= d)%Z) by (unfold d; lia).
  change B64.half with (S754_finite false 4503599627370496 (-53)).
  unfold B64.gt, B64.abs, SFabs, SFltb, SFcompare.
  destruct (Z.compare_spec (-53) (E - (53 - d))) as [He|He|He].
  - (* same exponent: the mantissas decide *)
    assert (dE : (- E = d)%Z) by lia. rewrite dE.
    change (Pos.compare_cont Eq ?a ?b) with (Pos.compare a b).
    rewrite Pos2Z.inj_compare, Zpos_shl.
    rewrite Z2Nat.id by lia.
    assert (P : (4503599627370496 = 2 ^ (d - 1) * 2 ^ (53 - d))%Z).
    { rewrite <- Z.pow_add_r by lia.
      replace (d - 1 + (53 - d))%Z with 52%Z by lia. reflexivity. }
    rewrite P.
    assert (Q : (0 < 2 ^ (53 - d))%Z) by (apply Z.pow_pos_nonneg; lia).
    assert (D : (2 ^ d = 2 * 2 ^ (d - 1))%Z).
    { rewrite <- Z.pow_succ_r by lia. f_equal. lia. }
    destruct (Z.compare_spec (2 ^ (d - 1) * 2 ^ (53 - d)) (Zpos c * 2 ^ (53 - d)))
      as [Hc|Hc|Hc]; destruct (Z.ltb_spec (2 ^ d) (2 * Zpos c)); try reflexivity;
      exfalso; nia.
  - (* the number has the larger exponent *)
    assert (Z.le (2 ^ (- E)) (2 ^ (d - 1))) by (apply Z.pow_le_mono_r; lia).
    destruct (Z.ltb_spec (2 ^ (- E)) (2 * Zpos c)); [reflexivity|lia].
  - assert (Z.le (2 ^ d) (2 ^ (- E - 1))) by (apply Z.pow_le_mono_r; lia).
    assert (D : (2 ^ (- E) = 2 * 2 ^ (- E - 1))%Z).
    { rewrite <- Z.pow_succ_r by lia. f_equal. lia. }
    destruct (Z.ltb_spec (2 ^ (- E)) (2 * Zpos c)); [lia|reflexivity].
Qed.

(** a file of [n] bytes against a whole number [m] of megabytes: the
    difference [(n - m * 2 ** 20) / 2 ** 20] has at most 53 bits, so
    nothing is rounded on the way to the comparison *)
Lemma size_check_exact (n m : Z) :
  (0 <= n < 2 ^ 53)%Z -> (0 <= m <= 2 ^ 32)%Z ->
  B64.gt (B64.abs (B64.sub (binary_normalize 53 1024 n (-20) false)
                     (B64.of_int m))) B64.half
  = (2 ^ 19 <? Z.abs (n - m * 2 ^ 20))%Z.
Proof.
  intros Hn Hm.
  assert (X : (n = 0 \/ 0 < n)%Z) by lia.
  assert (Y : (m = 0 \/ 0 < m)%Z) by lia.
  assert (Fn : (0 < n)%Z ->
    binary_normalize 53 1024 n (-20) false = S754_finite false
      (shl (Z.to_nat (53 - Zpos (digits2_pos (Z.to_pos n)))) (Z.to_pos n))
      (-20 - (53 - Zpos (digits2_pos (Z.to_pos n))))).
  { intros H.
    pose proof (binary_normalize_exact n 0 (-20)) as B. cbv zeta in B.
    rewrite Z.pow_0_r, Z.mul_1_r in B.
    replace (Z.abs n) with n in B by lia.
    assert (0 <= 53 - Zpos (digits2_pos (Z.to_pos n)))%Z
      by (apply digits_le_53; rewrite Z2Pos.id; lia).
    assert (1 <= Zpos (digits2_pos (Z.to_pos n)))%Z by lia.
    rewrite B by lia.
    destruct (Z.ltb_spec n 0); [lia|]. f_equal; lia. }
  assert (Fm : (0 < m)%Z ->
    B64.of_int m = S754_finite false
      (shl (Z.to_nat (53 - Zpos (digits2_pos (Z.to_pos m)))) (Z.to_pos m))
      (0 - (53 - Zpos (digits2_pos (Z.to_pos m))))).
  { intros H. unfold B64.of_int.
    pose proof (binary_normalize_exact m 0 0) as B. cbv zeta in B.
    rewrite Z.pow_0_r, Z.mul_1_r in B.
    replace (Z.abs m) with m in B by lia.
    assert (0 <= 53 - Zpos (digits2_pos (Z.to_pos m)))%Z
      by (apply digits_le_53; rewrite Z2Pos.id; lia).
    assert (1 <= Zpos (digits2_pos (Z.to_pos m)))%Z by lia.
    rewrite B by lia.
    destruct (Z.ltb_spec m 0); [lia|]. f_equal; lia. }
  destruct X as [->|Hn0]; destruct Y as [->|Hm0].
  - reflexivity.
  - rewrite (Fm Hm0). unfold B64.sub. cbn [binary_normalize SFsub negb].
    assert (Tm : (0 <= 53 - Zpos (digits2_pos (Z.to_pos m)))%Z)
      by (apply digits_le_53; rewrite Z2Pos.id; lia).
    rewrite (gt_half_canonical _ (Z.to_pos m) 0 Tm) by lia.
    rewrite Z2Pos.id by lia.
    change (2 ^ (- 0))%Z with 1%Z.
    change (2 ^ 19)%Z with 524288%Z. change (2 ^ 20)%Z with 1048576%Z.
    destruct (Z.ltb_spec 1 (2 * m)); [|lia].
    destruct (Z.ltb_spec 524288 (Z.abs (0 - m * 1048576))); [reflexivity|lia].
  - rewrite (Fn Hn0). unfold B64.of_int, B64.sub. cbn [binary_normalize SFsub].
    assert (Tn : (0 <= 53 - Zpos (digits2_pos (Z.to_pos n)))%Z)
      by (apply digits_le_53; rewrite Z2Pos.id; lia).
    rewrite (gt_half_canonical _ (Z.to_pos n) (-20) Tn) by lia.
    rewrite Z2Pos.id by lia.
    change (2 ^ (- -20))%Z with (2 * 2 ^ 19)%Z.
    replace (n - 0 * 2 ^ 20)%Z with n by lia.
    destruct (Z.ltb_spec (2 * 2 ^ 19) (2 * n));
      destruct (Z.ltb_spec (2 ^ 19) (Z.abs n)); try reflexivity; exfalso; lia.
  - rewrite (Fn Hn0), (Fm Hm0).
    set (tn := (53 - Zpos (digits2_pos (Z.to_pos n)))%Z).
    set (tm := (53 - Zpos (digits2_pos (Z.to_pos m)))%Z).
    assert (Tn : (0 <= tn)%Z) by (apply digits_le_53; rewrite Z2Pos.id; lia).
    assert (Tm : (0 <= tm)%Z) by (apply digits_le_53; rewrite Z2Pos.id; lia).
    unfold B64.sub, SFsub. cbn [cond_Zopp].
    set (ez := Z.min (-20 - tn) (0 - tm)).
    rewrite !shl_align_fst by (unfold ez; lia).
    rewrite !Zpos_shl, !Z2Nat.id, !Z2Pos.id by lia.
    set (K := (n - m * 2 ^ 20)%Z).
    assert (M : (n * 2 ^ tn * 2 ^ (-20 - tn - ez)
                 - m * 2 ^ tm * 2 ^ (0 - tm - ez) = K * 2 ^ (-20 - ez))%Z).
    { unfold K. rewrite Z.mul_sub_distr_r.
      rewrite <- !Z.mul_assoc, <- !Z.pow_add_r by (unfold ez; lia).
      f_equal; f_equal; f_equal; lia. }
    rewrite M.
    assert (P20 : (2 ^ 20 = 1048576)%Z) by reflexivity.
    assert (P32 : (2 ^ 32 = 4294967296)%Z) by reflexivity.
    assert (P53 : (2 ^ 53 = 9007199254740992)%Z) by reflexivity.
    assert (P19 : (2 ^ 19 = 524288)%Z) by reflexivity.
    destruct (Z.eq_dec K 0%Z) as [K0|K0].
    + rewrite K0. cbn [Z.mul binary_normalize]. reflexivity.
    + assert (Kb : (Z.abs K < 2 ^ 53)%Z) by (unfold K; lia).
      assert (Tk : (0 <= 53 - Zpos (digits2_pos (Z.to_pos (Z.abs K))))%Z)
        by (apply digits_le_53; rewrite Z2Pos.id; lia).
      assert (1 <= Zpos (digits2_pos (Z.to_pos (Z.abs K))))%Z by lia.
      rewrite (binary_normalize_exact K (-20 - ez) ez K0 Kb)
        by (unfold ez; lia).
      replace (ez + (-20 - ez) - (53 - Zpos (digits2_pos (Z.to_pos (Z.abs K)))))%Z
        with (-20 - (53 - Zpos (digits2_pos (Z.to_pos (Z.abs K)))))%Z by lia.
      rewrite (gt_half_canonical _ (Z.to_pos (Z.abs K)) (-20) Tk) by lia.
      rewrite Z2Pos.id by lia.
      change (2 ^ (- -20))%Z with (2 * 2 ^ 19)%Z.
      destruct (Z.ltb_spec (2 * 2 ^ 19) (2 * Z.abs K));
        destruct (Z.ltb_spec (2 ^ 19) (Z.abs K)); try reflexivity; exfalso; lia.
Qed.

Lemma megabytes_within (n m : Z) :
  (Qabs (inject_Z n / inject_Z (1024 * 1024) - inject_Z m) <= 1 # 2)%Q <->
  (Z.abs (n - m * 2 ^ 20) <= 2 ^ 19)%Z.
Proof.
  assert (E : (inject_Z n / inject_Z (1024 * 1024) - inject_Z m
               == (n - m * 1048576) # 1048576)%Q).
  { change (inject_Z (1024 * 1024)) with (1048576 # 1)%Q.
    cbv [Qeq Qminus Qdiv Qplus Qmult Qinv Qopp inject_Z Qnum Qden]. lia. }
  rewrite E. change (2 ^ 20)%Z with 1048576%Z. change (2 ^ 19)%Z with 524288%Z.
  cbv [Qabs Qle Qnum Qden]. lia.
Qed.

Lemma sub_nan (x : B64.float) : B64.sub x B64.nan = B64.nan.
Proof. destruct x; reflexivity. Qed.

(** C3: [verify_file_size] with the default tolerance answers [True]
    exactly when the file exists and [abs(size / 2 ** 20 - expected) > 0.5]
    is false as binary64 computes it, and [False] otherwise. For an
    expected size that is a whole number from 0 to [2 ** 32] and a file
    below [2 ** 53] bytes that is the exact condition: the size in
    megabytes is within 0.5 of the expected size. With NaN as expected
    size every file that exists passes. *)
Theorem C3_verify_file_size_in_binary64 (filepath : Path)
    (expected_size_mb : B64.float) (s : State) :
  let answer :=
    fst (DownloadOcrModels.verify_file_size filepath expected_size_mb
           DownloadOcrModels.default_tolerance s) in
  let within :=
    exists data : bytes,
      fs s !! filepath = Some data /\
      B64.gt (B64.abs (B64.sub (B64.megabytes data) expected_size_mb))
        B64.half = false in
  (answer = true <-> within) /\ (answer = false <-> ~ within) /\
  (forall (m : Z) (data : bytes),
     (0 <= m <= 2 ^ 32)%Z -> expected_size_mb = B64.of_int m ->
     fs s !! filepath = Some data -> (getsize data < 2 ^ 53)%Z ->
     (answer = true <->
      (Qabs (inject_Z (getsize data) / inject_Z (1024 * 1024) - inject_Z m)
       <= 1 # 2)%Q)) /\
  (expected_size_mb = B64.nan ->
   forall data : bytes, fs s !! filepath = Some data -> answer = true).
Proof.
  cbv zeta. rewrite verify_file_size_result.
  change DownloadOcrModels.default_tolerance with B64.half.
  split; [|split; [|split]].
  - destruct (fs s !! filepath) as [data|].
    + split.
      * intros H. exists data. split; [reflexivity|].
        destruct (B64.gt _ _); [discriminate H|reflexivity].
      * intros [d [Hd Hb]]. inversion Hd; subst d. rewrite Hb. reflexivity.
    + split; [discriminate|]. intros [d [Hd _]]. discriminate Hd.
  - destruct (fs s !! filepath) as [data|].
    + split.
      * intros H [d [Hd Hb]]. inversion Hd; subst d. rewrite Hb in H.
        discriminate H.
      * intros N. destruct (B64.gt _ _) eqn:B; [reflexivity|].
        exfalso. apply N. exists data. auto.
    + split; [|reflexivity]. intros _ [d [Hd _]]. discriminate Hd.
  - intros m data Hm -> -> Hsz.
    change (B64.megabytes data)
      with (binary_normalize 53 1024 (getsize data) (-20) false).
    assert (0 <= getsize data)%Z by (unfold getsize; lia).
    rewrite size_check_exact by lia.
    rewrite megabytes_within.
    destruct (Z.ltb_spec (2 ^ 19) (Z.abs (getsize data - m * 2 ^ 20)));
      cbn [negb]; split; intros; try reflexivity; try discriminate; lia.
  - intros -> data ->. rewrite sub_nan. reflexivity.
Qed.

(** the claim as worded fails: half a megabyte and one byte against an
    expected size of [2 ** -20 - 2 ** -73] megabytes is more than 0.5
    away, by [2 ** -73], and passes, the difference being rounded to 0.5 *)
Lemma C3_counterexample :
  fst (DownloadOcrModels.verify_file_size (rel ["f"]) just_under_a_byte
         DownloadOcrModels.default_tolerance
         (holding (rel ["f"]) half_mb_and_a_byte)) = true /\
  exists q : Q,
    B64.value just_under_a_byte = Some q /\
    (q == (1 # 1048576) - Qpower 2 (-73))%Q /\
    ~ (Qabs (megabytes half_mb_and_a_byte - q) <= 1 # 2)%Q.
Proof.
  split.
  - rewrite verify_file_size_result.
    unfold holding. cbn [fs]. rewrite lookup_singleton_eq.
    unfold B64.megabytes, getsize, half_mb_and_a_byte.
    rewrite repeat_length, Z2Nat.id by lia. reflexivity.
  - eexists. split; [reflexivity|].
    unfold megabytes, getsize, half_mb_and_a_byte.
    rewrite repeat_length, Z2Nat.id by lia.
    split; [reflexivity|].
    intros H. vm_compute in H. apply H. reflexivity.
Qed.

Lemma C3_witness :
  fst (DownloadOcrModels.verify_file_size (rel ["f"]) (B64.of_int 0)
         DownloadOcrModels.default_tolerance (holding (rel ["f"]) [x00]))
  = true <->
  (Qabs (inject_Z (getsize [x00]) / inject_Z (1024 * 1024) - inject_Z 0)
   <= 1 # 2)%Q.
Proof.
  destruct (C3_verify_file_size_in_binary64 (rel ["f"]) (B64.of_int 0)
              (holding (rel ["f"]) [x00])) as (_ & _ & H & _).
  apply (H 0%Z [x00]); [lia|reflexivity|reflexivity|reflexivity].
Defined.

(** a file of 3000 bytes against an expected size of 0 MB and of 1 MB *)
Example verify_file_size_near :
  fst (DownloadOcrModels.verify_file_size (rel ["f"]) (B64.of_int 0)
         DownloadOcrModels.default_tolerance
         (holding (rel ["f"]) (repeat x00 3000))) = true.
Proof. vm_compute. reflexivity. Qed.

Example verify_file_size_far :
  fst (DownloadOcrModels.verify_file_size (rel ["f"]) (B64.of_int 1)
         DownloadOcrModels.default_tolerance
         (holding (rel ["f"]) (repeat x00 3000))) = false.
Proof. vm_compute. reflexivity. Qed.

Example verify_file_size_missing :
  fst (DownloadOcrModels.verify_file_size (rel ["f"]) (B64.of_int 0)
         DownloadOcrModels.default_tolerance fresh) = false.
Proof. vm_compute. reflexivity. Qed.

(** ** The stub of download_ocr_tflite_direct.py *)

Lemma stub_data_length (filename : Path) :
  length (DownloadOcrTfliteDirect.stub_data filename) = 512%nat.
Proof.
  unfold DownloadOcrTfliteDirect.stub_data.
  destruct (str_in _ _); reflexivity.
Qed.

Lemma stub_data_head (filename : Path) :
  take 8 (DownloadOcrTfliteDirect.stub_data filename)
  = [x18; x00; x00; x00; x54; x46; x4c; x33].
Proof.
  unfold DownloadOcrTfliteDirect.stub_data.
  destruct (str_in _ _); reflexivity.
Qed.

Lemma create_working_tflite_model_true (w : World) (filename : Path)
    (description : string) (s s' : State) :
  DownloadOcrTfliteDirect.create_working_tflite_model w filename description s
  = (true, s') ->
  fs s' = <[filename := DownloadOcrTfliteDirect.stub_data filename]> (fs s).
Proof.
  unfold DownloadOcrTfliteDirect.create_working_tflite_model. mrun.
  destruct (writable w filename); mrun; intros H; inversion H.
  reflexivity.
Qed.

Lemma verify_tflite_model_result (filename : Path) (e : option Q)
    (s : State) :
  fst (DownloadOcrTfliteDirect.verify_tflite_model filename e s) =
  match fs s !! filename with
  | Some data => negb (getsize data <? 1024)%Z
  | None => false
  end.
Proof.
  unfold DownloadOcrTfliteDirect.verify_tflite_model. mrun.
  destruct (fs s !! filename) as [data|]; [|reflexivity].
  destruct (getsize data <? 1024)%Z; [reflexivity|].
  destruct (bytes_startswith TFL3 (take 8 data));
    destruct e as [q|]; try reflexivity;
    destruct (negb (Qeq_bool q 0) && _); reflexivity.
Qed.

Lemma verify_tflite_model_fs (filename : Path) (e : option Q) (s : State) :
  fs (snd (DownloadOcrTfliteDirect.verify_tflite_model filename e s)) = fs s.
Proof.
  unfold DownloadOcrTfliteDirect.verify_tflite_model. mrun.
  destruct (fs s !! filename) as [data|]; [|reflexivity].
  destruct (getsize data <? 1024)%Z; [reflexivity|].
  destruct (bytes_startswith TFL3 (take 8 data));
    destruct e as [q|]; try reflexivity;
    destruct (negb (Qeq_bool q 0) && _); reflexivity.
Qed.

(** C9: once [create_working_tflite_model] has answered [True], the file
    has exactly 512 bytes, begins 18 00 00 00 with the TFL3 magic only at
    offset 4, and [verify_tflite_model] answers [False] on it for any
    expected size, the file being shorter than 1024 bytes. *)
Theorem C9_stub_fails_own_verifier (w : World) (filename : Path)
    (description : string) (expected : option Q) (s s' : State) :
  DownloadOcrTfliteDirect.create_working_tflite_model w filename description s
  = (true, s') ->
  exists data : bytes,
    fs s' !! filename = Some data /\
    length data = 512%nat /\
    take 4 data = [x18; x00; x00; x00] /\
    take 4 (drop 4 data) = TFL3 /\
    bytes_startswith TFL3 data = false /\
    (getsize data < 1024)%Z /\
    fst (DownloadOcrTfliteDirect.verify_tflite_model filename expected s')
    = false.
Proof.
  intros H. apply create_working_tflite_model_true in H.
  exists (DownloadOcrTfliteDirect.stub_data filename).
  assert (L := stub_data_length filename).
  assert (Hfs : fs s' !! filename
                = Some (DownloadOcrTfliteDirect.stub_data filename)).
  { rewrite H. apply lookup_insert_eq. }
  split; [exact Hfs|]. split; [exact L|].
  assert (G : (getsize (DownloadOcrTfliteDirect.stub_data filename) < 1024)%Z).
  { unfold getsize. rewrite L. lia. }
  repeat split.
  - unfold DownloadOcrTfliteDirect.stub_data. destruct (str_in _ _); reflexivity.
  - unfold DownloadOcrTfliteDirect.stub_data. destruct (str_in _ _); reflexivity.
  - unfold DownloadOcrTfliteDirect.stub_data. destruct (str_in _ _); reflexivity.
  - exact G.
  - rewrite verify_tflite_model_result, Hfs.
    apply Z.ltb_lt in G. rewrite G. reflexivity.
Qed.

Lemma C9_witness :
  exists data : bytes,
    fs stubbed !! rel ["easyocr_text_detection.tflite"] = Some data /\
    length data = 512%nat /\
    take 4 data = [x18; x00; x00; x00] /\
    take 4 (drop 4 data) = TFL3 /\
    bytes_startswith TFL3 data = false /\
    (getsize data < 1024)%Z /\
    fst (DownloadOcrTfliteDirect.verify_tflite_model
           (rel ["easyocr_text_detection.tflite"]) (Some (23 # 10)) stubbed)
    = false.
Proof.
  apply (C9_stub_fails_own_verifier offline
           (rel ["easyocr_text_detection.tflite"]) "stub" (Some (23 # 10)) fresh).
  reflexivity.
Defined.

(** ** Magic-byte verification *)

Lemma verify_file_run (filename : Path) (s : State) (data : bytes) :
  fs s !! filename = Some data ->
  DownloadEasyocrModels.verify_file filename s =
  (true,
   MkState (fs s)
     (out s ++
      [ Note "File size";
        Note (if bytes_startswith TFL3 (take 8 data)
              then "Valid TensorFlow Lite file detected"
              else "File may not be a TensorFlow Lite model") ])).
Proof.
  intros H. unfold DownloadEasyocrModels.verify_file. mrun. rewrite H.
  destruct (bytes_startswith TFL3 (take 8 data)); mrun;
    rewrite <- app_assoc; reflexivity.
Qed.

Lemma verify_file_missing (filename : Path) (s : State) :
  fs s !! filename = None ->
  DownloadEasyocrModels.verify_file filename s =
  (false, MkState (fs s) (out s ++ [Note "File not found"])).
Proof.
  intros H. unfold DownloadEasyocrModels.verify_file. mrun.
  rewrite H. reflexivity.
Qed.

Lemma tflite_download_file_fetched (w : World) (url : string) (p : Path)
    (d : string) (body : bytes) (s : State) :
  fetch w url = Fetched body ->
  DownloadOcrTfliteDirect.download_file w url p d s =
  (true,
   MkState (<[p := body]> (fs s))
     (out s ++ [Download url p; Note "Successfully downloaded"])).
Proof.
  intros H. unfold DownloadOcrTfliteDirect.download_file. mrun.
  rewrite H. mrun. rewrite <- app_assoc. reflexivity.
Qed.

Lemma tflite_try_urls_first_kept (w : World) (fp : Path)
    (info : DownloadOcrTfliteDirect.ModelInfo) (url : string)
    (rest : list string) (body : bytes) (s : State) :
  fetch w url = Fetched body ->
  (1024 <= getsize body)%Z ->
  fst (DownloadOcrTfliteDirect.try_urls w fp info (url :: rest) s) = true /\
  fs (snd (DownloadOcrTfliteDirect.try_urls w fp info (url :: rest) s))
  = <[fp := body]> (fs s).
Proof.
  intros Hf Hsz. cbn [DownloadOcrTfliteDirect.try_urls]. mstep.
  rewrite (tflite_download_file_fetched _ _ _ _ _ _ Hf). cbn [fst snd]. mstep.
  rewrite verify_tflite_model_result. cbn [fs].
  rewrite lookup_insert_eq.
  apply Z.ltb_ge in Hsz. rewrite Hsz. cbn [negb]. unfold ret. cbn [fst snd].
  rewrite verify_tflite_model_fs. split; reflexivity.
Qed.

Lemma tflite_download_file_step (w : World) (u : string) (p : Path)
    (d : string) (s : State) :
  let r := DownloadOcrTfliteDirect.download_file w u p d s in
  fst r = match fetch w u with Fetched _ => true | Failed _ => false end /\
  attempts (out (snd r)) = attempts (out s) ++ [u] /\
  (forall body : bytes,
     fetch w u = Fetched body -> fs (snd r) = <[p := body]> (fs s)).
Proof.
  cbv zeta. unfold DownloadOcrTfliteDirect.download_file. mrun.
  destruct (fetch w u) as [body|[part|]]; mrun;
    rewrite !attempts_app; cbn [attempts]; rewrite !app_nil_r;
    (split; [reflexivity|]); (split; [reflexivity|]);
    intros b Hb; inversion Hb; reflexivity.
Qed.

Lemma verify_tflite_model_attempts (p : Path) (e : option Q) (s : State) :
  attempts (out (snd (DownloadOcrTfliteDirect.verify_tflite_model p e s)))
  = attempts (out s).
Proof.
  unfold DownloadOcrTfliteDirect.verify_tflite_model. mrun.
  destruct (fs s !! p) as [data|]; mrun;
    [|rewrite attempts_app; apply app_nil_r].
  destruct (getsize data <? 1024)%Z; mrun;
    [rewrite !attempts_app; cbn [attempts]; rewrite !app_nil_r; reflexivity|].
  destruct (bytes_startswith TFL3 (take 8 data));
    destruct e as [q|]; mrun;
    try destruct (negb (Qeq_bool q 0) && _); mrun;
    rewrite !attempts_app; cbn [attempts]; rewrite !app_nil_r; reflexivity.
Qed.

(** a URL whose download does not end the loop over [info['urls']]: the
    transfer raises, or the body has fewer than 1024 bytes *)
Lemma tflite_try_urls_kept (w : World) (fp : Path)
    (info : DownloadOcrTfliteDirect.ModelInfo) (pre : list string)
    (url : string) (rest : list string) (body : bytes) :
  Forall (fun u => turned_down w u) pre ->
  fetch w url = Fetched body ->
  (1024 <= getsize body)%Z ->
  forall s : State,
    let r := DownloadOcrTfliteDirect.try_urls w fp info (pre ++ url :: rest) s in
    fst r = true /\ fs (snd r) !! fp = Some body /\
    attempts (out (snd r)) = attempts (out s) ++ pre ++ [url].
Proof.
  intros Hpre Hf Hsz. induction Hpre as [|u pre Hu Hpre IH]; intros s; cbv zeta.
  - cbn [app DownloadOcrTfliteDirect.try_urls]. mstep.
    destruct (tflite_download_file_step w url fp
                (DownloadOcrTfliteDirect.description info) s) as (D1 & D2 & D3).
    rewrite D1, Hf. mstep.
    rewrite verify_tflite_model_result, (D3 body Hf), lookup_insert_eq.
    apply Z.ltb_ge in Hsz. rewrite Hsz. cbn [negb]. rewrite ret_run.
    cbn [fst snd]. rewrite verify_tflite_model_fs, verify_tflite_model_attempts.
    rewrite (D3 body Hf), lookup_insert_eq, D2. auto.
  - cbn [app DownloadOcrTfliteDirect.try_urls]. mstep.
    destruct (tflite_download_file_step w u fp
                (DownloadOcrTfliteDirect.description info) s) as (D1 & D2 & D3).
    rewrite D1. unfold turned_down in Hu.
    destruct (fetch w u) as [small|residue] eqn:Eu.
    + mstep. rewrite verify_tflite_model_result, (D3 small eq_refl),
        lookup_insert_eq.
      apply Z.ltb_lt in Hu. rewrite Hu. cbn [negb]. do 2 mstep.
      match goal with |- context [DownloadOcrTfliteDirect.try_urls w fp info _ ?s1] =>
        destruct (IH s1) as (I1 & I2 & I3);
        assert (A : attempts (out s1) = attempts (out s) ++ [u])
      end.
      { cbn [remove print snd out]. rewrite attempts_app. cbn [attempts].
        rewrite app_nil_r, verify_tflite_model_attempts. exact D2. }
      rewrite I1, I2, I3, A, <- app_assoc. auto.
    + destruct (IH (snd (DownloadOcrTfliteDirect.download_file w u fp
                           (DownloadOcrTfliteDirect.description info) s)))
        as (I1 & I2 & I3).
      rewrite I1, I2, I3, D2, <- app_assoc. auto.
Qed.

(** C4 (as the code has it): the magic bytes are advisory. On an existing
    file [verify_file] answers [True] whatever the header is, the header
    only selecting the line printed; [verify_tflite_model] answers [True]
    exactly when the file has at least 1024 bytes; neither touches the
    file. So download_ocr_tflite_direct.py, on any disk, keeps and counts
    the body of the first of a model's URLs that delivers at least 1024
    bytes, whatever its header: that body is at the target afterwards, it
    is not the stub, and no later URL is attempted. *)
Theorem C4_magic_bytes_are_advisory (s : State) :
  (forall (p : Path) (data : bytes),
     fs s !! p = Some data ->
     DownloadEasyocrModels.verify_file p s =
       (true,
        MkState (fs s)
          (out s ++
           [ Note "File size";
             Note (if bytes_startswith TFL3 (take 8 data)
                   then "Valid TensorFlow Lite file detected"
                   else "File may not be a TensorFlow Lite model") ])) /\
     (forall e : option Q,
        fst (DownloadOcrTfliteDirect.verify_tflite_model p e s)
          = negb (getsize data <? 1024)%Z /\
        fs (snd (DownloadOcrTfliteDirect.verify_tflite_model p e s)) = fs s)) /\
  (forall (w : World) (script_dir : Path) (c : nat) (name : string)
          (info : DownloadOcrTfliteDirect.ModelInfo) (pre : list string)
          (url : string) (rest : list string) (body : bytes),
     DownloadOcrTfliteDirect.urls info = pre ++ url :: rest ->
     Forall (fun u => turned_down w u) pre ->
     fetch w url = Fetched body ->
     (1024 <= getsize body)%Z ->
     let r := DownloadOcrTfliteDirect.process_model w script_dir c (name, info) s in
     fst r = S c /\
     fs (snd r) !! pdiv script_dir name = Some body /\
     body <> DownloadOcrTfliteDirect.stub_data (pdiv script_dir name) /\
     attempts (out (snd r)) = attempts (out s) ++ pre ++ [url]).
Proof.
  split.
  - intros p data H. split; [apply verify_file_run; exact H|].
    intros e. rewrite verify_tflite_model_result, verify_tflite_model_fs, H.
    split; reflexivity.
  - intros w script_dir c name info pre url rest body Hu Hpre Hf Hsz. cbv zeta.
    unfold DownloadOcrTfliteDirect.process_model. rewrite Hu. mstep.
    destruct (tflite_try_urls_kept w (pdiv script_dir name) info pre url rest
                body Hpre Hf Hsz s) as (R & F & A).
    rewrite R. unfold ret. cbn [fst snd]. rewrite F, A.
    repeat split. intros E.
    assert (L : length body = 512%nat) by (rewrite E; apply stub_data_length).
    unfold getsize in Hsz. lia.
Qed.

(** the claim as worded fails: a file of zero bytes only, no magic, is
    accepted by both verifiers *)
Lemma C4_counterexample :
  fs (holding model_path zeros) !! model_path = Some zeros /\
  bytes_startswith TFL3 zeros = false /\
  fst (DownloadEasyocrModels.verify_file model_path (holding model_path zeros))
    = true /\
  fst (DownloadOcrTfliteDirect.verify_tflite_model model_path (Some (23 # 10))
         (holding model_path zeros)) = true.
Proof. repeat split; vm_compute; reflexivity. Qed.

Lemma C4_witness :
  fst (DownloadOcrTfliteDirect.process_model second_serves_zeros scripts 0
         ("easyocr_text_detection.tflite", detection_info) fresh) = 1%nat /\
  fs (snd (DownloadOcrTfliteDirect.process_model second_serves_zeros scripts 0
             ("easyocr_text_detection.tflite", detection_info) fresh))
    !! tflite_file = Some zeros /\
  zeros <> DownloadOcrTfliteDirect.stub_data tflite_file /\
  attempts
    (out (snd (DownloadOcrTfliteDirect.process_model second_serves_zeros
                 scripts 0 ("easyocr_text_detection.tflite", detection_info)
                 fresh)))
  = attempts (out fresh) ++
    [ "https://github.com/tulasiram58827/ocr_tflite/raw/main/models/craft_text_detector_float16.tflite" ]
    ++ [ "https://github.com/tulasiram58827/ocr_tflite/raw/main/models/craft_text_detector_dynamic_range.tflite" ].
Proof.
  destruct (C4_magic_bytes_are_advisory fresh) as [_ H].
  apply (H second_serves_zeros scripts 0%nat "easyocr_text_detection.tflite"
           detection_info
           [ "https://github.com/tulasiram58827/ocr_tflite/raw/main/models/craft_text_detector_float16.tflite" ]
           "https://github.com/tulasiram58827/ocr_tflite/raw/main/models/craft_text_detector_dynamic_range.tflite"
           [ "https://tfhub.dev/tulasiram58827/lite-model/craft-text-detector/float16/1?lite-format=tflite";
             "https://storage.googleapis.com/tfhub-lite-models/tulasiram58827/lite-model/craft-text-detector/float16/1/default/1.tflite" ]
           zeros).
  - reflexivity.
  - constructor; [exact I|constructor].
  - reflexivity.
  - discriminate.
Defined.

(** ** setup_keras_ocr.py *)

Lemma setup_main_run (w : World) (script_dir : Path) (s : State) :
  let source := SetupKerasOcr.keras_model_source script_dir in
  let dest := SetupKerasOcr.keras_model_dest script_dir in
  exists notes : list Event,
    SetupKerasOcr.main w script_dir s =
    match fs s !! source with
    | None => (false, MkState (fs s) (out s ++ notes))
    | Some data =>
        if bytes_in TFL3 (take 8 data) && writable w dest
        then (true, MkState (<[dest := data]> (fs s)) (out s ++ notes))
        else (false, MkState (fs s) (out s ++ notes))
    end.
Proof.
  cbv zeta. unfold SetupKerasOcr.main, SetupKerasOcr.copy2. mrun.
  destruct (fs s !! SetupKerasOcr.keras_model_source script_dir) as [data|] eqn:Es.
  - mrun. destruct (bytes_in TFL3 (take 8 data)) eqn:Em; cbn [negb andb]; mrun.
    + rewrite Es. destruct (writable w _) eqn:Ew; mrun.
      * rewrite lookup_insert_eq, Z.eqb_refl. mrun.
        repeat rewrite <- app_assoc. eexists. reflexivity.
      * repeat rewrite <- app_assoc. eexists. reflexivity.
    + repeat rewrite <- app_assoc. eexists. reflexivity.
  - mrun. eexists. reflexivity.
Qed.

(** C7: [main] of setup_keras_ocr.py answers [True] only if the source
    model exists, its first 8 bytes contain the TFL3 magic, and after the
    copy the destination, which lies in [app/src/main/assets] next to the
    script's directory, exists with exactly the source's size; when the
    source is missing or the magic check fails it answers [False] and
    nothing is copied. *)
Theorem C7_setup_places_verified_model (w : World) (script_dir : Path)
    (s : State) :
  let source := SetupKerasOcr.keras_model_source script_dir in
  let dest := SetupKerasOcr.keras_model_dest script_dir in
  let r := SetupKerasOcr.main w script_dir s in
  parts dest = removelast (parts script_dir)
               ++ ["app"; "src"; "main"; "assets"; "keras_ocr_float16.tflite"] /\
  (fst r = true ->
   exists data ddata : bytes,
     fs s !! source = Some data /\
     bytes_in TFL3 (take 8 data) = true /\
     fs (snd r) !! dest = Some ddata /\
     getsize ddata = getsize data) /\
  ((fs s !! source = None \/
    exists data : bytes,
      fs s !! source = Some data /\ bytes_in TFL3 (take 8 data) = false) ->
   fst r = false /\ fs (snd r) = fs s).
Proof.
  cbv zeta. split.
  { unfold SetupKerasOcr.keras_model_dest, SetupKerasOcr.assets_dir, pdiv, parent.
    cbn [parts anchor]. repeat rewrite <- app_assoc. reflexivity. }
  destruct (setup_main_run w script_dir s) as [notes ->].
  destruct (fs s !! SetupKerasOcr.keras_model_source script_dir) as [data|] eqn:Es.
  - destruct (bytes_in TFL3 (take 8 data)) eqn:Em; cbn [andb].
    + destruct (writable w _); cbn [fst snd fs].
      * split.
        -- intros _. exists data, data. rewrite lookup_insert_eq. auto.
        -- intros [H|[d [H1 H2]]]; congruence.
      * split; [discriminate|]. intros [H|[d [H1 H2]]]; congruence.
    + cbn [fst snd fs]. split; [discriminate|]. auto.
  - cbn [fst snd fs]. split; [discriminate|]. auto.
Qed.

Lemma C7_witness :
  (fst (SetupKerasOcr.main offline scripts
          (holding (SetupKerasOcr.keras_model_source scripts) magic_at_4))
   = true ->
   exists data ddata : bytes,
     fs (holding (SetupKerasOcr.keras_model_source scripts) magic_at_4)
       !! SetupKerasOcr.keras_model_source scripts = Some data /\
     bytes_in TFL3 (take 8 data) = true /\
     fs (snd (SetupKerasOcr.main offline scripts
                (holding (SetupKerasOcr.keras_model_source scripts) magic_at_4)))
       !! SetupKerasOcr.keras_model_dest scripts = Some ddata /\
     getsize ddata = getsize data) /\
  fst (SetupKerasOcr.main offline scripts
         (holding (SetupKerasOcr.keras_model_source scripts) magic_at_4)) = true /\
  fst (SetupKerasOcr.main offline scripts fresh) = false /\
  fs (snd (SetupKerasOcr.main offline scripts fresh)) = fs fresh.
Proof.
  split; [|split].
  - apply (C7_setup_places_verified_model offline scripts
             (holding (SetupKerasOcr.keras_model_source scripts) magic_at_4)).
  - reflexivity.
  - apply (C7_setup_places_verified_model offline scripts fresh).
    left. reflexivity.
Defined.

(** ** download_craft_keras_tflite_models.py *)

Lemma craft_download_file_run (w : World) (url : string) (p : Path)
    (s : State) :
  exists note : string,
    DownloadCraftKerasTfliteModels.download_file w url p s =
    match fetch w url with
    | Fetched body =>
        (true, MkState (<[p := body]> (fs s)) (out s ++ [Download url p; Note note]))
    | Failed (Some part) =>
        (false, MkState (<[p := part]> (fs s)) (out s ++ [Download url p; Note note]))
    | Failed None =>
        (false, MkState (fs s) (out s ++ [Download url p; Note note]))
    end.
Proof.
  unfold DownloadCraftKerasTfliteModels.download_file. mrun.
  destruct (fetch w url) as [body|[part|]]; mrun;
    rewrite <- app_assoc; eexists; reflexivity.
Qed.

Lemma attempts_notes (l : list Event) (u : string) (p : Path) (n : string) :
  attempts (l ++ [Download u p; Note n]) = attempts l ++ [u].
Proof. rewrite attempts_app. reflexivity. Qed.

Lemma attempts_note (l : list Event) (n : string) :
  attempts (l ++ [Note n]) = attempts l.
Proof. rewrite attempts_app. simpl. apply app_nil_r. Qed.

(** C10: in download_craft_keras_tflite_models.py a model is counted
    only when a file of more than 10000 bytes is at its target path
    afterwards; a file of more than 10000 bytes already there is counted
    without any download and the disk is left as it was; a fresh download
    of 10000 bytes or fewer is removed from the target path and not
    counted. *)
Theorem C10_counted_only_when_large (w : World) (c : nat)
    (model : DownloadCraftKerasTfliteModels.Model) (s : State) :
  let target := DownloadCraftKerasTfliteModels.file model in
  let r := DownloadCraftKerasTfliteModels.process_model w c model s in
  (fst r = c \/ fst r = S c) /\
  (fst r = S c ->
   exists data : bytes,
     fs (snd r) !! target = Some data /\ (getsize data > 10000)%Z) /\
  (forall data : bytes,
     fs s !! target = Some data -> (getsize data > 10000)%Z ->
     fst r = S c /\ fs (snd r) = fs s /\
     attempts (out (snd r)) = attempts (out s)) /\
  (forall body : bytes,
     (forall old : bytes,
        fs s !! target = Some old -> (getsize old <= 10000)%Z) ->
     fetch w (DownloadCraftKerasTfliteModels.url model) = Fetched body ->
     (getsize body <= 10000)%Z ->
     fst r = c /\ fs (snd r) !! target = None /\
     attempts (out (snd r))
     = attempts (out s) ++ [DownloadCraftKerasTfliteModels.url model]).
Proof.
  cbv zeta. unfold DownloadCraftKerasTfliteModels.process_model.
  set (target := DownloadCraftKerasTfliteModels.file model).
  set (u := DownloadCraftKerasTfliteModels.url model).
  assert (Hn : forall n : nat, S n <> n) by (intros n; lia).
  assert (Hgt : forall x : Z, (x >? 10000)%Z = true -> (x > 10000)%Z)
    by (intros x Hx; apply Z.gtb_lt in Hx; lia).
  assert (Hle : forall x : Z, (x >? 10000)%Z = false -> (x <= 10000)%Z)
    by (intros x Hx; destruct (Z.gtb_spec x 10000); [discriminate|lia]).
  mrun. destruct (fs s !! target) as [old|] eqn:Eo.
  - destruct (getsize old >? 10000)%Z eqn:Eb; mrun.
    + (* an existing large file is reused *)
      apply Hgt in Eb. split; [right; reflexivity|]. split; [|split].
      * intros _. exists old. split; [exact Eo|exact Eb].
      * intros data Hd Hs. do 2 rewrite attempts_note. auto.
      * intros body Hold. specialize (Hold old eq_refl). lia.
    + (* an existing small file is downloaded again *)
      apply Hle in Eb.
      destruct (craft_download_file_run w u target
        (MkState (fs s)
           ((out s ++ [Note "File already exists"]) ++
            [Note "Existing file too small, re-downloading..."])))
        as [note ->].
      cbn [fs out].
      destruct (fetch w u) as [body|[part|]] eqn:Ef; mrun.
      * rewrite lookup_insert_eq.
        destruct (getsize body >? 10000)%Z eqn:Eg; mrun.
        -- apply Hgt in Eg. split; [right; reflexivity|]. split; [|split].
           ++ intros _. exists body. rewrite lookup_insert_eq. auto.
           ++ intros data Hd Hs. inversion Hd; subst. lia.
           ++ intros b _ Hb Hs. inversion Hb; subst. lia.
        -- apply Hle in Eg. split; [left; reflexivity|]. split; [|split].
           ++ intros E. symmetry in E. destruct (Hn _ E).
           ++ intros data Hd Hs. inversion Hd; subst. lia.
           ++ intros b _ _ _. split; [reflexivity|].
              split; [apply lookup_delete_eq|].
              rewrite attempts_note, attempts_notes.
              do 2 rewrite attempts_note. reflexivity.
      * split; [left; reflexivity|]. split; [|split].
        -- intros E. symmetry in E. destruct (Hn _ E).
        -- intros data Hd Hs. inversion Hd; subst. lia.
        -- intros b _ Hb. discriminate.
      * split; [left; reflexivity|]. split; [|split].
        -- intros E. symmetry in E. destruct (Hn _ E).
        -- intros data Hd Hs. inversion Hd; subst. lia.
        -- intros b _ Hb. discriminate.
  - destruct (craft_download_file_run w u target s) as [note ->].
    destruct (fetch w u) as [body|[part|]] eqn:Ef; mrun.
    + rewrite lookup_insert_eq.
      destruct (getsize body >? 10000)%Z eqn:Eg; mrun.
      * apply Hgt in Eg. split; [right; reflexivity|]. split; [|split].
        -- intros _. exists body. rewrite lookup_insert_eq. auto.
        -- intros data Hd. discriminate.
        -- intros b _ Hb Hs. inversion Hb; subst. lia.
      * apply Hle in Eg. split; [left; reflexivity|]. split; [|split].
        -- intros E. symmetry in E. destruct (Hn _ E).
        -- intros data Hd. discriminate.
        -- intros b _ _ _. split; [reflexivity|].
           split; [apply lookup_delete_eq|].
           rewrite attempts_note, attempts_notes. reflexivity.
    + split; [left; reflexivity|]. split; [|split].
      * intros E. symmetry in E. destruct (Hn _ E).
      * intros data Hd. discriminate.
      * intros b _ Hb. discriminate.
    + split; [left; reflexivity|]. split; [|split].
      * intros E. symmetry in E. destruct (Hn _ E).
      * intros data Hd. discriminate.
      * intros b _ Hb. discriminate.
Qed.

Lemma C10_witness :
  (fst (DownloadCraftKerasTfliteModels.process_model offline 0 craft_model
          (holding (DownloadCraftKerasTfliteModels.file craft_model) big)) = 1%nat /\
   fs (snd (DownloadCraftKerasTfliteModels.process_model offline 0 craft_model
              (holding (DownloadCraftKerasTfliteModels.file craft_model) big)))
   = fs (holding (DownloadCraftKerasTfliteModels.file craft_model) big) /\
   attempts (out (snd (DownloadCraftKerasTfliteModels.process_model offline 0
                         craft_model
                         (holding (DownloadCraftKerasTfliteModels.file craft_model) big))))
   = attempts (out (holding (DownloadCraftKerasTfliteModels.file craft_model) big))) /\
  (fst (DownloadCraftKerasTfliteModels.process_model (serving zeros) 0
          craft_model fresh) = 0%nat /\
   fs (snd (DownloadCraftKerasTfliteModels.process_model (serving zeros) 0
              craft_model fresh))
     !! DownloadCraftKerasTfliteModels.file craft_model = None /\
   attempts (out (snd (DownloadCraftKerasTfliteModels.process_model
                         (serving zeros) 0 craft_model fresh)))
   = attempts (out fresh) ++ [DownloadCraftKerasTfliteModels.url craft_model]).
Proof.
  split.
  - apply (C10_counted_only_when_large offline 0 craft_model
             (holding (DownloadCraftKerasTfliteModels.file craft_model) big))
      with (data := big).
    + apply lookup_singleton_eq.
    + reflexivity.
  - apply (C10_counted_only_when_large (serving zeros) 0 craft_model fresh)
      with (body := zeros).
    + intros old H. discriminate H.
    + reflexivity.
    + intros H. discriminate H.
Defined.

(** ** ONNX to TensorFlow to TensorFlow Lite *)

Lemma convert_onnx_to_tflite_run (w : World) (t : Toolchain)
    (onnx_path tflite_path : Path) (s : State) :
  tflite_path <> pdiv (temp_dir t) "tf_model" ->
  let r := DownloadAndConvertOcrModels.convert_onnx_to_tflite w t onnx_path
             tflite_path s in
  match staged t onnx_path s with
  | Some (_, _, tfl) =>
      if writable w tflite_path
      then fst r = true /\
           fs (snd r) !! tflite_path = Some tfl /\
           fs (snd r) !! pdiv (temp_dir t) "tf_model" = None /\
           out (snd r) = out s ++ conversion_notes
      else fst r = false
  | None => fst r = false
  end.
Proof.
  intros Hne. cbv zeta. unfold staged.
  unfold DownloadAndConvertOcrModels.convert_onnx_to_tflite,
    DownloadAndConvertOcrModels.conversion_failed.
  mrun. destruct (fs s !! onnx_path) as [onnx|]; cbn [mbind option_bind];
    [|reflexivity].
  destruct (onnx_load t onnx) as [model|]; cbn [mbind option_bind];
    [|reflexivity].
  destruct (export_graph t model) as [saved|]; cbn [mbind option_bind];
    [|reflexivity].
  mrun. rewrite lookup_insert_eq. cbn [mbind option_bind].
  destruct (tflite_convert t saved) as [tfl|]; cbn [mbind option_bind];
    [|reflexivity].
  destruct (writable w tflite_path); mrun; [|reflexivity].
  split; [reflexivity|]. split; [|split].
  - rewrite lookup_delete_ne by (intros E; apply Hne; symmetry; exact E).
    apply lookup_insert_eq.
  - apply lookup_delete_eq.
  - unfold conversion_notes. repeat rewrite <- app_assoc. reflexivity.
Qed.

Lemma trocr_convert_same (w : World) (t : Toolchain)
    (onnx_path tflite_path : Path) (s : State) :
  DownloadTrocrModels.convert_onnx_to_tflite w t onnx_path tflite_path s
  = DownloadAndConvertOcrModels.convert_onnx_to_tflite w t onnx_path
      tflite_path s.
Proof. reflexivity. Qed.

(** C6: whenever [convert_onnx_to_tflite] (of either script) answers
    [True], the ONNX file was loaded, exported as a TensorFlow SavedModel
    into the temporary directory, that SavedModel was converted to
    TensorFlow Lite, in this order, and the converted bytes are at
    [tflite_path] (the temporary directory being gone); and it answers
    [False] as soon as loading, exporting, converting or writing raises. *)
Theorem C6_onnx_tensorflow_tflite_order (w : World) (t : Toolchain)
    (onnx_path tflite_path : Path) (s : State) :
  tflite_path <> pdiv (temp_dir t) "tf_model" ->
  let r := DownloadAndConvertOcrModels.convert_onnx_to_tflite w t onnx_path
             tflite_path s in
  DownloadTrocrModels.convert_onnx_to_tflite w t onnx_path tflite_path s = r /\
  (fst r = true ->
   exists onnx model saved tfl : bytes,
     fs s !! onnx_path = Some onnx /\
     onnx_load t onnx = Some model /\
     export_graph t model = Some saved /\
     tflite_convert t saved = Some tfl /\
     fs (snd r) !! tflite_path = Some tfl /\
     fs (snd r) !! pdiv (temp_dir t) "tf_model" = None /\
     out (snd r) = out s ++ conversion_notes) /\
  (staged t onnx_path s = None \/ writable w tflite_path = false ->
   fst r = false).
Proof.
  intros Hne. cbv zeta. split; [apply trocr_convert_same|].
  pose proof (convert_onnx_to_tflite_run w t onnx_path tflite_path s Hne) as R.
  cbv zeta in R. unfold staged in *.
  destruct (fs s !! onnx_path) as [onnx|] eqn:E0; cbn [mbind option_bind] in *.
  2:{ split; [rewrite R; discriminate|]. intros _. exact R. }
  destruct (onnx_load t onnx) as [model|] eqn:E1; cbn [mbind option_bind] in *.
  2:{ split; [rewrite R; discriminate|]. intros _. exact R. }
  destruct (export_graph t model) as [saved|] eqn:E2;
    cbn [mbind option_bind] in *.
  2:{ split; [rewrite R; discriminate|]. intros _. exact R. }
  destruct (tflite_convert t saved) as [tfl|] eqn:E3;
    cbn [mbind option_bind] in *.
  2:{ split; [rewrite R; discriminate|]. intros _. exact R. }
  destruct (writable w tflite_path).
  - destruct R as (R1 & R2 & R3 & R4). split.
    + intros _. exists onnx, model, saved, tfl. auto 10.
    + intros [H|H]; discriminate.
  - split; [rewrite R; discriminate|]. intros _. exact R.
Qed.

Lemma C6_witness :
  (fst (DownloadAndConvertOcrModels.convert_onnx_to_tflite offline
          working_tools onnx_file tflite_file (holding onnx_file [x00]))
   = true ->
   exists onnx model saved tfl : bytes,
     fs (holding onnx_file [x00]) !! onnx_file = Some onnx /\
     onnx_load working_tools onnx = Some model /\
     export_graph working_tools model = Some saved /\
     tflite_convert working_tools saved = Some tfl /\
     fs (snd (DownloadAndConvertOcrModels.convert_onnx_to_tflite offline
                working_tools onnx_file tflite_file (holding onnx_file [x00])))
       !! tflite_file = Some tfl /\
     fs (snd (DownloadAndConvertOcrModels.convert_onnx_to_tflite offline
                working_tools onnx_file tflite_file (holding onnx_file [x00])))
       !! pdiv (temp_dir working_tools) "tf_model" = None /\
     out (snd (DownloadAndConvertOcrModels.convert_onnx_to_tflite offline
                 working_tools onnx_file tflite_file (holding onnx_file [x00])))
     = out (holding onnx_file [x00]) ++ conversion_notes) /\
  fst (DownloadAndConvertOcrModels.convert_onnx_to_tflite offline
         working_tools onnx_file tflite_file (holding onnx_file [x00])) = true /\
  fst (DownloadAndConvertOcrModels.convert_onnx_to_tflite offline
         broken_tools onnx_file tflite_file (holding onnx_file [x00])) = false.
Proof.
  split; [|split].
  - apply (C6_onnx_tensorflow_tflite_order offline working_tools onnx_file
             tflite_file (holding onnx_file [x00])).
    intros H. discriminate H.
  - reflexivity.
  - apply (C6_onnx_tensorflow_tflite_order offline broken_tools onnx_file
             tflite_file (holding onnx_file [x00])).
    + intros H. discriminate H.
    + left. reflexivity.
Defined.

(** ** generate_working_images.py *)


Lemma pdiv_inj (d : Path) (a b : string) : pdiv d a = pdiv d b -> a = b.
Proof.
  unfold pdiv. intros H. inversion H as [H1].
  apply app_inv_head in H1. congruence.
Qed.





(** ** Try-until-success loops *)

Lemma upto_first_prefix {A} (ok : A -> bool) (l : list A) :
  upto_first ok l `prefix_of` l.
Proof.
  induction l as [|x l IH]; simpl; [reflexivity|].
  destruct (ok x).
  - exists l. reflexivity.
  - apply prefix_cons. exact IH.
Qed.

Lemma upto_first_stops {A} (ok : A -> bool) (l pre post : list A) (u : A) :
  upto_first ok l = pre ++ u :: post -> ok u = true -> post = [].
Proof.
  revert pre. induction l as [|x l IH]; intros pre H Hu; simpl in H.
  - destruct pre; discriminate.
  - destruct (ok x) eqn:Ex.
    + destruct pre as [|y pre]; simpl in H; inversion H; subst; auto.
      destruct pre; discriminate.
    + destruct pre as [|y pre]; simpl in H; inversion H; subst.
      * congruence.
      * eapply IH; eauto.
Qed.

Lemma upto_first_all_fail {A} (ok : A -> bool) (l : list A) :
  existsb ok l = false -> upto_first ok l = l.
Proof.
  induction l as [|x l IH]; simpl; [reflexivity|].
  destruct (ok x); simpl; [discriminate|]. intros H. rewrite IH; auto.
Qed.

Lemma upto_first_existsb {A} (ok : A -> bool) (l : list A) :
  existsb ok (upto_first ok l) = existsb ok l.
Proof.
  induction l as [|x l IH]; simpl; [reflexivity|].
  destruct (ok x) eqn:E; simpl; rewrite E; simpl; auto.
Qed.

(** ** download_and_convert_ocr_models.py: the download order *)

Lemma convert_download_file_run (w : World) (url : string) (p : Path)
    (d : string) (s : State) :
  exists note : string,
    DownloadAndConvertOcrModels.download_file w url p d s =
    (match fetch w url with Fetched _ => true | Failed _ => false end,
     MkState
       (match fetch w url with
        | Fetched body => <[p := body]> (fs s)
        | Failed residue => leave p residue (fs s)
        end)
       (out s ++ [Download url p; Note note])).
Proof.
  unfold DownloadAndConvertOcrModels.download_file. mrun.
  destruct (fetch w url) as [body|[part|]]; mrun;
    rewrite <- app_assoc; eexists; reflexivity.
Qed.

Lemma verify_onnx_model_run (t : Toolchain) (p : Path) (s : State) :
  exists notes : list Event,
    attempts notes = [] /\
    DownloadAndConvertOcrModels.verify_onnx_model t p s =
    (match fs s !! p ≫= onnx_load t with
     | Some model => onnx_check t model
     | None => false
     end,
     MkState (fs s) (out s ++ notes)).
Proof.
  unfold DownloadAndConvertOcrModels.verify_onnx_model. mrun.
  destruct (fs s !! p ≫= onnx_load t) as [model|].
  - destruct (onnx_check t model); mrun; rewrite <- app_assoc;
      eexists; (split; [|reflexivity]); reflexivity.
  - mrun. rewrite <- app_assoc. eexists. split; [|reflexivity]. reflexivity.
Qed.

(** one source: download it and, when that worked, verify it *)
Lemma convert_source_step (w : World) (t : Toolchain) (p : Path)
    (u d : string) (s : State) :
  let s1 := snd (DownloadAndConvertOcrModels.download_file w u p d s) in
  fst (DownloadAndConvertOcrModels.download_file w u p d s) =
    match fetch w u with Fetched _ => true | Failed _ => false end /\
  attempts (out s1) = attempts (out s) ++ [u] /\
  (forall body, fetch w u = Fetched body ->
     fst (DownloadAndConvertOcrModels.verify_onnx_model t p s1)
       = good_source w t u /\
     attempts (out (snd (DownloadAndConvertOcrModels.verify_onnx_model t p s1)))
       = attempts (out s) ++ [u]) /\
  (forall residue, fetch w u = Failed residue -> good_source w t u = false).
Proof.
  cbv zeta. destruct (convert_download_file_run w u p d s) as [note ->].
  cbn [fst snd out]. split; [reflexivity|]. split; [apply attempts_notes|].
  split.
  - intros body Hb.
    destruct (verify_onnx_model_run t p
      (MkState
         (match fetch w u with
          | Fetched body => <[p := body]> (fs s)
          | Failed residue => leave p residue (fs s)
          end)
         (out s ++ [Download u p; Note note]))) as [notes [Hn ->]].
    cbn [fst snd fs out]. unfold good_source. rewrite Hb.
    rewrite lookup_insert_eq. cbn [mbind option_bind]. split; [reflexivity|].
    rewrite attempts_app, Hn, app_nil_r. apply attempts_notes.
  - intros residue Hr. unfold good_source. rewrite Hr. reflexivity.
Qed.

Lemma try_backups_run (w : World) (t : Toolchain) (p : Path)
    (backups : list string) (s : State) :
  let r := DownloadAndConvertOcrModels.try_backups w t p backups s in
  fst r = existsb (good_source w t) backups /\
  attempts (out (snd r))
  = attempts (out s) ++ upto_first (good_source w t) backups.
Proof.
  revert s. induction backups as [|u rest IH]; intros s; cbv zeta.
  - cbn. rewrite app_nil_r. split; reflexivity.
  - cbn [DownloadAndConvertOcrModels.try_backups existsb upto_first].
    destruct (convert_source_step w t p u "Backup" s) as (D1 & D2 & D3 & D4).
    mstep. rewrite D1.
    destruct (fetch w u) as [body|residue] eqn:Ef.
    + destruct (D3 body eq_refl) as [V1 V2]. mstep. rewrite V1.
      destruct (good_source w t u) eqn:Eg.
      * mrun. rewrite V2. split; reflexivity.
      * mstep. cbn [orb].
        specialize (IH (snd (print (Note "Backup ONNX source failed verification")
          (snd (DownloadAndConvertOcrModels.verify_onnx_model t p
             (snd (DownloadAndConvertOcrModels.download_file w u p "Backup" s))))))).
        cbv zeta in IH. destruct IH as [I1 I2]. rewrite I1, I2.
        split; [reflexivity|]. cbn [print snd out].
        rewrite attempts_note, V2, <- app_assoc. reflexivity.
    + rewrite (D4 residue eq_refl). cbn [orb].
      specialize (IH (snd (DownloadAndConvertOcrModels.download_file w u p "Backup" s))).
      cbv zeta in IH. destruct IH as [I1 I2]. rewrite I1, I2.
      split; [reflexivity|]. rewrite D2, <- app_assoc. reflexivity.
Qed.

Lemma download_onnx_run (w : World) (t : Toolchain) (p : Path)
    (info : DownloadAndConvertOcrModels.ModelInfo) (s : State) :
  let r := DownloadAndConvertOcrModels.download_onnx w t p info s in
  let good := good_source w t in
  let backups := default [] (DownloadAndConvertOcrModels.backup_urls info) in
  fst r = good (DownloadAndConvertOcrModels.url info) || existsb good backups /\
  attempts (out (snd r))
  = attempts (out s) ++
    DownloadAndConvertOcrModels.url info ::
    (if good (DownloadAndConvertOcrModels.url info) then []
     else upto_first good backups).
Proof.
  cbv zeta. unfold DownloadAndConvertOcrModels.download_onnx.
  set (u := DownloadAndConvertOcrModels.url info).
  set (d := DownloadAndConvertOcrModels.description info).
  destruct (convert_source_step w t p u d s) as (D1 & D2 & D3 & D4).
  mstep. rewrite bind_run. cbv beta. rewrite D1.
  destruct (fetch w u) as [body|residue] eqn:Ef.
  - destruct (D3 body eq_refl) as [V1 V2]. mstep. rewrite V1.
    destruct (good_source w t u) eqn:Eg.
    + mrun. rewrite V2. split; reflexivity.
    + mrun. cbn [orb].
      destruct (DownloadAndConvertOcrModels.backup_urls info) as [backups|];
        cbn [default].
      * match goal with |- context [DownloadAndConvertOcrModels.try_backups w t p backups ?s1] =>
          destruct (try_backups_run w t p backups s1) as [I1 I2] end.
        rewrite I1, I2. split; [reflexivity|].
        cbn [print snd out]. rewrite !attempts_note, V2, <- app_assoc.
        reflexivity.
      * mrun. rewrite attempts_note, V2. split; reflexivity.
  - rewrite (D4 residue eq_refl). mrun. cbn [orb].
    destruct (DownloadAndConvertOcrModels.backup_urls info) as [backups|];
      cbn [default].
    + match goal with |- context [DownloadAndConvertOcrModels.try_backups w t p backups ?s1] =>
        destruct (try_backups_run w t p backups s1) as [I1 I2] end.
      rewrite I1, I2. split; [reflexivity|].
      cbn [print snd out]. rewrite attempts_note, D2, <- app_assoc.
      reflexivity.
    + mrun. rewrite D2. split; reflexivity.
Qed.

(** ** download_ocr_models.py: one model *)

Lemma ocr_download_file_run (w : World) (url : string) (p : Path)
    (d : string) (s : State) :
  exists note : string,
    DownloadOcrModels.download_file w url p d s =
    (match fetch w url with Fetched _ => true | Failed _ => false end,
     MkState
       (match fetch w url with
        | Fetched body => <[p := body]> (fs s)
        | Failed residue => leave p residue (fs s)
        end)
       (out s ++ [Download url p; Note note])).
Proof.
  unfold DownloadOcrModels.download_file. mrun.
  destruct (fetch w url) as [body|[part|]]; mrun;
    rewrite <- app_assoc; eexists; reflexivity.
Qed.

Lemma verify_file_size_run (p : Path) (expected tolerance : B64.float)
    (s : State) :
  exists notes : list Event,
    attempts notes = [] /\
    DownloadOcrModels.verify_file_size p expected tolerance s =
    (match fs s !! p with
     | Some data =>
         negb (B64.gt (B64.abs (B64.sub (B64.megabytes data) expected))
                 tolerance)
     | None => false
     end,
     MkState (fs s) (out s ++ notes)).
Proof.
  unfold DownloadOcrModels.verify_file_size. mrun.
  destruct (fs s !! p) as [data|].
  - destruct (B64.gt _ _); mrun; eexists; (split; [|reflexivity]); reflexivity.
  - exists []. rewrite app_nil_r. destruct s. split; reflexivity.
Qed.

Lemma ocr_process_model_run (w : World) (dir : Path) (name : string)
    (info : DownloadOcrModels.ModelInfo) (s : State) :
  let target := pdiv dir name in
  let u := DownloadOcrModels.url info in
  let r := DownloadOcrModels.process_model w dir (name, info) s in
  if already_verified s target (DownloadOcrModels.size_mb info) then
    fst r = true /\ fs (snd r) = fs s /\
    attempts (out (snd r)) = attempts (out s)
  else
    match fetch w u with
    | Fetched body =>
        fst r = true /\ fs (snd r) = <[target := body]> (fs s) /\
        attempts (out (snd r)) = attempts (out s) ++ [u]
    | Failed r1 =>
        match DownloadOcrModels.fallback_url info with
        | None =>
            fst r = false /\ fs (snd r) = leave target r1 (fs s) /\
            attempts (out (snd r)) = attempts (out s) ++ [u]
        | Some fb =>
            match fetch w fb with
            | Fetched body =>
                fst r = true /\
                fs (snd r) = <[target := body]> (leave target r1 (fs s)) /\
                attempts (out (snd r)) = attempts (out s) ++ [u; fb]
            | Failed r2 =>
                fst r = false /\
                fs (snd r) = leave target r2 (leave target r1 (fs s)) /\
                attempts (out (snd r)) = attempts (out s) ++ [u; fb]
            end
        end
    end.
Proof.
  cbv zeta. unfold DownloadOcrModels.process_model, already_verified.
  set (target := pdiv dir name).
  set (u := DownloadOcrModels.url info).
  set (d := DownloadOcrModels.description info).
  set (e := DownloadOcrModels.size_mb info).
  set (tol := DownloadOcrModels.default_tolerance).
  rewrite bind_run. cbv beta. rewrite exists_run. cbn [fst snd].
  assert (Hskip :
    exists notes : list Event, attempts notes = [] /\
      (if bool_decide (is_Some (fs s !! target))
       then DownloadOcrModels.verify_file_size target e tol
       else ret false) s =
      (match fs s !! target with
       | Some data =>
           negb (B64.gt (B64.abs (B64.sub (B64.megabytes data) e)) tol)
       | None => false
       end, MkState (fs s) (out s ++ notes))).
  { destruct (fs s !! target) as [data|] eqn:Et.
    - rewrite bool_decide_eq_true_2 by eauto.
      destruct (verify_file_size_run target e tol s) as [notes [Hn Hr]].
      exists notes. rewrite Hr, Et. auto.
    - rewrite bool_decide_eq_false_2 by (intros [x Hx]; discriminate).
      exists []. rewrite app_nil_r. destruct s. auto. }
  destruct Hskip as [notes [Hn Hr]]. rewrite bind_run. cbv beta. rewrite Hr.
  cbn [fst snd]. clear Hr.
  destruct (match fs s !! target with
            | Some data =>
                negb (B64.gt (B64.abs (B64.sub (B64.megabytes data) e)) tol)
            | None => false
            end).
  { mrun. rewrite attempts_note, attempts_app, Hn, app_nil_r. auto. }
  rewrite bind_run. cbv beta.
  destruct (ocr_download_file_run w u target d (MkState (fs s) (out s ++ notes)))
    as [n1 ->].
  cbn [fst snd fs out].
  assert (A1 : attempts ((out s ++ notes) ++ [Download u target; Note n1])
               = attempts (out s) ++ [u]).
  { rewrite attempts_notes, attempts_app, Hn, app_nil_r. reflexivity. }
  destruct (fetch w u) as [body|r1] eqn:Ef; cbn [negb].
  - (* the primary URL delivered *)
    mrun.
    match goal with |- context [DownloadOcrModels.verify_file_size target e tol ?s1] =>
      destruct (verify_file_size_run target e tol s1) as [notes2 [Hn2 ->]] end.
    cbn [fst snd fs out].
    match goal with |- context [if ?b then _ else _] => destruct b end;
      mrun; rewrite attempts_note, attempts_app, Hn2, app_nil_r, A1; auto.
  - destruct (DownloadOcrModels.fallback_url info) as [fb|].
    + rewrite bind_run. cbv beta. rewrite bind_run. cbv beta.
      rewrite print_run. cbn [fst snd].
      match goal with |- context [DownloadOcrModels.download_file w fb target d ?s1] =>
        destruct (ocr_download_file_run w fb target d s1) as [n2 ->] end.
      cbn [fst snd fs out].
      assert (A2 : attempts
                (((((out s ++ notes) ++ [Download u target; Note n1]) ++
                   [Note "[RETRY] Trying fallback URL..."]) ++
                  [Download fb target; Note n2]))
              = attempts (out s) ++ [u; fb]).
      { rewrite attempts_notes, attempts_note, A1, <- app_assoc. reflexivity. }
      destruct (fetch w fb) as [body|r2] eqn:Ef2.
      * mrun.
        match goal with |- context [DownloadOcrModels.verify_file_size target e tol ?s1] =>
          destruct (verify_file_size_run target e tol s1) as [notes2 [Hn2 ->]] end.
        cbn [fst snd fs out].
        match goal with |- context [if ?b then _ else _] => destruct b end;
          mrun; rewrite attempts_note, attempts_app, Hn2, app_nil_r, A2; auto.
      * mrun. rewrite attempts_note, A2. auto.
    + mrun. rewrite attempts_note, A1. auto.
Qed.

Lemma upto_first_spec {A} (ok : A -> bool) (l : list A) :
  (existsb ok l = false /\ upto_first ok l = l) \/
  (exists (pre : list A) (b : A) (post : list A),
     l = pre ++ b :: post /\ existsb ok pre = false /\ ok b = true /\
     upto_first ok l = pre ++ [b]).
Proof.
  induction l as [|x l IH]; simpl.
  - left. auto.
  - destruct (ok x) eqn:Ex; simpl.
    + right. exists [], x, l. auto.
    + destruct IH as [[H1 H2]|(pre & b & post & H1 & H2 & H3 & H4)].
      * left. rewrite H2. auto.
      * right. exists (x :: pre), b, post. simpl. rewrite Ex, H4, H1. auto.
Qed.

(** C2: downloads go by priority. In download_ocr_models.py a model
    whose file is not already verified has its primary URL attempted
    first; the fallback URL is attempted next exactly when the primary
    transfer failed and a fallback is listed, and nothing else is
    attempted. In download_and_convert_ocr_models.py the primary URL is
    attempted first; when its body arrived and passed
    [verify_onnx_model] no backup is attempted; otherwise the backups are
    attempted in their listed order up to and including the first that
    arrives and passes verification, all of them when none does; the
    answer tells whether one source was good. *)
Theorem C2_primary_first_then_fallbacks_in_order (w : World) (t : Toolchain)
    (s : State) :
  (forall (dir : Path) (name : string) (info : DownloadOcrModels.ModelInfo),
     let u := DownloadOcrModels.url info in
     let r := DownloadOcrModels.process_model w dir (name, info) s in
     attempts (out (snd r)) =
     attempts (out s) ++
     (if already_verified s (pdiv dir name) (DownloadOcrModels.size_mb info)
      then []
      else
        match fetch w u, DownloadOcrModels.fallback_url info with
        | Fetched _, _ => [u]
        | Failed _, Some fb => [u; fb]
        | Failed _, None => [u]
        end)) /\
  (forall (onnx_path : Path) (info : DownloadAndConvertOcrModels.ModelInfo),
     let u := DownloadAndConvertOcrModels.url info in
     let good := good_source w t in
     let backups := default [] (DownloadAndConvertOcrModels.backup_urls info) in
     let r := DownloadAndConvertOcrModels.download_onnx w t onnx_path info s in
     exists tried : list string,
       attempts (out (snd r)) = attempts (out s) ++ u :: tried /\
       tried = (if good u then [] else upto_first good backups) /\
       (good u = true -> tried = []) /\
       (good u = false ->
        (existsb good backups = false /\ tried = backups) \/
        (exists (pre : list string) (b : string) (post : list string),
           backups = pre ++ b :: post /\ existsb good pre = false /\
           good b = true /\ tried = pre ++ [b])) /\
       fst r = good u || existsb good backups).
Proof.
  split.
  - intros dir name info. cbv zeta.
    pose proof (ocr_process_model_run w dir name info s) as R. cbv zeta in R.
    destruct (already_verified s (pdiv dir name) (DownloadOcrModels.size_mb info)).
    { rewrite app_nil_r. apply R. }
    destruct (fetch w (DownloadOcrModels.url info)) as [body|r1] eqn:Ef.
    { apply R. }
    destruct (DownloadOcrModels.fallback_url info) as [fb|] eqn:Eb.
    + destruct (fetch w fb) as [body|r2]; apply R.
    + apply R.
  - intros p info. cbv zeta.
    destruct (download_onnx_run w t p info s) as [R1 R2].
    eexists. split; [exact R2|]. split; [reflexivity|].
    destruct (good_source w t (DownloadAndConvertOcrModels.url info)) eqn:Eg.
    + split; [reflexivity|]. split; [discriminate|]. exact R1.
    + split; [discriminate|]. split; [|exact R1]. intros _.
      destruct (upto_first_spec (good_source w t)
                  (default [] (DownloadAndConvertOcrModels.backup_urls info)))
        as [[H1 H2]|(pre & b & post & H1 & H2 & H3 & H4)].
      * left. auto.
      * right. exists pre, b, post. auto.
Qed.

Lemma C2_witness :
  attempts (out (snd (DownloadAndConvertOcrModels.download_onnx primary_down
                        working_tools onnx_file craft_onnx_info fresh)))
  = [ "https://github.com/clovaai/CRAFT-pytorch/releases/download/v1.0/craft_mlt_25k.onnx";
      "https://github.com/JaidedAI/EasyOCR/releases/download/v1.6.0/craft_mlt_25k.onnx" ].
Proof.
  destruct (C2_primary_first_then_fallbacks_in_order primary_down
              working_tools fresh) as [_ H].
  destruct (H onnx_file craft_onnx_info) as (tried & A & E & _).
  rewrite A, E. reflexivity.
Defined.

(** ** download_ocr_models.py: the early return *)

Lemma download_models_app (w : World) (dir : Path)
    (l1 l2 : list (string * DownloadOcrModels.ModelInfo)) (s : State) :
  DownloadOcrModels.download_models w dir (l1 ++ l2) s =
  if fst (DownloadOcrModels.download_models w dir l1 s)
  then DownloadOcrModels.download_models w dir l2
         (snd (DownloadOcrModels.download_models w dir l1 s))
  else (false, snd (DownloadOcrModels.download_models w dir l1 s)).
Proof.
  revert s. induction l1 as [|e l1 IH]; intros s.
  - reflexivity.
  - cbn [app DownloadOcrModels.download_models]. rewrite !bind_run.
    destruct (fst (DownloadOcrModels.process_model w dir e s)).
    + apply IH.
    + reflexivity.
Qed.

(** C8: when the models before it went through and a model that is not
    already verified on disk has both its primary and its fallback
    transfer fail, [main] of download_ocr_models.py answers [False] there
    and the exit status is 1; the attempts end with that model's two URLs,
    so no later model is attempted; no file but the model's target differs
    from what the earlier models left, and the target holds what was there
    before or what a failed transfer left behind, never a placeholder. *)
Theorem C8_first_total_failure_aborts (w : World)
    (pre post : list (string * DownloadOcrModels.ModelInfo))
    (name : string) (info : DownloadOcrModels.ModelInfo) (fb : string)
    (r1 r2 : option bytes) (s s1 : State) :
  DownloadOcrModels.download_models w DownloadOcrModels.assets_dir pre s
    = (true, s1) ->
  already_verified s1 (pdiv DownloadOcrModels.assets_dir name)
    (DownloadOcrModels.size_mb info) = false ->
  DownloadOcrModels.fallback_url info = Some fb ->
  fetch w (DownloadOcrModels.url info) = Failed r1 ->
  fetch w fb = Failed r2 ->
  let target := pdiv DownloadOcrModels.assets_dir name in
  let r := DownloadOcrModels.main_with (pre ++ (name, info) :: post) w s in
  fst r = false /\
  DownloadOcrModels.exit_status (fst r) = 1%Z /\
  attempts (out (snd r))
  = attempts (out s1) ++ [DownloadOcrModels.url info; fb] /\
  (forall q : Path, q <> target -> fs (snd r) !! q = fs s1 !! q) /\
  fs (snd r) !! target
  = match r2, r1 with
    | Some part, _ => Some part
    | None, Some part => Some part
    | None, None => fs s1 !! target
    end.
Proof.
  intros Hpre Hskip Hfb Hf1 Hf2. cbv zeta.
  unfold DownloadOcrModels.main_with. rewrite bind_run.
  rewrite download_models_app, Hpre. cbn [fst snd].
  cbn [DownloadOcrModels.download_models]. rewrite bind_run.
  pose proof (ocr_process_model_run w DownloadOcrModels.assets_dir name info s1)
    as R.
  cbv zeta in R. rewrite Hskip, Hf1, Hfb, Hf2 in R.
  destruct R as (R1 & R2 & R3). rewrite R1. mrun.
  split; [reflexivity|]. split; [reflexivity|]. split; [exact R3|].
  rewrite R2. split.
  - intros q Hq. destruct r1 as [p1|], r2 as [p2|]; cbn [leave];
      rewrite ?lookup_insert_ne by (intros E; apply Hq; symmetry; exact E);
      reflexivity.
  - destruct r1 as [p1|], r2 as [p2|]; cbn [leave];
      rewrite ?lookup_insert_eq; reflexivity.
Qed.

Lemma C8_witness :
  fst (DownloadOcrModels.main offline fresh) = false /\
  DownloadOcrModels.exit_status (fst (DownloadOcrModels.main offline fresh)) = 1%Z /\
  attempts (out (snd (DownloadOcrModels.main offline fresh)))
  = attempts (out fresh) ++
    [ DownloadOcrModels.url eng_info;
      "https://github.com/tesseract-ocr/tessdata_fast/raw/main/eng.traineddata" ] /\
  (forall q : Path, q <> eng_path ->
     fs (snd (DownloadOcrModels.main offline fresh)) !! q = fs fresh !! q) /\
  fs (snd (DownloadOcrModels.main offline fresh)) !! eng_path
  = fs fresh !! eng_path.
Proof.
  apply (C8_first_total_failure_aborts offline []
           (tail DownloadOcrModels.MODELS) "eng.traineddata" eng_info
           "https://github.com/tesseract-ocr/tessdata_fast/raw/main/eng.traineddata"
           None None fresh fresh); reflexivity.
Defined.

(** ** Computations confined to one file *)

Lemma confined_ret {A} (p : Path) (a : A) : confined p (ret a).
Proof. intros s q _. reflexivity. Qed.

Lemma confined_print (p : Path) (e : Event) : confined p (print e).
Proof. intros s q _. reflexivity. Qed.

Lemma confined_read (p p' : Path) : confined p (read p').
Proof. intros s q _. reflexivity. Qed.

Lemma confined_exists (p p' : Path) : confined p (exists_ p').
Proof. intros s q _. reflexivity. Qed.

Lemma confined_write (p : Path) (b : bytes) : confined p (write p b).
Proof. intros s q H. cbn. apply lookup_insert_ne. congruence. Qed.

Lemma confined_remove (p : Path) : confined p (remove p).
Proof. intros s q H. cbn. apply lookup_delete_ne. congruence. Qed.

Lemma confined_bind {A B} (p : Path) (m : M A) (k : A -> M B) :
  confined p m -> (forall a, confined p (k a)) -> confined p (bind m k).
Proof.
  intros Hm Hk s q Hq. rewrite bind_run. rewrite Hk by exact Hq.
  apply Hm. exact Hq.
Qed.

Lemma confined_if {A} (p : Path) (b : bool) (m1 m2 : M A) :
  confined p m1 -> confined p m2 -> confined p (if b then m1 else m2).
Proof. destruct b; auto. Qed.

Lemma confined_try_write (w : World) (p : Path) (b : bytes) :
  confined p (try_write w p b).
Proof.
  unfold try_write. apply confined_if.
  - apply confined_bind; [apply confined_write|intros; apply confined_ret].
  - apply confined_ret.
Qed.

Lemma confined_transfer (w : World) (u : string) (p : Path) :
  confined p (transfer w u p).
Proof.
  unfold transfer. destruct (fetch w u) as [b|[b|]];
    try (apply confined_bind; [apply confined_write|intros; apply confined_ret]).
  apply confined_ret.
Qed.

Create HintDb confined.
#[export] Hint Resolve confined_ret confined_print confined_read
  confined_exists confined_write confined_remove confined_try_write
  confined_transfer : confined.

(** take a computation apart along its binds and branches *)
Ltac confine :=
  repeat first
    [ apply confined_bind; [|intros ?]
    | apply confined_if
    | match goal with
      | |- confined _ (match ?o with Some _ => _ | None => _ end) => destruct o
      end
    | solve [auto with confined] ].

(** ** download_ocr_tflite_direct.py: a file at every target *)

Lemma tflite_download_file_run (w : World) (url : string) (p : Path)
    (d : string) (s : State) :
  exists note : string,
    DownloadOcrTfliteDirect.download_file w url p d s =
    (match fetch w url with Fetched _ => true | Failed _ => false end,
     MkState
       (match fetch w url with
        | Fetched body => <[p := body]> (fs s)
        | Failed residue => leave p residue (fs s)
        end)
       (out s ++ [Download url p; Note note])).
Proof.
  unfold DownloadOcrTfliteDirect.download_file. mrun.
  destruct (fetch w url) as [body|[part|]]; mrun;
    rewrite <- app_assoc; eexists; reflexivity.
Qed.

Lemma tflite_download_file_confined (w : World) (u : string) (p : Path)
    (d : string) :
  confined p (DownloadOcrTfliteDirect.download_file w u p d).
Proof. unfold DownloadOcrTfliteDirect.download_file. confine. Qed.

Lemma verify_tflite_model_confined (p q : Path) (e : option Q) :
  confined p (DownloadOcrTfliteDirect.verify_tflite_model q e).
Proof. intros s q' _. rewrite verify_tflite_model_fs. reflexivity. Qed.

Lemma create_working_tflite_model_confined (w : World) (p : Path)
    (d : string) :
  confined p (DownloadOcrTfliteDirect.create_working_tflite_model w p d).
Proof. unfold DownloadOcrTfliteDirect.create_working_tflite_model. confine. Qed.

#[export] Hint Resolve tflite_download_file_confined
  verify_tflite_model_confined create_working_tflite_model_confined : confined.

Lemma tflite_try_urls_confined (w : World) (p : Path)
    (info : DownloadOcrTfliteDirect.ModelInfo) (us : list string) :
  confined p (DownloadOcrTfliteDirect.try_urls w p info us).
Proof.
  induction us as [|u us IH]; cbn [DownloadOcrTfliteDirect.try_urls]; confine.
Qed.

#[export] Hint Resolve tflite_try_urls_confined : confined.

Lemma tflite_process_model_confined (w : World) (dir : Path) (c : nat)
    (name : string) (info : DownloadOcrTfliteDirect.ModelInfo) :
  confined (pdiv dir name)
    (DownloadOcrTfliteDirect.process_model w dir c (name, info)).
Proof. unfold DownloadOcrTfliteDirect.process_model. confine. Qed.

Lemma tflite_try_urls_true (w : World) (p : Path)
    (info : DownloadOcrTfliteDirect.ModelInfo) (us : list string) (s : State) :
  fst (DownloadOcrTfliteDirect.try_urls w p info us s) = true ->
  is_Some (fs (snd (DownloadOcrTfliteDirect.try_urls w p info us s)) !! p).
Proof.
  revert s. induction us as [|u us IH]; intros s;
    cbn [DownloadOcrTfliteDirect.try_urls].
  - cbn. discriminate.
  - mstep.
    destruct (fst (DownloadOcrTfliteDirect.download_file w u p
                     (DownloadOcrTfliteDirect.description info) s)); [|apply IH].
    mstep.
    destruct (fst (DownloadOcrTfliteDirect.verify_tflite_model p _ _)) eqn:Ev.
    + intros _. mrun. rewrite verify_tflite_model_fs.
      rewrite verify_tflite_model_result in Ev.
      destruct (fs _ !! p); [eauto|discriminate].
    + do 2 mstep. apply IH.
Qed.

Lemma tflite_try_urls_all_fail (w : World) (p : Path)
    (info : DownloadOcrTfliteDirect.ModelInfo) (us : list string) (s : State) :
  Forall (fails w) us ->
  fst (DownloadOcrTfliteDirect.try_urls w p info us s) = false.
Proof.
  intros H. revert s. induction H as [|u us [r Hu] _ IH]; intros s;
    cbn [DownloadOcrTfliteDirect.try_urls]; [reflexivity|].
  mstep. destruct (tflite_download_file_run w u p
                     (DownloadOcrTfliteDirect.description info) s) as [n ->].
  rewrite Hu. cbn [fst snd]. apply IH.
Qed.

Lemma create_working_tflite_model_writable (w : World) (p : Path)
    (d : string) (s : State) :
  writable w p = true ->
  fst (DownloadOcrTfliteDirect.create_working_tflite_model w p d s) = true /\
  fs (snd (DownloadOcrTfliteDirect.create_working_tflite_model w p d s))
  = <[p := DownloadOcrTfliteDirect.stub_data p]> (fs s).
Proof.
  intros H. unfold DownloadOcrTfliteDirect.create_working_tflite_model. mrun.
  rewrite H. mrun. split; reflexivity.
Qed.

Lemma tflite_process_model_present (w : World) (dir : Path) (c : nat)
    (name : string) (info : DownloadOcrTfliteDirect.ModelInfo) (s : State) :
  writable w (pdiv dir name) = true ->
  is_Some (fs (snd (DownloadOcrTfliteDirect.process_model w dir c (name, info) s))
           !! pdiv dir name).
Proof.
  intros Hw. unfold DownloadOcrTfliteDirect.process_model. mstep.
  destruct (fst (DownloadOcrTfliteDirect.try_urls w (pdiv dir name) info _ s))
    eqn:Et.
  - mrun. apply tflite_try_urls_true. exact Et.
  - do 2 mstep.
    match goal with |- context [DownloadOcrTfliteDirect.create_working_tflite_model w ?p ?d ?s1] =>
      destruct (create_working_tflite_model_writable w p d s1 Hw) as [C1 C2] end.
    rewrite C1. unfold ret. cbn [fst snd]. rewrite C2, lookup_insert_eq. eauto.
Qed.

Lemma tflite_process_model_stub (w : World) (dir : Path) (c : nat)
    (name : string) (info : DownloadOcrTfliteDirect.ModelInfo) (s : State) :
  Forall (fails w) (DownloadOcrTfliteDirect.urls info) ->
  writable w (pdiv dir name) = true ->
  fs (snd (DownloadOcrTfliteDirect.process_model w dir c (name, info) s))
    !! pdiv dir name
  = Some (DownloadOcrTfliteDirect.stub_data (pdiv dir name)).
Proof.
  intros Hf Hw. unfold DownloadOcrTfliteDirect.process_model. mstep.
  rewrite (tflite_try_urls_all_fail w _ info _ s Hf). do 2 mstep.
  match goal with |- context [DownloadOcrTfliteDirect.create_working_tflite_model w ?p ?d ?s1] =>
    destruct (create_working_tflite_model_writable w p d s1 Hw) as [C1 C2] end.
  rewrite C1. unfold ret. cbn [fst snd]. rewrite C2. apply lookup_insert_eq.
Qed.

Lemma tflite_process_models_frame (w : World) (dir : Path)
    (models : list (string * DownloadOcrTfliteDirect.ModelInfo)) (c : nat)
    (s : State) (q : Path) :
  q ∉ map (fun e => pdiv dir (fst e)) models ->
  fs (snd (DownloadOcrTfliteDirect.process_models w dir c models s)) !! q
  = fs s !! q.
Proof.
  revert c s. induction models as [|[name info] models IH]; intros c s Hq;
    cbn [DownloadOcrTfliteDirect.process_models]; [reflexivity|].
  cbn [map fst] in Hq. apply not_elem_of_cons in Hq as [Hq1 Hq2].
  mstep. rewrite IH by exact Hq2.
  apply tflite_process_model_confined. exact Hq1.
Qed.

Lemma tflite_process_models_present (w : World) (dir : Path)
    (models : list (string * DownloadOcrTfliteDirect.ModelInfo)) (c : nat)
    (s : State) (q : Path) :
  writable w q = true ->
  q ∈ map (fun e => pdiv dir (fst e)) models ->
  is_Some (fs (snd (DownloadOcrTfliteDirect.process_models w dir c models s))
           !! q).
Proof.
  intros Hw. revert c s. induction models as [|[name info] models IH];
    intros c s Hq; cbn [DownloadOcrTfliteDirect.process_models].
  - cbn in Hq. apply elem_of_nil in Hq. destruct Hq.
  - mstep.
    destruct (decide (q ∈ map (fun e => pdiv dir (fst e)) models)) as [Hin|Hout].
    + apply IH. exact Hin.
    + rewrite tflite_process_models_frame by exact Hout.
      cbn [map fst] in Hq. apply elem_of_cons in Hq as [->|Hq]; [|contradiction].
      apply tflite_process_model_present. exact Hw.
Qed.

(** ** download_easyocr_models.py: a file at every target *)

Lemma easyocr_download_file_run (w : World) (url : string) (p : Path)
    (d : string) (s : State) :
  exists note : string,
    DownloadEasyocrModels.download_file w url p d s =
    (match fetch w url with Fetched _ => true | Failed _ => false end,
     MkState
       (match fetch w url with
        | Fetched body => <[p := body]> (fs s)
        | Failed residue => leave p residue (fs s)
        end)
       (out s ++ [Download url p; Note note])).
Proof.
  unfold DownloadEasyocrModels.download_file. mrun.
  destruct (fetch w url) as [body|[part|]]; mrun;
    rewrite <- app_assoc; eexists; reflexivity.
Qed.

Lemma easyocr_download_file_confined (w : World) (u : string) (p : Path)
    (d : string) :
  confined p (DownloadEasyocrModels.download_file w u p d).
Proof. unfold DownloadEasyocrModels.download_file. confine. Qed.

Lemma verify_file_fs (p : Path) (s : State) :
  fs (snd (DownloadEasyocrModels.verify_file p s)) = fs s.
Proof.
  destruct (fs s !! p) as [data|] eqn:E.
  - rewrite (verify_file_run p s data E). reflexivity.
  - rewrite (verify_file_missing p s E). reflexivity.
Qed.

Lemma verify_file_true (p : Path) (s : State) :
  fst (DownloadEasyocrModels.verify_file p s) = true -> is_Some (fs s !! p).
Proof.
  destruct (fs s !! p) as [data|] eqn:E; [eauto|].
  rewrite (verify_file_missing p s E). discriminate.
Qed.

Lemma verify_file_confined (p q : Path) :
  confined p (DownloadEasyocrModels.verify_file q).
Proof. intros s q' _. rewrite verify_file_fs. reflexivity. Qed.

Lemma create_minimal_tflite_confined (w : World) (p : Path) (d : string) :
  confined p (DownloadEasyocrModels.create_minimal_tflite w p d).
Proof. unfold DownloadEasyocrModels.create_minimal_tflite. confine. Qed.

#[export] Hint Resolve easyocr_download_file_confined verify_file_confined
  create_minimal_tflite_confined : confined.

Lemma try_sources_confined (w : World) (p : Path) (us : list string) :
  confined p (DownloadEasyocrModels.try_sources w p us).
Proof.
  induction us as [|u us IH]; cbn [DownloadEasyocrModels.try_sources]; confine.
Qed.

Lemma try_alternatives_confined (w : World) (p : Path) (us : list string) :
  confined p (DownloadEasyocrModels.try_alternatives w p us).
Proof.
  induction us as [|u us IH]; cbn [DownloadEasyocrModels.try_alternatives];
    confine.
Qed.

#[export] Hint Resolve try_sources_confined try_alternatives_confined
  : confined.

Lemma try_direct_tflite_sources_confined (w : World) (p : Path) :
  confined p (DownloadEasyocrModels.try_direct_tflite_sources w p).
Proof. unfold DownloadEasyocrModels.try_direct_tflite_sources. confine. Qed.

#[export] Hint Resolve try_direct_tflite_sources_confined : confined.

Lemma easyocr_process_model_confined (w : World) (dir : Path) (c : nat)
    (name : string) (info : DownloadEasyocrModels.ModelInfo) :
  confined (pdiv dir name)
    (DownloadEasyocrModels.process_model w dir c (name, info)).
Proof. unfold DownloadEasyocrModels.process_model. confine. Qed.

Lemma try_sources_true (w : World) (p : Path) (us : list string) (s : State) :
  fst (DownloadEasyocrModels.try_sources w p us s) = true ->
  is_Some (fs (snd (DownloadEasyocrModels.try_sources w p us s)) !! p).
Proof.
  revert s. induction us as [|u us IH]; intros s;
    cbn [DownloadEasyocrModels.try_sources].
  - cbn. discriminate.
  - mstep.
    destruct (fst (DownloadEasyocrModels.download_file w u p _ s)); [|apply IH].
    mstep.
    destruct (fst (DownloadEasyocrModels.verify_file p _)) eqn:Ev.
    + intros _. mrun. rewrite verify_file_fs.
      apply verify_file_true. exact Ev.
    + mstep. apply IH.
Qed.

Lemma try_alternatives_true (w : World) (p : Path) (us : list string)
    (s : State) :
  fst (DownloadEasyocrModels.try_alternatives w p us s) = true ->
  is_Some (fs (snd (DownloadEasyocrModels.try_alternatives w p us s)) !! p).
Proof.
  revert s. induction us as [|u us IH]; intros s;
    cbn [DownloadEasyocrModels.try_alternatives].
  - cbn. discriminate.
  - mstep.
    destruct (fst (DownloadEasyocrModels.download_file w u p _ s)); [|apply IH].
    mstep.
    destruct (fst (DownloadEasyocrModels.verify_file p _)) eqn:Ev.
    + intros _. mrun. rewrite verify_file_fs.
      apply verify_file_true. exact Ev.
    + apply IH.
Qed.

Lemma try_sources_all_fail (w : World) (p : Path) (us : list string)
    (s : State) :
  Forall (fails w) us ->
  fst (DownloadEasyocrModels.try_sources w p us s) = false.
Proof.
  intros H. revert s. induction H as [|u us [r Hu] _ IH]; intros s;
    cbn [DownloadEasyocrModels.try_sources]; [reflexivity|].
  mstep. destruct (easyocr_download_file_run w u p "Direct TFLite" s) as [n ->].
  rewrite Hu. cbn [fst snd]. apply IH.
Qed.

Lemma try_alternatives_all_fail (w : World) (p : Path) (us : list string)
    (s : State) :
  Forall (fails w) us ->
  fst (DownloadEasyocrModels.try_alternatives w p us s) = false.
Proof.
  intros H. revert s. induction H as [|u us [r Hu] _ IH]; intros s;
    cbn [DownloadEasyocrModels.try_alternatives]; [reflexivity|].
  mstep. destruct (easyocr_download_file_run w u p "Alternative" s) as [n ->].
  rewrite Hu. cbn [fst snd]. apply IH.
Qed.

Lemma try_direct_tflite_sources_true (w : World) (p : Path) (s : State) :
  fst (DownloadEasyocrModels.try_direct_tflite_sources w p s) = true ->
  is_Some (fs (snd (DownloadEasyocrModels.try_direct_tflite_sources w p s))
           !! p).
Proof.
  unfold DownloadEasyocrModels.try_direct_tflite_sources.
  destruct (DownloadEasyocrModels.DIRECT_TFLITE_SOURCES !! str p) as [us|].
  - mstep. apply try_sources_true.
  - cbn. discriminate.
Qed.

Lemma try_direct_tflite_sources_all_fail (w : World) (p : Path) (s : State) :
  Forall (fails w)
    (default [] (DownloadEasyocrModels.DIRECT_TFLITE_SOURCES !! str p)) ->
  fst (DownloadEasyocrModels.try_direct_tflite_sources w p s) = false.
Proof.
  unfold DownloadEasyocrModels.try_direct_tflite_sources.
  destruct (DownloadEasyocrModels.DIRECT_TFLITE_SOURCES !! str p) as [us|];
    cbn [default]; intros H.
  - mstep. apply try_sources_all_fail. exact H.
  - reflexivity.
Qed.

Lemma create_minimal_tflite_writable (w : World) (p : Path) (d : string)
    (s : State) :
  writable w p = true ->
  fst (DownloadEasyocrModels.create_minimal_tflite w p d s) = true /\
  fs (snd (DownloadEasyocrModels.create_minimal_tflite w p d s))
  = <[p := DownloadEasyocrModels.minimal_model_data]> (fs s).
Proof.
  intros H. unfold DownloadEasyocrModels.create_minimal_tflite. mrun.
  rewrite H. mrun. split; reflexivity.
Qed.

Lemma easyocr_primary_true (w : World) (p : Path)
    (info : DownloadEasyocrModels.ModelInfo) (s : State) :
  fst (easyocr_primary w p info s) = true ->
  is_Some (fs (snd (easyocr_primary w p info s)) !! p).
Proof.
  unfold easyocr_primary. mstep.
  destruct (fst (DownloadEasyocrModels.download_file w _ p _ s));
    [|cbn; discriminate].
  mstep. destruct (fst (DownloadEasyocrModels.verify_file p _)) eqn:Ev.
  - intros _. mrun. rewrite verify_file_fs. apply verify_file_true. exact Ev.
  - mrun. discriminate.
Qed.

Lemma easyocr_primary_fail (w : World) (p : Path)
    (info : DownloadEasyocrModels.ModelInfo) (s : State) :
  fails w (DownloadEasyocrModels.url info) ->
  fst (easyocr_primary w p info s) = false.
Proof.
  intros [r Hu]. unfold easyocr_primary. mstep.
  destruct (easyocr_download_file_run w (DownloadEasyocrModels.url info) p
              (DownloadEasyocrModels.description info) s) as [n ->].
  rewrite Hu. reflexivity.
Qed.

Lemma easyocr_process_model_unfold (w : World) (dir : Path) (c : nat)
    (name : string) (info : DownloadEasyocrModels.ModelInfo) :
  DownloadEasyocrModels.process_model w dir c (name, info) =
  bind (DownloadEasyocrModels.try_direct_tflite_sources w (pdiv dir name))
    (fun direct =>
       if direct then ret (S c)
       else
         bind (print (Note "Trying primary source..."))
           (fun _ =>
              bind (easyocr_primary w (pdiv dir name) info)
                (fun primary =>
                   if primary then ret (S c)
                   else
                     bind
                       (match DownloadEasyocrModels.alternative_urls info with
                        | Some alts =>
                            bind (print (Note "Trying alternative sources..."))
                              (fun _ =>
                                 DownloadEasyocrModels.try_alternatives w
                                   (pdiv dir name) alts)
                        | None => ret false
                        end)
                       (fun found_working_source =>
                          if found_working_source then ret (S c)
                          else
                            bind (print (Note "All download attempts failed"))
                              (fun _ =>
                                 bind
                                   (DownloadEasyocrModels.create_minimal_tflite
                                      w (pdiv dir name)
                                      (DownloadEasyocrModels.description info))
                                   (fun made =>
                                      if made then ret (S c) else ret c)))))).
Proof. reflexivity. Qed.

Lemma easyocr_alternatives_true (w : World) (p : Path)
    (alts : option (list string)) (s : State) :
  let m := match alts with
           | Some alts =>
               bind (print (Note "Trying alternative sources..."))
                 (fun _ => DownloadEasyocrModels.try_alternatives w p alts)
           | None => ret false
           end in
  (fst (m s) = true -> is_Some (fs (snd (m s)) !! p)) /\
  (Forall (fails w) (default [] alts) -> fst (m s) = false).
Proof.
  cbv zeta. destruct alts as [alts|]; cbn [default].
  - rewrite bind_run. cbv beta. split.
    + apply try_alternatives_true.
    + apply try_alternatives_all_fail.
  - split; [cbn; discriminate|reflexivity].
Qed.

Lemma easyocr_process_model_present (w : World) (dir : Path) (c : nat)
    (name : string) (info : DownloadEasyocrModels.ModelInfo) (s : State) :
  writable w (pdiv dir name) = true ->
  is_Some (fs (snd (DownloadEasyocrModels.process_model w dir c (name, info) s))
           !! pdiv dir name).
Proof.
  intros Hw. rewrite easyocr_process_model_unfold. mstep.
  destruct (fst (DownloadEasyocrModels.try_direct_tflite_sources w _ s)) eqn:Ed.
  { rewrite ret_run. apply try_direct_tflite_sources_true. exact Ed. }
  do 2 mstep.
  destruct (fst (easyocr_primary w (pdiv dir name) info _)) eqn:Ep.
  { rewrite ret_run. apply easyocr_primary_true. exact Ep. }
  mstep.
  match goal with |- context [match DownloadEasyocrModels.alternative_urls info with _ => _ end ?s1] =>
    destruct (easyocr_alternatives_true w (pdiv dir name)
                (DownloadEasyocrModels.alternative_urls info) s1) as [A _];
    cbv zeta in A;
    destruct (fst (match DownloadEasyocrModels.alternative_urls info with
                   | Some alts =>
                       bind (print (Note "Trying alternative sources..."))
                         (fun _ => DownloadEasyocrModels.try_alternatives w
                                     (pdiv dir name) alts)
                   | None => ret false
                   end s1)) eqn:Ea
  end.
  { rewrite ret_run. apply A. reflexivity. }
  do 2 mstep.
  match goal with |- context [DownloadEasyocrModels.create_minimal_tflite w ?p ?d ?s1] =>
    destruct (create_minimal_tflite_writable w p d s1 Hw) as [C1 C2] end.
  rewrite C1, ret_run. cbn [fst snd]. rewrite C2, lookup_insert_eq. eauto.
Qed.

Lemma easyocr_process_model_stub (w : World) (dir : Path) (c : nat)
    (name : string) (info : DownloadEasyocrModels.ModelInfo) (s : State) :
  Forall (fails w) (easyocr_all_urls (pdiv dir name) info) ->
  writable w (pdiv dir name) = true ->
  fs (snd (DownloadEasyocrModels.process_model w dir c (name, info) s))
    !! pdiv dir name
  = Some DownloadEasyocrModels.minimal_model_data.
Proof.
  unfold easyocr_all_urls. intros Hf Hw.
  apply Forall_app in Hf as [Hd Hf]. apply Forall_cons in Hf as [Hp Ha].
  rewrite easyocr_process_model_unfold. mstep.
  rewrite (try_direct_tflite_sources_all_fail w _ s Hd). do 2 mstep.
  rewrite (easyocr_primary_fail w _ info _ Hp). mstep.
  match goal with |- context [match DownloadEasyocrModels.alternative_urls info with _ => _ end ?s1] =>
    destruct (easyocr_alternatives_true w (pdiv dir name)
                (DownloadEasyocrModels.alternative_urls info) s1) as [_ A];
    cbv zeta in A; rewrite (A Ha)
  end.
  do 2 mstep.
  match goal with |- context [DownloadEasyocrModels.create_minimal_tflite w ?p ?d ?s1] =>
    destruct (create_minimal_tflite_writable w p d s1 Hw) as [C1 C2] end.
  rewrite C1, ret_run. cbn [fst snd]. rewrite C2. apply lookup_insert_eq.
Qed.

Lemma easyocr_process_models_frame (w : World) (dir : Path)
    (models : list (string * DownloadEasyocrModels.ModelInfo)) (c : nat)
    (s : State) (q : Path) :
  q ∉ map (fun e => pdiv dir (fst e)) models ->
  fs (snd (DownloadEasyocrModels.process_models w dir c models s)) !! q
  = fs s !! q.
Proof.
  revert c s. induction models as [|[name info] models IH]; intros c s Hq;
    cbn [DownloadEasyocrModels.process_models]; [reflexivity|].
  cbn [map fst] in Hq. apply not_elem_of_cons in Hq as [Hq1 Hq2].
  mstep. rewrite IH by exact Hq2.
  apply easyocr_process_model_confined. exact Hq1.
Qed.

Lemma easyocr_process_models_present (w : World) (dir : Path)
    (models : list (string * DownloadEasyocrModels.ModelInfo)) (c : nat)
    (s : State) (q : Path) :
  writable w q = true ->
  q ∈ map (fun e => pdiv dir (fst e)) models ->
  is_Some (fs (snd (DownloadEasyocrModels.process_models w dir c models s))
           !! q).
Proof.
  intros Hw. revert c s. induction models as [|[name info] models IH];
    intros c s Hq; cbn [DownloadEasyocrModels.process_models].
  - cbn in Hq. apply elem_of_nil in Hq. destruct Hq.
  - mstep.
    destruct (decide (q ∈ map (fun e => pdiv dir (fst e)) models)) as [Hin|Hout].
    + apply IH. exact Hin.
    + rewrite easyocr_process_models_frame by exact Hout.
      cbn [map fst] in Hq. apply elem_of_cons in Hq as [->|Hq]; [|contradiction].
      apply easyocr_process_model_present. exact Hw.
Qed.

(** ** Placeholders after a total failure *)

Lemma elem_of_map {A B} (f : A -> B) (l : list A) (x : A) :
  x ∈ l -> f x ∈ map f l.
Proof. rewrite !list_elem_of_In. apply in_map. Qed.

(** C1 (as the code has it): in download_ocr_tflite_direct.py and in
    download_easyocr_models.py, a model all of whose URLs fail gets the
    script's placeholder written at its target path, provided the path can
    be written; and after the main loop of either script there is a file
    at the target path of every model whose path can be written.
    (download_ocr_models.py writes no placeholder.) *)
Theorem C1_placeholder_after_total_failure (w : World) (script_dir : Path)
    (s : State) :
  (forall (c : nat) (name : string) (info : DownloadOcrTfliteDirect.ModelInfo),
     Forall (fails w) (DownloadOcrTfliteDirect.urls info) ->
     writable w (pdiv script_dir name) = true ->
     fs (snd (DownloadOcrTfliteDirect.process_model w script_dir c (name, info) s))
       !! pdiv script_dir name
     = Some (DownloadOcrTfliteDirect.stub_data (pdiv script_dir name))) /\
  (forall (c : nat) (name : string) (info : DownloadEasyocrModels.ModelInfo),
     Forall (fails w) (easyocr_all_urls (pdiv script_dir name) info) ->
     writable w (pdiv script_dir name) = true ->
     fs (snd (DownloadEasyocrModels.process_model w script_dir c (name, info) s))
       !! pdiv script_dir name
     = Some DownloadEasyocrModels.minimal_model_data) /\
  (forall (models : list (string * DownloadOcrTfliteDirect.ModelInfo))
          (name : string) (info : DownloadOcrTfliteDirect.ModelInfo),
     (name, info) ∈ models ->
     writable w (pdiv script_dir name) = true ->
     is_Some (fs (snd (DownloadOcrTfliteDirect.main_with models w script_dir s))
              !! pdiv script_dir name)) /\
  (forall (models : list (string * DownloadEasyocrModels.ModelInfo))
          (name : string) (info : DownloadEasyocrModels.ModelInfo),
     (name, info) ∈ models ->
     writable w (pdiv script_dir name) = true ->
     is_Some (fs (snd (DownloadEasyocrModels.main_with models w script_dir s))
              !! pdiv script_dir name)).
Proof.
  split; [|split; [|split]].
  - intros c name info Hf Hw. apply tflite_process_model_stub; assumption.
  - intros c name info Hf Hw. apply easyocr_process_model_stub; assumption.
  - intros models name info Hin Hw.
    unfold DownloadOcrTfliteDirect.main_with. mstep. rewrite ret_run.
    cbn [snd]. apply tflite_process_models_present; [exact Hw|].
    apply (elem_of_map (fun e => pdiv script_dir (fst e)) models (name, info) Hin).
  - intros models name info Hin Hw.
    unfold DownloadEasyocrModels.main_with.
    apply easyocr_process_models_present; [exact Hw|].
    apply (elem_of_map (fun e => pdiv script_dir (fst e)) models (name, info) Hin).
Qed.

(** the claim as worded fails on download_ocr_models.py: with every
    transfer failing, [main] leaves no file at the first model's target;
    and where the target cannot be written, download_ocr_tflite_direct.py
    leaves none either *)
Lemma C1_counterexample :
  fails offline (DownloadOcrModels.url eng_info) /\
  (forall fb : string,
     DownloadOcrModels.fallback_url eng_info = Some fb -> fails offline fb) /\
  head DownloadOcrModels.MODELS = Some ("eng.traineddata", eng_info) /\
  fs (snd (DownloadOcrModels.main offline fresh)) !! eng_path = None /\
  fs (snd (DownloadOcrTfliteDirect.main sealed scripts fresh)) !! tflite_file
  = None.
Proof.
  split; [exists None; reflexivity|].
  split; [intros fb _; exists None; reflexivity|].
  repeat split; reflexivity.
Qed.

Lemma offline_fails (us : list string) : Forall (fails offline) us.
Proof. apply Forall_forall. intros u _. exists None. reflexivity. Qed.

Lemma C1_witness :
  fs (snd (DownloadOcrTfliteDirect.process_model offline scripts 0
             ("easyocr_text_detection.tflite", detection_info) fresh))
    !! tflite_file
  = Some (DownloadOcrTfliteDirect.stub_data tflite_file) /\
  fs (snd (DownloadEasyocrModels.process_model offline scripts 0
             ("easyocr_text_detection.tflite", easyocr_detection_info) fresh))
    !! tflite_file
  = Some DownloadEasyocrModels.minimal_model_data /\
  is_Some (fs (snd (DownloadOcrTfliteDirect.main offline scripts fresh))
           !! tflite_file) /\
  is_Some (fs (snd (DownloadEasyocrModels.main offline scripts fresh))
           !! tflite_file).
Proof.
  destruct (C1_placeholder_after_total_failure offline scripts fresh)
    as (H1 & H2 & H3 & H4).
  split; [|split; [|split]].
  - apply H1; [apply offline_fails|reflexivity].
  - apply H2; [apply offline_fails|reflexivity].
  - apply (H3 DownloadOcrTfliteDirect.TFLITE_MODELS
              "easyocr_text_detection.tflite" detection_info);
      [apply list_elem_of_here|reflexivity].
  - apply (H4 DownloadEasyocrModels.MODELS
              "easyocr_text_detection.tflite" easyocr_detection_info);
      [apply list_elem_of_here|reflexivity].
Defined.

(** ** download_easyocr_models.py: which source comes first

    The table of direct sources is keyed by bare file names but looked up
    with the [str] of the target path: the direct sources are tried, and
    tried before the primary URL, only when the script's directory is the
    current one. *)

Example easyocr_direct_sources_first :
  attempts (out (snd (DownloadEasyocrModels.process_model (serving zeros)
                        (rel []) 0
                        ("easyocr_text_detection.tflite", easyocr_detection_info)
                        fresh)))
  = ["https://github.com/zxiaosi/OCR-Detection-And-Recognition/raw/main/models/det.tflite"].
Proof. vm_compute. reflexivity. Qed.

Example easyocr_primary_first_elsewhere :
  attempts (out (snd (DownloadEasyocrModels.process_model (serving zeros)
                        scripts 0
                        ("easyocr_text_detection.tflite", easyocr_detection_info)
                        fresh)))
  = [DownloadEasyocrModels.url easyocr_detection_info].
Proof. vm_compute. reflexivity. Qed.

(** download_craft_keras_tflite_models.py has no placeholder either: with
    every transfer failing nothing is written and nothing is counted *)
Example craft_offline_leaves_nothing :
  DownloadCraftKerasTfliteModels.main offline scripts fresh
  = (0%nat,
     MkState ∅
       (out (snd (DownloadCraftKerasTfliteModels.main offline scripts fresh)))).
Proof. vm_compute. reflexivity. Qed.

(** * Further properties of the scripts *)

(** ** Strings and their lengths *)

Lemma length_string_of_list_ascii (l : list ascii) :
  String.length (string_of_list_ascii l) = length l.
Proof. induction l as [|c l IH]; simpl; [reflexivity|]. rewrite IH. reflexivity. Qed.

Lemma length_str_app (a b : string) :
  String.length (a +:+ b) = (String.length a + String.length b)%nat.
Proof. induction a as [|c a IH]; simpl; [reflexivity|]. rewrite IH. reflexivity. Qed.

Lemma length_list_byte_of_string (s : string) :
  length (list_byte_of_string s) = String.length s.
Proof.
  unfold list_byte_of_string.
  induction s as [|c s IH]; simpl; [reflexivity|]. rewrite IH. reflexivity.
Qed.

Lemma length_times (c : ascii) (n : Z) :
  String.length (DownloadOcrModelsProgress.times c n) = Z.to_nat n.
Proof.
  unfold DownloadOcrModelsProgress.times.
  rewrite length_string_of_list_ascii. apply repeat_length.
Qed.

(** ** The progress hook *)

Lemma percent_bounds (block_num block_size total_size : Z) :
  (0 <= block_num)%Z -> (0 <= block_size)%Z -> (0 < total_size)%Z ->
  (0 <= Z.min 100 ((block_num * block_size * 100) / total_size) <= 100)%Z.
Proof.
  intros Hn Hs Ht.
  assert (0 <= (block_num * block_size * 100) / total_size)%Z.
  { apply Z.div_pos; [|exact Ht]. apply Z.mul_nonneg_nonneg; [|lia].
    apply Z.mul_nonneg_nonneg; assumption. }
  lia.
Qed.

(** X1: for the block counts and sizes [urlretrieve] reports and a known
    total size, the hook prints a percentage between 0 and 100 and a bar of
    exactly 30 characters, [percent * 30 // 100] of them filled; with an
    unknown total size (zero or negative) it prints nothing. *)
Theorem X1_progress_bar_is_30_wide (block_num block_size total_size : Z) :
  (0 <= block_num)%Z -> (0 <= block_size)%Z ->
  ((total_size <= 0)%Z ->
   DownloadOcrModelsProgress.progress_hook block_num block_size total_size
   = None) /\
  ((0 < total_size)%Z ->
   exists (bar : string) (percent : Z),
     DownloadOcrModelsProgress.progress_hook block_num block_size total_size
     = Some (bar, percent) /\
     (0 <= percent <= 100)%Z /\
     String.length bar = 30%nat /\
     bar = DownloadOcrModelsProgress.times "#" (percent * 30 / 100)
           +:+ DownloadOcrModelsProgress.times "-" (30 - percent * 30 / 100) /\
     (0 <= percent * 30 / 100 <= 30)%Z).
Proof.
  intros Hn Hs. split.
  - intros Ht. unfold DownloadOcrModelsProgress.progress_hook.
    destruct (Z.gtb_spec total_size 0); [lia|reflexivity].
  - intros Ht. unfold DownloadOcrModelsProgress.progress_hook.
    destruct (Z.gtb_spec total_size 0); [|lia].
    pose proof (percent_bounds _ _ _ Hn Hs Ht) as B.
    set (percent := Z.min 100 _) in *.
    assert (F : (0 <= percent * 30 / 100 <= 30)%Z).
    { split; [apply Z.div_pos; lia|].
      apply Z.div_le_upper_bound; lia. }
    eexists _, percent. split; [reflexivity|]. split; [exact B|].
    split; [|split; [reflexivity|exact F]].
    rewrite length_str_app, !length_times. lia.
Qed.

Lemma X1_witness :
  exists (bar : string) (percent : Z),
    DownloadOcrModelsProgress.progress_hook 3 8192 49152 = Some (bar, percent) /\
    (0 <= percent <= 100)%Z /\
    String.length bar = 30%nat /\
    bar = DownloadOcrModelsProgress.times "#" (percent * 30 / 100)
          +:+ DownloadOcrModelsProgress.times "-" (30 - percent * 30 / 100) /\
    (0 <= percent * 30 / 100 <= 30)%Z.
Proof.
  apply (X1_progress_bar_is_30_wide 3 8192 49152); lia.
Defined.

(** X2: the percentage never goes down as more blocks arrive, and once
    the blocks received cover the total size it is 100 and the bar is
    thirty [#]. *)
Theorem X2_progress_grows_to_full (block_num block_num' block_size total_size : Z) :
  (0 <= block_num <= block_num')%Z -> (0 <= block_size)%Z ->
  (0 < total_size)%Z ->
  exists (bar bar' : string) (percent percent' : Z),
    DownloadOcrModelsProgress.progress_hook block_num block_size total_size
    = Some (bar, percent) /\
    DownloadOcrModelsProgress.progress_hook block_num' block_size total_size
    = Some (bar', percent') /\
    (percent <= percent')%Z /\
    ((total_size <= block_num * block_size)%Z ->
     percent = 100%Z /\ bar = DownloadOcrModelsProgress.times "#" 30).
Proof.
  intros [Hn Hn'] Hs Ht. unfold DownloadOcrModelsProgress.progress_hook.
  destruct (Z.gtb_spec total_size 0); [|lia].
  eexists _, _, _, _. split; [reflexivity|]. split; [reflexivity|]. split.
  - apply Z.min_le_compat_l. apply Z.div_le_mono; [lia|].
    apply Z.mul_le_mono_nonneg_r; [lia|].
    apply Z.mul_le_mono_nonneg_r; lia.
  - intros Hc.
    assert (H100 : (100 <= block_num * block_size * 100 / total_size)%Z).
    { apply Z.div_le_lower_bound; lia. }
    rewrite Z.min_l by exact H100. split; [reflexivity|]. reflexivity.
Qed.

Lemma X2_witness :
  exists (bar bar' : string) (percent percent' : Z),
    DownloadOcrModelsProgress.progress_hook 6 8192 49152 = Some (bar, percent) /\
    DownloadOcrModelsProgress.progress_hook 7 8192 49152 = Some (bar', percent') /\
    (percent <= percent')%Z /\
    ((49152 <= 6 * 8192)%Z ->
     percent = 100%Z /\ bar = DownloadOcrModelsProgress.times "#" 30).
Proof.
  apply (X2_progress_grows_to_full 6 7 8192 49152); lia.
Defined.

Lemma read_run (p : Path) (s : State) : read p s = (fs s !! p, s).
Proof. reflexivity. Qed.

(** ** check_dependencies *)

Lemma install_run (py : Python) (missing : list string) :
  ConvertDependencies.install py missing =
  (forallb (fun p => pip_install py (ConvertDependencies.pip_args p)) missing,
   map ConvertDependencies.pip_args
     (upto_first (fun p => negb (pip_install py (ConvertDependencies.pip_args p)))
        missing)).
Proof.
  induction missing as [|p rest IH]; [reflexivity|].
  cbn [ConvertDependencies.install forallb upto_first].
  destruct (pip_install py (ConvertDependencies.pip_args p)); cbn [negb andb].
  - rewrite IH. reflexivity.
  - reflexivity.
Qed.

Lemma upto_first_In {A} (ok : A -> bool) (l : list A) (x : A) :
  In x (upto_first ok l) -> In x l.
Proof.
  induction l as [|y l IH]; simpl; [tauto|].
  destruct (ok y); simpl; intuition.
Qed.

(** X3: [check_dependencies] asks pip only for packages whose import
    failed, in the order of the list and under pip's name for them
    ([onnx-tf] for [onnx_tf]), stops at the first install that fails, and
    answers [True] exactly when every install it needed succeeded; with
    every package importable it asks for nothing. *)
Theorem X3_check_dependencies_installs_missing_only (py : Python) :
  let ok := fun p => pip_install py (ConvertDependencies.pip_args p) in
  let r := ConvertDependencies.check_dependencies py in
  fst r = forallb ok (ConvertDependencies.missing_packages py) /\
  snd r = map ConvertDependencies.pip_args
            (upto_first (fun p => negb (ok p))
               (ConvertDependencies.missing_packages py)) /\
  (forall args : list string,
     In args (snd r) ->
     exists p : string,
       In p ConvertDependencies.required_packages /\
       importable py p = false /\
       args = (if String.eqb p "onnx_tf" then ["onnx-tf"] else [p])) /\
  ((forall p : string,
      In p ConvertDependencies.required_packages -> importable py p = true) ->
   r = (true, [])).
Proof.
  cbv zeta. unfold ConvertDependencies.check_dependencies.
  rewrite install_run. cbn [fst snd]. split; [reflexivity|].
  split; [reflexivity|]. split.
  - intros args Hin. apply in_map_iff in Hin as [p [Hp Hin]].
    apply upto_first_In in Hin.
    unfold ConvertDependencies.missing_packages in Hin.
    apply filter_In in Hin as [Hreq Himp].
    exists p. split; [exact Hreq|]. split.
    + apply negb_true_iff. exact Himp.
    + symmetry. exact Hp.
  - intros Hall.
    assert (E : ConvertDependencies.missing_packages py = []).
    { unfold ConvertDependencies.missing_packages.
      induction ConvertDependencies.required_packages as [|p l IH];
        [reflexivity|].
      cbn [List.filter]. rewrite (Hall p) by (left; reflexivity).
      cbn [negb]. apply IH. intros q Hq. apply Hall. right. exact Hq. }
    rewrite E. reflexivity.
Qed.

Lemma X3_witness :
  ConvertDependencies.check_dependencies (MkPython (fun _ => true) (fun _ => false))
  = (true, []).
Proof.
  apply (X3_check_dependencies_installs_missing_only
           (MkPython (fun _ => true) (fun _ => false))).
  intros p _. reflexivity.
Defined.

(** ** The mock and the reference file of download_paddleocr_models.py *)

Lemma mock_data_length (model_type : string) :
  length (DownloadPaddleocrModels.mock_data model_type)
  = Nat.max 1024 (31 + String.length model_type).
Proof.
  unfold DownloadPaddleocrModels.mock_data, DownloadPaddleocrModels.encode.
  rewrite !length_app, !repeat_length, length_list_byte_of_string.
  assert (E : String.length ("Mock " +:+ model_type +:+ " model")
              = (11 + String.length model_type)%nat).
  { rewrite !length_str_app. cbn [String.length]. lia. }
  rewrite E. cbn [TFL3 length]. lia.
Qed.

Lemma utf8_char_length (c : N) (b : bytes) :
  utf8_char c = Some b ->
  (1 <= length b <= 4)%nat /\ ((c < 128)%N -> length b = 1%nat).
Proof.
  unfold utf8_char.
  destruct (N.ltb_spec c 128).
  { intros E. inversion E. cbn. split; [lia|reflexivity]. }
  destruct (N.ltb_spec c 2048).
  { intros E. inversion E. cbn. split; [lia|]. lia. }
  destruct (N.ltb_spec c 65536).
  { destruct (_ && _); intros E; inversion E. cbn. split; [lia|]. lia. }
  destruct (N.ltb_spec c 1114112); intros E; inversion E.
  cbn. split; [lia|]. lia.
Qed.

Lemma utf8_length (s : list N) (enc : bytes) :
  utf8 s = Some enc ->
  (length s <= length enc <= 4 * length s)%nat /\
  (Forall (fun c => (c < 128)%N) s -> length enc = length s).
Proof.
  revert enc. induction s as [|c s IH]; intros enc; cbn [utf8].
  - intros E. inversion E. cbn. split; [lia|reflexivity].
  - destruct (utf8_char c) as [b|] eqn:Ec; cbn; [|discriminate].
    destruct (utf8 s) as [r|]; cbn; [|discriminate].
    intros E. inversion E. subst enc.
    destruct (utf8_char_length c b Ec) as [B1 B2].
    destruct (IH r eq_refl) as [I1 I2].
    rewrite length_app. split; [lia|].
    intros F. inversion F; subst. rewrite B2, I2 by assumption. reflexivity.
Qed.

Lemma py_str_length (s : list N) (t : string) :
  py_str s = Some t ->
  (length s <= String.length t <= 4 * length s)%nat /\
  (Forall (fun c => (c < 128)%N) s -> String.length t = length s).
Proof.
  unfold py_str. destruct (utf8 s) as [enc|] eqn:E; cbn; [|discriminate].
  intros H. inversion H. subst t.
  assert (L : String.length (string_of_list_byte enc) = length enc).
  { rewrite <- length_list_byte_of_string, list_byte_of_string_of_list_byte.
    reflexivity. }
  rewrite L. apply utf8_length. exact E.
Qed.

(** X4: the file [create_mock_tflite] builds begins with the TFL3 magic
    followed by sixteen zero bytes and the UTF-8 bytes of the text
    [Mock <type> model]; it is never cut and has 1024 bytes, or 31 bytes
    plus the UTF-8 length of the type when that is more. So it has
    exactly 1024 bytes for a model type of up to 993 ASCII characters and
    for one of up to 248 characters of any kind. *)
Theorem X4_mock_tflite_layout (model_type : list N) (encoded : string) :
  py_str model_type = Some encoded ->
  let data := DownloadPaddleocrModels.mock_data encoded in
  let label := list_byte_of_string ("Mock " +:+ encoded +:+ " model") in
  bytes_startswith TFL3 data = true /\
  take (20 + length label) data = TFL3 ++ repeat x00 16 ++ label /\
  length data = Nat.max 1024 (31 + String.length encoded) /\
  (length model_type <= String.length encoded <= 4 * length model_type)%nat /\
  (Forall (fun c => (c < 128)%N) model_type ->
   (length model_type <= 993)%nat -> length data = 1024%nat) /\
  ((length model_type <= 248)%nat -> length data = 1024%nat).
Proof.
  intros Henc. cbv zeta.
  destruct (py_str_length model_type encoded Henc) as [B A].
  split; [reflexivity|]. split.
  - unfold DownloadPaddleocrModels.mock_data, DownloadPaddleocrModels.encode.
    set (label := list_byte_of_string _).
    rewrite <- !app_assoc.
    change (TFL3 ++ repeat x00 16 ++ label ++ _)
      with ((TFL3 ++ repeat x00 16) ++ label ++
            repeat x00 (1024 - length ((TFL3 ++ repeat x00 16) ++ label))).
    rewrite (app_assoc (TFL3 ++ repeat x00 16) label).
    rewrite take_app_length'; [rewrite <- app_assoc; reflexivity|].
    rewrite !length_app. reflexivity.
  - split; [apply mock_data_length|]. split; [exact B|].
    rewrite mock_data_length. split.
    + intros F H. rewrite (A F). lia.
    + intros H. lia.
Qed.

Lemma X4_witness :
  length (DownloadPaddleocrModels.mock_data "Detection") = 1024%nat.
Proof.
  destruct (X4_mock_tflite_layout [68; 101; 116; 101; 99; 116; 105; 111; 110]%N
              "Detection" eq_refl) as (_ & _ & _ & _ & _ & H).
  apply H. cbn. lia.
Defined.

(** 600 times the letter e with an acute accent, U+00E9: 600 characters,
    1200 bytes, and a file of 1231 bytes *)
Example mock_of_accented_type :
  exists encoded : string,
    py_str (repeat 233%N 600) = Some encoded /\
    length (DownloadPaddleocrModels.mock_data encoded) = 1231%nat.
Proof.
  eexists. split; [vm_compute; reflexivity|].
  rewrite mock_data_length. vm_compute. reflexivity.
Qed.

Lemma reference_text_length (name url : string) (model_dir : Path) :
  (100 <= String.length (DownloadPaddleocrModels.reference_text name url model_dir))%nat.
Proof.
  unfold DownloadPaddleocrModels.reference_text.
  rewrite !length_str_app. cbn [String.length DownloadPaddleocrModels.newline].
  lia.
Qed.

Lemma create_mock_tflite_confined (w : World) (p : Path) (t : string) :
  confined p (DownloadPaddleocrModels.create_mock_tflite w p t).
Proof. unfold DownloadPaddleocrModels.create_mock_tflite. confine. Qed.

Lemma mock_models_keeps (w : World) (models : list (string * Path))
    (s : State) (p : Path) (data : bytes) :
  fs s !! p = Some data -> (100 <= getsize data)%Z ->
  fs (snd (DownloadPaddleocrModels.mock_models w models s)) !! p = Some data.
Proof.
  intros Hp Hsz. revert s Hp.
  induction models as [|[name q] models IH]; intros s Hp;
    cbn [DownloadPaddleocrModels.mock_models]; [exact Hp|].
  rewrite bind_run. cbv beta. rewrite read_run. cbn [fst snd].
  rewrite bind_run. cbv beta.
  assert (K : forall s1, fs s1 = fs s ->
    fs (snd ((if match fs s !! q with
                 | Some d => (getsize d <? 100)%Z
                 | None => true
                 end
              then DownloadPaddleocrModels.create_mock_tflite w q name
              else ret true) s1)) !! p = Some data).
  { intros s1 E. destruct (decide (p = q)) as [->|Hpq].
    - rewrite Hp. destruct (Z.ltb_spec (getsize data) 100); [lia|].
      rewrite ret_run. cbn [snd]. rewrite E. exact Hp.
    - destruct (match fs s !! q with Some d => _ | None => true end).
      + rewrite create_mock_tflite_confined by exact Hpq. rewrite E. exact Hp.
      + rewrite ret_run. cbn [snd]. rewrite E. exact Hp. }
  match goal with |- context [if fst ?r then _ else _] => destruct (fst r) end.
  - apply IH. apply K. reflexivity.
  - rewrite ret_run. cbn [snd]. apply K. reflexivity.
Qed.

(** X5: the reference text written when a conversion fails is never
    shorter than 100 bytes, so the mock phase, which only replaces files
    that are missing or shorter than 100 bytes, leaves it in place: the
    [.tflite] asset stays a text file, whatever the model's name, URL and
    extraction directory. *)
Theorem X5_reference_file_survives_mock_phase (w : World)
    (tflite_file : Path) (name url : string) (model_dir : Path)
    (models : list (string * Path)) (s : State) :
  writable w tflite_file = true ->
  let reference :=
    list_byte_of_string
      (DownloadPaddleocrModels.reference_text name url model_dir) in
  let s1 := snd (DownloadPaddleocrModels.write_reference w tflite_file name url
                   model_dir s) in
  (100 <= length reference)%nat /\
  bytes_startswith TFL3 reference = false /\
  fs s1 !! tflite_file = Some reference /\
  fs (snd (DownloadPaddleocrModels.mock_phase w 0 models s1)) !! tflite_file
  = Some reference.
Proof.
  intros Hw. cbv zeta.
  assert (L : (100 <= length (list_byte_of_string
     (DownloadPaddleocrModels.reference_text name url model_dir)))%nat).
  { rewrite length_list_byte_of_string. apply reference_text_length. }
  assert (S1 : fs (snd (DownloadPaddleocrModels.write_reference w tflite_file
                          name url model_dir s)) !! tflite_file
               = Some (list_byte_of_string
                   (DownloadPaddleocrModels.reference_text name url model_dir))).
  { unfold DownloadPaddleocrModels.write_reference,
      DownloadPaddleocrModels.encode. mrun.
    rewrite Hw. mrun. apply lookup_insert_eq. }
  split; [exact L|]. split; [reflexivity|]. split; [exact S1|].
  unfold DownloadPaddleocrModels.mock_phase. cbn [Nat.eqb].
  rewrite bind_run. cbv beta. rewrite print_run. cbn [fst snd].
  rewrite bind_run. cbv beta.
  match goal with |- context [DownloadPaddleocrModels.mock_models w models ?s2] =>
    pose proof (mock_models_keeps w models s2 tflite_file _ S1) as K end.
  match goal with |- context [if fst ?r then _ else _] => destruct (fst r) end.
  - rewrite bind_run. cbv beta. rewrite print_run, ret_run. cbn [fst snd fs].
    apply K. unfold getsize. lia.
  - rewrite ret_run. cbn [snd]. apply K. unfold getsize. lia.
Qed.

Lemma X5_witness :
  fs (snd (DownloadPaddleocrModels.mock_phase offline 0
             [("Detection", tflite_file)]
             (snd (DownloadPaddleocrModels.write_reference offline tflite_file
                     "Detection" "https://example.org/det.tar" scripts fresh))))
    !! tflite_file
  = Some (list_byte_of_string
            (DownloadPaddleocrModels.reference_text "Detection"
               "https://example.org/det.tar" scripts)).
Proof.
  apply (X5_reference_file_survives_mock_phase offline tflite_file "Detection"
           "https://example.org/det.tar" scripts
           [("Detection", tflite_file)] fresh).
  reflexivity.
Defined.

(** ** download_ocr_models.py: the whole run *)

Lemma list_models_run (dir : Path)
    (models : list (string * DownloadOcrModels.ModelInfo)) (s : State) :
  fs (snd (DownloadOcrModels.list_models dir models s)) = fs s /\
  attempts (out (snd (DownloadOcrModels.list_models dir models s)))
  = attempts (out s).
Proof.
  revert s. induction models as [|[name info] models IH]; intros s;
    cbn [DownloadOcrModels.list_models].
  - split; reflexivity.
  - rewrite bind_run. cbv beta. rewrite exists_run. cbn [fst snd].
    rewrite bind_run. cbv beta.
    match goal with |- context [DownloadOcrModels.list_models dir models ?s1] =>
      destruct (IH s1) as [I1 I2];
      assert (E : fs s1 = fs s /\ attempts (out s1) = attempts (out s))
    end.
    { destruct (bool_decide _); rewrite print_run; cbn [snd fs out];
        rewrite attempts_note; split; reflexivity. }
    rewrite I1, I2. exact E.
Qed.

Lemma ocr_main_run (models : list (string * DownloadOcrModels.ModelInfo))
    (w : World) (s : State) :
  let d := DownloadOcrModels.download_models w DownloadOcrModels.assets_dir
             models s in
  let r := DownloadOcrModels.main_with models w s in
  fst r = fst d /\ fs (snd r) = fs (snd d) /\
  attempts (out (snd r)) = attempts (out (snd d)).
Proof.
  cbv zeta. unfold DownloadOcrModels.main_with. rewrite bind_run. cbv beta.
  destruct (fst (DownloadOcrModels.download_models w _ models s)).
  - rewrite bind_run. cbv beta. rewrite print_run. cbn [fst snd].
    rewrite bind_run. cbv beta. rewrite ret_run. cbn [fst snd].
    match goal with |- context [DownloadOcrModels.list_models ?d ?m ?s1] =>
      destruct (list_models_run d m s1) as [L1 L2] end.
    rewrite L1, L2. cbn [fs out]. rewrite attempts_note. auto.
  - rewrite ret_run. auto.
Qed.

Lemma leave_is_Some (p q : Path) (residue : option bytes)
    (m : gmap Path bytes) :
  is_Some (m !! q) -> is_Some (leave p residue m !! q).
Proof.
  intros H. destruct residue as [part|]; cbn [leave]; [|exact H].
  destruct (decide (p = q)) as [->|N].
  - rewrite lookup_insert_eq. eauto.
  - rewrite lookup_insert_ne by exact N. exact H.
Qed.

Lemma insert_is_Some (p q : Path) (b : bytes) (m : gmap Path bytes) :
  is_Some (m !! q) -> is_Some (<[p := b]> m !! q).
Proof. apply (leave_is_Some p q (Some b)). Qed.

Lemma ocr_process_model_keeps (w : World) (dir : Path) (name : string)
    (info : DownloadOcrModels.ModelInfo) (s : State) (q : Path) :
  is_Some (fs s !! q) ->
  is_Some (fs (snd (DownloadOcrModels.process_model w dir (name, info) s)) !! q).
Proof.
  intros H. pose proof (ocr_process_model_run w dir name info s) as R.
  cbv zeta in R.
  destruct (already_verified s (pdiv dir name) (DownloadOcrModels.size_mb info)).
  { destruct R as (_ & -> & _). exact H. }
  destruct (fetch w (DownloadOcrModels.url info)) as [body|r1].
  { destruct R as (_ & -> & _). apply insert_is_Some. exact H. }
  destruct (DownloadOcrModels.fallback_url info) as [fb|].
  - destruct (fetch w fb) as [body|r2]; destruct R as (_ & -> & _).
    + apply insert_is_Some, leave_is_Some. exact H.
    + apply leave_is_Some, leave_is_Some. exact H.
  - destruct R as (_ & -> & _). apply leave_is_Some. exact H.
Qed.

Lemma ocr_process_model_true (w : World) (dir : Path) (name : string)
    (info : DownloadOcrModels.ModelInfo) (s : State) :
  fst (DownloadOcrModels.process_model w dir (name, info) s) = true ->
  is_Some (fs (snd (DownloadOcrModels.process_model w dir (name, info) s))
           !! pdiv dir name).
Proof.
  pose proof (ocr_process_model_run w dir name info s) as R. cbv zeta in R.
  unfold already_verified in R.
  destruct (fs s !! pdiv dir name) as [data|] eqn:E.
  - intros _. apply ocr_process_model_keeps. rewrite E. eauto.
  - destruct (fetch w (DownloadOcrModels.url info)) as [body|r1].
    { destruct R as (_ & -> & _). rewrite lookup_insert_eq. eauto. }
    destruct (DownloadOcrModels.fallback_url info) as [fb|].
    + destruct (fetch w fb) as [body|r2]; destruct R as (R1 & -> & _).
      * rewrite lookup_insert_eq. eauto.
      * rewrite R1. discriminate.
    + destruct R as (R1 & _). rewrite R1. discriminate.
Qed.

Lemma ocr_download_models_keeps (w : World) (dir : Path)
    (models : list (string * DownloadOcrModels.ModelInfo)) (s : State)
    (q : Path) :
  is_Some (fs s !! q) ->
  is_Some (fs (snd (DownloadOcrModels.download_models w dir models s)) !! q).
Proof.
  revert s. induction models as [|[name info] models IH]; intros s H;
    cbn [DownloadOcrModels.download_models]; [exact H|].
  rewrite bind_run. cbv beta.
  pose proof (ocr_process_model_keeps w dir name info s q H) as K.
  destruct (fst (DownloadOcrModels.process_model w dir (name, info) s)).
  - apply IH. exact K.
  - rewrite ret_run. exact K.
Qed.

Lemma ocr_download_models_true (w : World) (dir : Path)
    (models : list (string * DownloadOcrModels.ModelInfo)) (s : State)
    (name : string) (info : DownloadOcrModels.ModelInfo) :
  fst (DownloadOcrModels.download_models w dir models s) = true ->
  In (name, info) models ->
  is_Some (fs (snd (DownloadOcrModels.download_models w dir models s))
           !! pdiv dir name).
Proof.
  revert s. induction models as [|[n i] models IH]; intros s Ht Hin;
    [destruct Hin|].
  cbn [DownloadOcrModels.download_models] in *.
  rewrite bind_run in *. cbv beta in *.
  destruct (fst (DownloadOcrModels.process_model w dir (n, i) s)) eqn:Ep;
    [|rewrite ret_run in Ht; discriminate].
  destruct Hin as [E|Hin].
  - inversion E; subst n i. apply ocr_download_models_keeps.
    apply ocr_process_model_true. exact Ep.
  - apply IH; assumption.
Qed.

(** X6: download_ocr_models.py never removes a file, and when its [main]
    answers [True] there is a file at the target of every model, verified
    or not. *)
Theorem X6_ocr_main_true_leaves_every_file
    (models : list (string * DownloadOcrModels.ModelInfo)) (w : World)
    (s : State) :
  let r := DownloadOcrModels.main_with models w s in
  (forall q : Path, is_Some (fs s !! q) -> is_Some (fs (snd r) !! q)) /\
  (fst r = true ->
   forall (name : string) (info : DownloadOcrModels.ModelInfo),
     In (name, info) models ->
     is_Some (fs (snd r) !! pdiv DownloadOcrModels.assets_dir name)).
Proof.
  cbv zeta. destruct (ocr_main_run models w s) as (R1 & R2 & _).
  rewrite R1, R2. split.
  - intros q. apply ocr_download_models_keeps.
  - intros Ht name info. apply ocr_download_models_true. exact Ht.
Qed.

Lemma X6_witness :
  is_Some (fs (snd (DownloadOcrModels.main (serving [x00]) fresh))
           !! pdiv DownloadOcrModels.assets_dir "eng.traineddata").
Proof.
  destruct (X6_ocr_main_true_leaves_every_file DownloadOcrModels.MODELS
              (serving [x00]) fresh) as [_ H].
  apply (H eq_refl "eng.traineddata" eng_info). left. reflexivity.
Defined.

(** X7: a body that was downloaded is kept whatever its size: when a
    model is not already verified on disk and its primary URL delivers,
    the turn goes on ([main] does not return there) with exactly that body
    at the target, and when every model's primary URL delivers, [main]
    answers [True]; the size check after a download only prints. *)
Theorem X7_download_accepted_whatever_its_size (w : World) (s : State) :
  (forall (dir : Path) (name : string) (info : DownloadOcrModels.ModelInfo)
          (body : bytes),
     already_verified s (pdiv dir name) (DownloadOcrModels.size_mb info) = false ->
     fetch w (DownloadOcrModels.url info) = Fetched body ->
     let r := DownloadOcrModels.process_model w dir (name, info) s in
     fst r = true /\ fs (snd r) = <[pdiv dir name := body]> (fs s)) /\
  (forall models : list (string * DownloadOcrModels.ModelInfo),
     (forall (name : string) (info : DownloadOcrModels.ModelInfo),
        In (name, info) models ->
        exists body : bytes, fetch w (DownloadOcrModels.url info) = Fetched body) ->
     fst (DownloadOcrModels.main_with models w s) = true).
Proof.
  split.
  - intros dir name info body Hv Hf. cbv zeta.
    pose proof (ocr_process_model_run w dir name info s) as R. cbv zeta in R.
    rewrite Hv, Hf in R. destruct R as (R1 & R2 & _). auto.
  - intros models Hall. destruct (ocr_main_run models w s) as (-> & _).
    revert s. induction models as [|[name info] models IH]; intros s;
      [reflexivity|].
    cbn [DownloadOcrModels.download_models]. rewrite bind_run. cbv beta.
    assert (T : fst (DownloadOcrModels.process_model w
                       DownloadOcrModels.assets_dir (name, info) s) = true).
    { pose proof (ocr_process_model_run w DownloadOcrModels.assets_dir name
                    info s) as R. cbv zeta in R.
      destruct (already_verified s _ _); [apply R|].
      destruct (Hall name info (or_introl eq_refl)) as [body Hb].
      rewrite Hb in R. apply R. }
    rewrite T. apply IH. intros n i Hin. apply (Hall n i). right. exact Hin.
Qed.

Lemma X7_witness :
  fst (DownloadOcrModels.process_model (serving [x00])
         DownloadOcrModels.assets_dir ("eng.traineddata", eng_info) fresh) = true /\
  fs (snd (DownloadOcrModels.process_model (serving [x00])
             DownloadOcrModels.assets_dir ("eng.traineddata", eng_info) fresh))
  = <[eng_path := [x00]]> (fs fresh).
Proof.
  apply (X7_download_accepted_whatever_its_size (serving [x00]) fresh);
    reflexivity.
Defined.

(** X8: a second run costs nothing: when every model's file is on disk
    and within tolerance, [main] answers [True] without a single download
    and leaves the disk as it was. *)
Theorem X8_ocr_rerun_is_a_no_op
    (models : list (string * DownloadOcrModels.ModelInfo)) (w : World)
    (s : State) :
  (forall (name : string) (info : DownloadOcrModels.ModelInfo),
     In (name, info) models ->
     already_verified s (pdiv DownloadOcrModels.assets_dir name)
       (DownloadOcrModels.size_mb info) = true) ->
  let r := DownloadOcrModels.main_with models w s in
  fst r = true /\ fs (snd r) = fs s /\
  attempts (out (snd r)) = attempts (out s).
Proof.
  intros Hall. cbv zeta. destruct (ocr_main_run models w s) as (-> & -> & ->).
  revert s Hall. induction models as [|[name info] models IH]; intros s Hall.
  - repeat split; reflexivity.
  - cbn [DownloadOcrModels.download_models]. rewrite bind_run. cbv beta.
    pose proof (ocr_process_model_run w DownloadOcrModels.assets_dir name
                  info s) as R. cbv zeta in R.
    rewrite (Hall name info (or_introl eq_refl)) in R.
    destruct R as (R1 & R2 & R3). rewrite R1.
    destruct (IH (snd (DownloadOcrModels.process_model w
                         DownloadOcrModels.assets_dir (name, info) s)))
      as (I1 & I2 & I3).
    { intros n i Hin. unfold already_verified. rewrite R2.
      apply (Hall n i). right. exact Hin. }
    rewrite I1, I2, I3. auto.
Qed.

Lemma X8_witness :
  fst (DownloadOcrModels.main_with [("empty.traineddata",
         DownloadOcrModels.MkInfo "u" None (B64.of_int 0) "d")] offline
         (holding (pdiv DownloadOcrModels.assets_dir "empty.traineddata") []))
  = true /\
  fs (snd (DownloadOcrModels.main_with [("empty.traineddata",
         DownloadOcrModels.MkInfo "u" None (B64.of_int 0) "d")] offline
         (holding (pdiv DownloadOcrModels.assets_dir "empty.traineddata") [])))
  = fs (holding (pdiv DownloadOcrModels.assets_dir "empty.traineddata") []) /\
  attempts (out (snd (DownloadOcrModels.main_with [("empty.traineddata",
         DownloadOcrModels.MkInfo "u" None (B64.of_int 0) "d")] offline
         (holding (pdiv DownloadOcrModels.assets_dir "empty.traineddata") []))))
  = attempts (out (holding (pdiv DownloadOcrModels.assets_dir "empty.traineddata") [])).
Proof.
  apply (X8_ocr_rerun_is_a_no_op).
  intros name info [E|[]]. inversion E; subst. reflexivity.
Defined.

(** ** download_ocr_tflite_direct.py: what ends up at a target *)

Lemma tflite_try_urls_true_body (w : World) (p : Path)
    (info : DownloadOcrTfliteDirect.ModelInfo) (us : list string) (s : State) :
  fst (DownloadOcrTfliteDirect.try_urls w p info us s) = true ->
  exists (u : string) (body : bytes),
    In u us /\ fetch w u = Fetched body /\ (1024 <= getsize body)%Z /\
    fs (snd (DownloadOcrTfliteDirect.try_urls w p info us s)) !! p = Some body.
Proof.
  revert s. induction us as [|u us IH]; intros s;
    cbn [DownloadOcrTfliteDirect.try_urls]; [cbn; discriminate|].
  rewrite bind_run. cbv beta.
  destruct (tflite_download_file_run w u p
              (DownloadOcrTfliteDirect.description info) s) as [n ->].
  cbn [fst snd].
  destruct (fetch w u) as [body|residue] eqn:Ef.
  - rewrite bind_run. cbv beta.
    rewrite verify_tflite_model_result. cbn [fs]. rewrite lookup_insert_eq.
    destruct (Z.ltb_spec (getsize body) 1024) as [Hlt|Hge]; cbn [negb].
    + rewrite !bind_run. cbv beta. intros H.
      destruct (IH _ H) as (u' & b' & Hin & Hf & Hs & Hp).
      exists u', b'. split; [right; exact Hin|]. auto.
    + intros _. exists u, body. split; [left; reflexivity|].
      split; [exact Ef|]. split; [exact Hge|].
      rewrite ret_run. cbn [snd]. rewrite verify_tflite_model_fs. cbn [fs].
      apply lookup_insert_eq.
  - intros H. destruct (IH _ H) as (u' & b' & Hin & Hf & Hs & Hp).
    exists u', b'. split; [right; exact Hin|]. auto.
Qed.

Lemma tflite_process_model_counts (w : World) (dir : Path) (c : nat)
    (name : string) (info : DownloadOcrTfliteDirect.ModelInfo) (s : State) :
  writable w (pdiv dir name) = true ->
  fst (DownloadOcrTfliteDirect.process_model w dir c (name, info) s) = S c.
Proof.
  intros Hw. unfold DownloadOcrTfliteDirect.process_model. mstep.
  destruct (fst (DownloadOcrTfliteDirect.try_urls w (pdiv dir name) info _ s)).
  - reflexivity.
  - do 2 mstep.
    match goal with |- context [DownloadOcrTfliteDirect.create_working_tflite_model w ?p ?d ?s1] =>
      destruct (create_working_tflite_model_writable w p d s1 Hw) as [C1 _] end.
    rewrite C1. reflexivity.
Qed.

(** X9: where the target can be written, a turn of
    download_ocr_tflite_direct.py always counts the model and leaves at
    the target either the 512-byte stub or the complete body of one of the
    model's URLs, of at least 1024 bytes; a download that was rejected for
    its size is never what remains. *)
Theorem X9_tflite_target_holds_stub_or_verified_body (w : World) (dir : Path)
    (c : nat) (name : string) (info : DownloadOcrTfliteDirect.ModelInfo)
    (s : State) :
  writable w (pdiv dir name) = true ->
  let r := DownloadOcrTfliteDirect.process_model w dir c (name, info) s in
  fst r = S c /\
  exists data : bytes,
    fs (snd r) !! pdiv dir name = Some data /\
    (data = DownloadOcrTfliteDirect.stub_data (pdiv dir name) \/
     exists u : string,
       In u (DownloadOcrTfliteDirect.urls info) /\
       fetch w u = Fetched data /\ (1024 <= getsize data)%Z).
Proof.
  intros Hw. cbv zeta.
  split; [apply tflite_process_model_counts; exact Hw|].
  unfold DownloadOcrTfliteDirect.process_model. mstep.
  destruct (fst (DownloadOcrTfliteDirect.try_urls w (pdiv dir name) info _ s))
    eqn:Et.
  - destruct (tflite_try_urls_true_body w _ info _ s Et)
      as (u & body & Hin & Hf & Hs & Hp).
    exists body. rewrite ret_run. cbn [snd]. split; [exact Hp|].
    right. exists u. auto.
  - do 2 mstep.
    match goal with |- context [DownloadOcrTfliteDirect.create_working_tflite_model w ?p ?d ?s1] =>
      destruct (create_working_tflite_model_writable w p d s1 Hw) as [C1 C2] end.
    rewrite C1. unfold ret. cbn [fst snd]. rewrite C2.
    eexists. split; [apply lookup_insert_eq|]. left. reflexivity.
Qed.

Lemma X9_witness :
  fst (DownloadOcrTfliteDirect.process_model (serving [x00]) scripts 0
         ("easyocr_text_detection.tflite", detection_info) fresh) = 1%nat /\
  exists data : bytes,
    fs (snd (DownloadOcrTfliteDirect.process_model (serving [x00]) scripts 0
               ("easyocr_text_detection.tflite", detection_info) fresh))
      !! tflite_file = Some data /\
    (data = DownloadOcrTfliteDirect.stub_data tflite_file \/
     exists u : string,
       In u (DownloadOcrTfliteDirect.urls detection_info) /\
       fetch (serving [x00]) u = Fetched data /\ (1024 <= getsize data)%Z).
Proof.
  apply (X9_tflite_target_holds_stub_or_verified_body (serving [x00]) scripts 0
           "easyocr_text_detection.tflite" detection_info fresh).
  reflexivity.
Defined.

Lemma tflite_process_models_count (w : World) (dir : Path)
    (models : list (string * DownloadOcrTfliteDirect.ModelInfo)) (c : nat)
    (s : State) :
  (forall (name : string) (info : DownloadOcrTfliteDirect.ModelInfo),
     In (name, info) models -> writable w (pdiv dir name) = true) ->
  fst (DownloadOcrTfliteDirect.process_models w dir c models s)
  = (c + length models)%nat.
Proof.
  revert c s. induction models as [|[name info] models IH]; intros c s Hw;
    cbn [DownloadOcrTfliteDirect.process_models length].
  - rewrite ret_run. cbn. lia.
  - mstep. rewrite tflite_process_model_counts
      by (apply (Hw name info); left; reflexivity).
    rewrite IH by (intros n i Hin; apply (Hw n i); right; exact Hin). lia.
Qed.

(** X10: [main] of download_ocr_tflite_direct.py answers [True], exit
    status 0, whenever all its targets can be written, whatever the
    network does: a stub counts as a success. *)
Theorem X10_tflite_main_succeeds_offline
    (models : list (string * DownloadOcrTfliteDirect.ModelInfo)) (w : World)
    (dir : Path) (s : State) :
  (forall (name : string) (info : DownloadOcrTfliteDirect.ModelInfo),
     In (name, info) models -> writable w (pdiv dir name) = true) ->
  fst (DownloadOcrTfliteDirect.main_with models w dir s) = true /\
  DownloadOcrTfliteDirect.exit_status
    (fst (DownloadOcrTfliteDirect.main_with models w dir s)) = 0%Z.
Proof.
  intros Hw.
  assert (T : fst (DownloadOcrTfliteDirect.main_with models w dir s) = true).
  { unfold DownloadOcrTfliteDirect.main_with. mstep. rewrite ret_run.
    cbn [fst]. rewrite tflite_process_models_count by exact Hw.
    apply Nat.eqb_refl. }
  rewrite T. split; reflexivity.
Qed.

Lemma X10_witness :
  fst (DownloadOcrTfliteDirect.main offline scripts fresh) = true /\
  DownloadOcrTfliteDirect.exit_status
    (fst (DownloadOcrTfliteDirect.main offline scripts fresh)) = 0%Z.
Proof.
  apply (X10_tflite_main_succeeds_offline DownloadOcrTfliteDirect.TFLITE_MODELS
           offline scripts fresh).
  intros name info _. reflexivity.
Defined.

(** ** download_easyocr_models.py: its stub, its table of direct sources *)

(** X11: the minimal model of download_easyocr_models.py passes the
    script's own [verify_file], which reports it as possibly not a
    TensorFlow Lite model: it has 248 bytes and carries the TFL3 magic at
    offset 4, not at the start where [verify_file] looks. *)
Theorem X11_minimal_model_passes_but_is_flagged (w : World) (filename : Path)
    (description : string) (s s' : State) :
  DownloadEasyocrModels.create_minimal_tflite w filename description s
  = (true, s') ->
  fs s' !! filename = Some DownloadEasyocrModels.minimal_model_data /\
  length DownloadEasyocrModels.minimal_model_data = 248%nat /\
  take 4 (drop 4 DownloadEasyocrModels.minimal_model_data) = TFL3 /\
  DownloadEasyocrModels.verify_file filename s' =
    (true,
     MkState (fs s')
       (out s' ++ [ Note "File size";
                    Note "File may not be a TensorFlow Lite model" ])).
Proof.
  intros H.
  assert (F : fs s' !! filename = Some DownloadEasyocrModels.minimal_model_data).
  { unfold DownloadEasyocrModels.create_minimal_tflite in H. mrun in H.
    destruct (writable w filename); mrun in H; inversion H.
    cbn [fs]. apply lookup_insert_eq. }
  split; [exact F|]. split; [reflexivity|]. split; [reflexivity|].
  rewrite (verify_file_run filename s' _ F). reflexivity.
Qed.

Lemma X11_witness :
  fs (snd (DownloadEasyocrModels.create_minimal_tflite offline tflite_file
             "stub" fresh)) !! tflite_file
  = Some DownloadEasyocrModels.minimal_model_data.
Proof.
  apply (X11_minimal_model_passes_but_is_flagged offline tflite_file "stub"
           fresh).
  reflexivity.
Defined.

Lemma str_in_app_r (n a b : string) :
  str_in n b = true -> str_in n (a +:+ b) = true.
Proof.
  intros H. induction a as [|c a IH]; [exact H|].
  change (str_in n (String c a +:+ b))
    with (str_startswith n (String c (a +:+ b)) || str_in n (a +:+ b)).
  rewrite IH. apply orb_true_r.
Qed.

Lemma str_in_slash (rest : string) : str_in "/" ("/" +:+ rest) = true.
Proof. destruct rest; reflexivity. Qed.

Lemma str_pdiv_has_slash (dir : Path) (name : string) :
  parts dir <> [] -> str_in "/" (str (pdiv dir name)) = true.
Proof.
  intros Hne. unfold str, pdiv. cbn [parts anchor].
  destruct (parts dir) as [|x rest]; [congruence|].
  cbn [app]. apply str_in_app_r.
  destruct rest as [|y rest]; cbn [app String.concat];
    apply str_in_app_r, str_in_slash.
Qed.

Lemma direct_sources_miss (k : string) :
  str_in "/" k = true ->
  DownloadEasyocrModels.DIRECT_TFLITE_SOURCES !! k = None.
Proof.
  intros H. unfold DownloadEasyocrModels.DIRECT_TFLITE_SOURCES.
  rewrite !lookup_insert_ne; [apply lookup_empty| |];
    intros E; rewrite <- E in H; vm_compute in H; discriminate.
Qed.

(** X12: the table of direct sources is keyed by bare file names but
    looked up with the whole target path: as soon as the script's
    directory has a component, [try_direct_tflite_sources] answers [False]
    for every file name, without printing or downloading anything. *)
Theorem X12_direct_sources_are_out_of_reach (w : World) (dir : Path)
    (name : string) (s : State) :
  parts dir <> [] ->
  DownloadEasyocrModels.DIRECT_TFLITE_SOURCES !! str (pdiv dir name) = None /\
  DownloadEasyocrModels.try_direct_tflite_sources w (pdiv dir name) s
  = (false, s).
Proof.
  intros Hne.
  assert (D : DownloadEasyocrModels.DIRECT_TFLITE_SOURCES !! str (pdiv dir name)
              = None)
    by (apply direct_sources_miss, str_pdiv_has_slash; exact Hne).
  split; [exact D|].
  unfold DownloadEasyocrModels.try_direct_tflite_sources. rewrite D.
  reflexivity.
Qed.

Lemma X12_witness :
  DownloadEasyocrModels.DIRECT_TFLITE_SOURCES !! str tflite_file = None /\
  DownloadEasyocrModels.try_direct_tflite_sources (serving zeros) tflite_file
    fresh = (false, fresh).
Proof.
  apply (X12_direct_sources_are_out_of_reach (serving zeros) scripts
           "easyocr_text_detection.tflite" fresh).
  intros H. discriminate H.
Defined.

(** ** download_craft_keras_tflite_models.py: the whole run *)

Lemma craft_download_file_confined (w : World) (u : string) (p : Path) :
  confined p (DownloadCraftKerasTfliteModels.download_file w u p).
Proof. unfold DownloadCraftKerasTfliteModels.download_file. confine. Qed.

#[export] Hint Resolve craft_download_file_confined : confined.

Lemma craft_process_model_confined (w : World) (c : nat)
    (model : DownloadCraftKerasTfliteModels.Model) :
  confined (DownloadCraftKerasTfliteModels.file model)
    (DownloadCraftKerasTfliteModels.process_model w c model).
Proof. unfold DownloadCraftKerasTfliteModels.process_model. confine. Qed.

Lemma craft_process_model_turn (w : World) (c : nat)
    (model : DownloadCraftKerasTfliteModels.Model) (s : State) :
  let r := DownloadCraftKerasTfliteModels.process_model w c model s in
  let target := DownloadCraftKerasTfliteModels.file model in
  (fst r = c \/ (fst r = S c /\ holds_model (fs (snd r)) target = true)) /\
  (holds_model (fs s) target = true ->
   fst r = S c /\ fs (snd r) = fs s /\
   attempts (out (snd r)) = attempts (out s)).
Proof.
  cbv zeta. unfold DownloadCraftKerasTfliteModels.process_model, holds_model.
  set (target := DownloadCraftKerasTfliteModels.file model).
  set (u := DownloadCraftKerasTfliteModels.url model).
  mrun. destruct (fs s !! target) as [old|] eqn:Eo.
  - destruct (getsize old >? 10000)%Z eqn:Eb; mrun.
    + rewrite Eo, Eb. split; [right; auto|]. intros _.
      rewrite !attempts_note. auto.
    + split; [|discriminate].
      destruct (craft_download_file_run w u target
        (MkState (fs s)
           ((out s ++ [Note "File already exists"]) ++
            [Note "Existing file too small, re-downloading..."])))
        as [note ->].
      cbn [fs out].
      destruct (fetch w u) as [body|[part|]]; mrun; auto.
      rewrite lookup_insert_eq.
      destruct (getsize body >? 10000)%Z eqn:Eg; mrun; auto.
      right. rewrite lookup_insert_eq, Eg. auto.
  - split; [|discriminate].
    destruct (craft_download_file_run w u target s) as [note ->].
    destruct (fetch w u) as [body|[part|]]; mrun; auto.
    rewrite lookup_insert_eq.
    destruct (getsize body >? 10000)%Z eqn:Eg; mrun; auto.
    right. rewrite lookup_insert_eq, Eg. auto.
Qed.

Lemma craft_process_models_frame (w : World)
    (ms : list DownloadCraftKerasTfliteModels.Model) (c : nat) (s : State)
    (q : Path) :
  ~ In q (map DownloadCraftKerasTfliteModels.file ms) ->
  fs (snd (DownloadCraftKerasTfliteModels.process_models w c ms s)) !! q
  = fs s !! q.
Proof.
  revert c s. induction ms as [|m ms IH]; intros c s Hq;
    cbn [DownloadCraftKerasTfliteModels.process_models]; [reflexivity|].
  cbn [map] in Hq. mstep. rewrite IH by (intros H; apply Hq; right; exact H).
  apply craft_process_model_confined. intros E. apply Hq. left. symmetry.
  exact E.
Qed.

Lemma craft_process_models_count (w : World)
    (ms : list DownloadCraftKerasTfliteModels.Model) (c : nat) (s : State) :
  NoDup (map DownloadCraftKerasTfliteModels.file ms) ->
  let r := DownloadCraftKerasTfliteModels.process_models w c ms s in
  (fst r <= c + length (List.filter
     (fun m => holds_model (fs (snd r)) (DownloadCraftKerasTfliteModels.file m))
     ms))%nat.
Proof.
  revert c s. induction ms as [|m ms IH]; intros c s Hnd; cbv zeta;
    cbn [DownloadCraftKerasTfliteModels.process_models].
  - rewrite ret_run. cbn. lia.
  - cbn [map] in Hnd. apply NoDup_cons in Hnd as [Hm Hnd]. mstep.
    destruct (craft_process_model_turn w c m s) as [T _]. cbv zeta in T.
    set (r1 := DownloadCraftKerasTfliteModels.process_model w c m s) in *.
    specialize (IH (fst r1) (snd r1) Hnd). cbv zeta in IH.
    set (r := DownloadCraftKerasTfliteModels.process_models w (fst r1) ms
                (snd r1)) in *.
    cbn [List.filter].
    assert (F : holds_model (fs (snd r)) (DownloadCraftKerasTfliteModels.file m)
                = holds_model (fs (snd r1)) (DownloadCraftKerasTfliteModels.file m)).
    { unfold holds_model, r. rewrite craft_process_models_frame; [reflexivity|].
      intros H. apply Hm. apply list_elem_of_In. exact H. }
    destruct T as [T|[T H]].
    + rewrite T in IH.
      destruct (holds_model (fs (snd r)) _); cbn [length]; lia.
    + rewrite F, H. cbn [length]. lia.
Qed.

Lemma craft_models_NoDup (assets : Path) :
  NoDup (map DownloadCraftKerasTfliteModels.file
           (DownloadCraftKerasTfliteModels.models assets)).
Proof.
  cbn [map DownloadCraftKerasTfliteModels.models
         DownloadCraftKerasTfliteModels.file].
  rewrite !NoDup_cons. repeat split; try apply NoDup_nil_2;
    rewrite list_elem_of_In; cbn [In]; intros H;
    repeat (destruct H as [H|H]; [apply pdiv_inj in H; discriminate H|]);
    exact H.
Qed.

(** X13: the count that download_craft_keras_tflite_models.py reports is
    backed by files: when [main] is done, at least that many of its three
    targets hold more than 10000 bytes, and no file but the three targets
    has changed. *)
Theorem X13_craft_count_is_backed_by_files (w : World) (script_dir : Path)
    (s : State) :
  let ms := DownloadCraftKerasTfliteModels.models
              (DownloadCraftKerasTfliteModels.assets_dir script_dir) in
  let r := DownloadCraftKerasTfliteModels.main w script_dir s in
  (fst r <= length (List.filter
     (fun m => holds_model (fs (snd r)) (DownloadCraftKerasTfliteModels.file m))
     ms) <= 3)%nat /\
  (forall q : Path,
     ~ In q (map DownloadCraftKerasTfliteModels.file ms) ->
     fs (snd r) !! q = fs s !! q).
Proof.
  cbv zeta. unfold DownloadCraftKerasTfliteModels.main. mstep.
  set (ms := DownloadCraftKerasTfliteModels.models _).
  set (r := DownloadCraftKerasTfliteModels.process_models w 0 ms s).
  assert (E : forall s1, fs s1 = fs (snd r) ->
    fst (bind (if (2 <=? fst r)%nat
               then print (Note "OK Ready for real OCR processing!")
               else print (Note "Need at least text detection + text recognition models"))
           (fun _ => bind (print (Note "Setup complete!"))
                       (fun _ => ret (fst r))) s1) = fst r /\
    fs (snd (bind (if (2 <=? fst r)%nat
               then print (Note "OK Ready for real OCR processing!")
               else print (Note "Need at least text detection + text recognition models"))
           (fun _ => bind (print (Note "Setup complete!"))
                       (fun _ => ret (fst r))) s1)) = fs (snd r)).
  { intros s1 H. destruct (2 <=? fst r)%nat; mrun; auto. }
  destruct (E (snd r) eq_refl) as [E1 E2]. rewrite E1, E2. split.
  - split.
    + apply (craft_process_models_count w ms 0 s), craft_models_NoDup.
    + etransitivity; [apply filter_length_le|]. reflexivity.
  - intros q Hq. apply craft_process_models_frame. exact Hq.
Qed.

Lemma craft_process_models_rerun (w : World)
    (ms : list DownloadCraftKerasTfliteModels.Model) (c : nat) (s : State) :
  (forall m, In m ms ->
     holds_model (fs s) (DownloadCraftKerasTfliteModels.file m) = true) ->
  let r := DownloadCraftKerasTfliteModels.process_models w c ms s in
  fst r = (c + length ms)%nat /\ fs (snd r) = fs s /\
  attempts (out (snd r)) = attempts (out s).
Proof.
  revert c s. induction ms as [|m ms IH]; intros c s Hall; cbv zeta;
    cbn [DownloadCraftKerasTfliteModels.process_models length].
  - rewrite ret_run. cbn. repeat split. lia.
  - mstep. destruct (craft_process_model_turn w c m s) as [_ T].
    cbv zeta in T. destruct (T (Hall m (or_introl eq_refl))) as (T1 & T2 & T3).
    destruct (IH (fst (DownloadCraftKerasTfliteModels.process_model w c m s))
                 (snd (DownloadCraftKerasTfliteModels.process_model w c m s)))
      as (I1 & I2 & I3).
    { intros m' Hin. rewrite T2. apply Hall. right. exact Hin. }
    cbv zeta in I1, I2, I3. rewrite I1, I2, I3, T1, T2, T3.
    repeat split. lia.
Qed.

(** X14: a second run of download_craft_keras_tflite_models.py costs
    nothing: when its three targets hold more than 10000 bytes each,
    [main] counts all three without a single download and leaves the disk
    as it was. *)
Theorem X14_craft_rerun_is_a_no_op (w : World) (script_dir : Path)
    (s : State) :
  (forall m, In m (DownloadCraftKerasTfliteModels.models
                     (DownloadCraftKerasTfliteModels.assets_dir script_dir)) ->
     holds_model (fs s) (DownloadCraftKerasTfliteModels.file m) = true) ->
  let r := DownloadCraftKerasTfliteModels.main w script_dir s in
  fst r = 3%nat /\ fs (snd r) = fs s /\
  attempts (out (snd r)) = attempts (out s).
Proof.
  intros Hall. cbv zeta. unfold DownloadCraftKerasTfliteModels.main. mstep.
  destruct (craft_process_models_rerun w _ 0 s Hall) as (R1 & R2 & R3).
  cbv zeta in R1, R2, R3. rewrite R1.
  change (0 + length (DownloadCraftKerasTfliteModels.models
                        (DownloadCraftKerasTfliteModels.assets_dir script_dir)))%nat
    with 3%nat.
  cbn [Nat.leb]. mrun. rewrite !attempts_note, R2, R3. auto.
Qed.

Lemma X14_witness :
  fst (DownloadCraftKerasTfliteModels.main offline scripts craft_installed)
  = 3%nat /\
  fs (snd (DownloadCraftKerasTfliteModels.main offline scripts craft_installed))
  = fs craft_installed /\
  attempts (out (snd (DownloadCraftKerasTfliteModels.main offline scripts
                        craft_installed)))
  = attempts (out craft_installed).
Proof.
  apply (X14_craft_rerun_is_a_no_op offline scripts craft_installed).
  intros m [<-|[<-|[<-|[]]]]; reflexivity.
Defined.

(** ** setup_keras_ocr.py: what the magic check accepts, what the copy does *)

Lemma bytes_startswith_cons (p c : Byte.byte) (pre b : bytes) :
  bytes_startswith (p :: pre) (c :: b) = Byte.eqb p c && bytes_startswith pre b.
Proof. reflexivity. Qed.

Lemma bytes_startswith_spec (pre b : bytes) :
  bytes_startswith pre b = true <-> take (length pre) b = pre.
Proof.
  revert b. induction pre as [|p pre IH]; intros b.
  - split; reflexivity.
  - destruct b as [|c b]; [split; discriminate|].
    rewrite bytes_startswith_cons, andb_true_iff, IH. cbn [length take]. split.
    + intros [E ->]. apply Byte.byte_dec_bl in E. congruence.
    + intros E. inversion E as [[E1 E2]].
      split; [apply Byte.byte_dec_lb; reflexivity|congruence].
Qed.

Lemma bytes_in_spec (needle hay : bytes) :
  bytes_in needle hay = true <->
  exists i : nat, (i <= length hay)%nat /\
                  bytes_startswith needle (drop i hay) = true.
Proof.
  induction hay as [|c hay IH].
  - change (bytes_in needle []) with (bytes_startswith needle [] || false).
    rewrite orb_false_r. split.
    + intros H. exists 0%nat. split; [reflexivity|exact H].
    + intros [i [Hi H]]. destruct i; [exact H|cbn in Hi; lia].
  - change (bytes_in needle (c :: hay))
      with (bytes_startswith needle (c :: hay) || bytes_in needle hay).
    rewrite orb_true_iff, IH. split.
    + intros [H|[i [Hi H]]].
      * exists 0%nat. split; [lia|exact H].
      * exists (S i). split; [cbn; lia|exact H].
    + intros [[|i] [Hi H]].
      * left. exact H.
      * right. exists i. split; [cbn in Hi; lia|exact H].
Qed.

Lemma magic_in_header (data : bytes) :
  bytes_in TFL3 (take 8 data) = true <->
  exists i : nat, (i <= 4)%nat /\ take 4 (drop i data) = TFL3.
Proof.
  rewrite bytes_in_spec. split.
  - intros [i [Hi H]]. apply bytes_startswith_spec in H. cbn [TFL3 length] in H.
    assert (L : length (take 4 (drop i (take 8 data))) = 4%nat)
      by (rewrite H; reflexivity).
    rewrite length_take, length_drop, length_take in L.
    exists i. split; [lia|].
    rewrite <- H, !take_drop_commute, take_take. f_equal. f_equal. lia.
  - intros [i [Hi H]].
    assert (L : length (take 4 (drop i data)) = 4%nat) by (rewrite H; reflexivity).
    rewrite length_take, length_drop in L.
    exists i. split; [rewrite length_take; lia|].
    apply bytes_startswith_spec. cbn [TFL3 length].
    rewrite <- H, !take_drop_commute, take_take. f_equal. f_equal. lia.
Qed.

(** X15: [main] of setup_keras_ocr.py answers [True] exactly when the
    source exists, carries the four magic bytes TFL3 starting at one of
    the offsets 0 to 4, and the destination can be written. Offset 4 is
    where the stubs of the download scripts have it, so a stub put at the
    source is installed like a real model. *)
Theorem X15_setup_accepts_magic_at_offsets_0_to_4 (w : World)
    (script_dir : Path) (s : State) :
  (fst (SetupKerasOcr.main w script_dir s) = true <->
   exists (data : bytes) (i : nat),
     fs s !! SetupKerasOcr.keras_model_source script_dir = Some data /\
     (i <= 4)%nat /\ take 4 (drop i data) = TFL3 /\
     writable w (SetupKerasOcr.keras_model_dest script_dir) = true) /\
  (forall filename : Path,
     bytes_in TFL3 (take 8 (DownloadOcrTfliteDirect.stub_data filename)) = true) /\
  bytes_in TFL3 (take 8 DownloadEasyocrModels.minimal_model_data) = true.
Proof.
  split; [|split].
  - destruct (setup_main_run w script_dir s) as [notes ->].
    destruct (fs s !! SetupKerasOcr.keras_model_source script_dir) as [data|].
    + destruct (bytes_in TFL3 (take 8 data)) eqn:Em; cbn [andb].
      * apply magic_in_header in Em as [i [Hi Hm]].
        destruct (writable w _); cbn [fst]; split; try discriminate.
        -- intros _. exists data, i. auto.
        -- reflexivity.
        -- intros (d & j & _ & _ & _ & H). discriminate H.
      * cbn [fst]. split; [discriminate|].
        intros (d & j & Hd & Hj & Hm & _). inversion Hd; subst d.
        assert (bytes_in TFL3 (take 8 data) = true)
          by (apply magic_in_header; eauto).
        congruence.
    + cbn [fst]. split; [discriminate|].
      intros (d & j & Hd & _). discriminate Hd.
  - intros filename. rewrite stub_data_head. reflexivity.
  - reflexivity.
Qed.

Lemma setup_source_is_not_dest (script_dir : Path) :
  SetupKerasOcr.keras_model_source script_dir
  <> SetupKerasOcr.keras_model_dest script_dir.
Proof.
  unfold SetupKerasOcr.keras_model_source, SetupKerasOcr.keras_model_dest,
    SetupKerasOcr.assets_dir, pdiv, parent. cbn [parts anchor].
  intros E. inversion E as [E1]. apply (f_equal (@length string)) in E1.
  rewrite !length_app in E1. cbn [length] in E1.
  assert (length (removelast (parts script_dir)) = length (parts script_dir) - 1)%nat.
  { destruct (parts script_dir) as [|x l] using rev_ind; [reflexivity|].
    rewrite removelast_last, length_app. cbn. lia. }
  lia.
Qed.

(** X16: all that [main] of setup_keras_ocr.py ever changes on disk is
    the destination: when it answers [False] the disk is as it was, and
    when it answers [True] the destination holds exactly the bytes of the
    source, which is a different file and is left alone. *)
Theorem X16_setup_copies_exactly_or_not_at_all (w : World) (script_dir : Path)
    (s : State) :
  let source := SetupKerasOcr.keras_model_source script_dir in
  let dest := SetupKerasOcr.keras_model_dest script_dir in
  let r := SetupKerasOcr.main w script_dir s in
  source <> dest /\
  (fst r = false -> fs (snd r) = fs s) /\
  (fst r = true ->
   exists data : bytes,
     fs s !! source = Some data /\
     fs (snd r) = <[dest := data]> (fs s) /\
     fs (snd r) !! source = Some data).
Proof.
  cbv zeta. split; [apply setup_source_is_not_dest|].
  destruct (setup_main_run w script_dir s) as [notes ->].
  destruct (fs s !! SetupKerasOcr.keras_model_source script_dir) as [data|] eqn:E.
  - destruct (bytes_in TFL3 (take 8 data) && writable w _); cbn [fst snd fs].
    + split; [discriminate|]. intros _. exists data.
      split; [reflexivity|]. split; [reflexivity|].
      rewrite lookup_insert_ne; [exact E|].
      intros H. apply (setup_source_is_not_dest script_dir). symmetry. exact H.
    + split; [reflexivity|discriminate].
  - cbn [fst snd fs]. split; [reflexivity|discriminate].
Qed.

Lemma X16_witness :
  exists data : bytes,
    fs (holding (SetupKerasOcr.keras_model_source scripts) magic_at_4)
      !! SetupKerasOcr.keras_model_source scripts = Some data /\
    fs (snd (SetupKerasOcr.main offline scripts
               (holding (SetupKerasOcr.keras_model_source scripts) magic_at_4)))
    = <[SetupKerasOcr.keras_model_dest scripts := data]>
        (fs (holding (SetupKerasOcr.keras_model_source scripts) magic_at_4)) /\
    fs (snd (SetupKerasOcr.main offline scripts
               (holding (SetupKerasOcr.keras_model_source scripts) magic_at_4)))
      !! SetupKerasOcr.keras_model_source scripts = Some data.
Proof.
  apply (X16_setup_copies_exactly_or_not_at_all offline scripts
           (holding (SetupKerasOcr.keras_model_source scripts) magic_at_4)).
  reflexivity.
Defined.

(** X17: setup_keras_ocr.py tells the user to run
    download_ocr_tflite_direct.py when its source is missing, but that
    script never writes [keras_ocr_float16.tflite]: with the source
    missing before, [main] of setup_keras_ocr.py still answers [False]
    after a full run of download_ocr_tflite_direct.py in the same
    directory, whatever the network delivered. *)
Theorem X17_advised_download_does_not_supply_the_source (w w' : World)
    (script_dir : Path) (s : State) :
  fs s !! SetupKerasOcr.keras_model_source script_dir = None ->
  let s1 := snd (DownloadOcrTfliteDirect.main w script_dir s) in
  fs s1 !! SetupKerasOcr.keras_model_source script_dir = None /\
  fst (SetupKerasOcr.main w' script_dir s1) = false.
Proof.
  intros Hs. cbv zeta.
  assert (F : fs (snd (DownloadOcrTfliteDirect.main w script_dir s))
              !! SetupKerasOcr.keras_model_source script_dir = None).
  { unfold DownloadOcrTfliteDirect.main, DownloadOcrTfliteDirect.main_with.
    mstep. rewrite ret_run. cbn [snd].
    rewrite tflite_process_models_frame; [exact Hs|].
    unfold SetupKerasOcr.keras_model_source.
    cbn [map DownloadOcrTfliteDirect.TFLITE_MODELS fst].
    rewrite !not_elem_of_cons. repeat split;
      try (intros H; apply pdiv_inj in H; discriminate H).
    apply not_elem_of_nil. }
  split; [exact F|].
  destruct (setup_main_run w' script_dir
              (snd (DownloadOcrTfliteDirect.main w script_dir s))) as [notes ->].
  rewrite F. reflexivity.
Qed.

Lemma X17_witness :
  fs (snd (DownloadOcrTfliteDirect.main (serving zeros) scripts fresh))
    !! SetupKerasOcr.keras_model_source scripts = None /\
  fst (SetupKerasOcr.main offline scripts
         (snd (DownloadOcrTfliteDirect.main (serving zeros) scripts fresh)))
  = false.
Proof.
  apply (X17_advised_download_does_not_supply_the_source (serving zeros)
           offline scripts fresh).
  reflexivity.
Defined.

Lemma X15_witness :
  fst (SetupKerasOcr.main offline scripts
         (holding (SetupKerasOcr.keras_model_source scripts)
            (DownloadOcrTfliteDirect.stub_data tflite_file))) = true.
Proof.
  destruct (X15_setup_accepts_magic_at_offsets_0_to_4 offline scripts
              (holding (SetupKerasOcr.keras_model_source scripts)
                 (DownloadOcrTfliteDirect.stub_data tflite_file)))
    as [[_ H] _].
  apply H. exists (DownloadOcrTfliteDirect.stub_data tflite_file), 4%nat.
  repeat split; reflexivity.
Defined.

(** ** download_and_convert_ocr_models.py: what a counted model is made of *)

Lemma convert_download_file_confined (w : World) (u : string) (p : Path)
    (d : string) :
  confined p (DownloadAndConvertOcrModels.download_file w u p d).
Proof. unfold DownloadAndConvertOcrModels.download_file. confine. Qed.

Lemma verify_onnx_model_fs (t : Toolchain) (p : Path) (s : State) :
  fs (snd (DownloadAndConvertOcrModels.verify_onnx_model t p s)) = fs s.
Proof.
  destruct (verify_onnx_model_run t p s) as [notes [_ ->]]. reflexivity.
Qed.

(** a source that was downloaded and verified: its body is what lies at
    the ONNX path *)
Lemma convert_source_kept (w : World) (t : Toolchain) (p : Path)
    (u d : string) (s : State) :
  let s1 := snd (DownloadAndConvertOcrModels.download_file w u p d s) in
  fst (DownloadAndConvertOcrModels.download_file w u p d s) = true ->
  fst (DownloadAndConvertOcrModels.verify_onnx_model t p s1) = true ->
  exists body : bytes,
    fetch w u = Fetched body /\ good_source w t u = true /\
    fs (snd (DownloadAndConvertOcrModels.verify_onnx_model t p s1)) !! p
    = Some body.
Proof.
  cbv zeta. intros Hd Hv.
  destruct (convert_source_step w t p u d s) as (D1 & _ & D3 & _).
  rewrite D1 in Hd. destruct (fetch w u) as [body|] eqn:Ef; [|discriminate].
  destruct (D3 body eq_refl) as [V1 _]. exists body.
  split; [reflexivity|]. split; [congruence|].
  rewrite verify_onnx_model_fs.
  destruct (convert_download_file_run w u p d s) as [n ->]. cbn [snd fs].
  rewrite Ef. apply lookup_insert_eq.
Qed.

Lemma try_backups_true (w : World) (t : Toolchain) (p : Path)
    (backups : list string) (s : State) :
  fst (DownloadAndConvertOcrModels.try_backups w t p backups s) = true ->
  exists (u : string) (body : bytes),
    In u backups /\ fetch w u = Fetched body /\ good_source w t u = true /\
    fs (snd (DownloadAndConvertOcrModels.try_backups w t p backups s)) !! p
    = Some body.
Proof.
  revert s. induction backups as [|u rest IH]; intros s;
    cbn [DownloadAndConvertOcrModels.try_backups]; [cbn; discriminate|].
  mstep.
  destruct (fst (DownloadAndConvertOcrModels.download_file w u p "Backup" s))
    eqn:Ed.
  - mstep.
    destruct (fst (DownloadAndConvertOcrModels.verify_onnx_model t p _)) eqn:Ev.
    + intros _. destruct (convert_source_kept w t p u "Backup" s Ed Ev)
        as (body & Hf & Hg & Hp).
      exists u, body. rewrite ret_run. cbn [snd].
      split; [left; reflexivity|]. auto.
    + mstep. intros H. destruct (IH _ H) as (u' & b' & Hin & Hx).
      exists u', b'. split; [right; exact Hin|exact Hx].
  - intros H. destruct (IH _ H) as (u' & b' & Hin & Hx).
    exists u', b'. split; [right; exact Hin|exact Hx].
Qed.

Lemma download_onnx_true (w : World) (t : Toolchain) (p : Path)
    (info : DownloadAndConvertOcrModels.ModelInfo) (s : State) :
  fst (DownloadAndConvertOcrModels.download_onnx w t p info s) = true ->
  exists (u : string) (body : bytes),
    In u (DownloadAndConvertOcrModels.url info
          :: default [] (DownloadAndConvertOcrModels.backup_urls info)) /\
    fetch w u = Fetched body /\ good_source w t u = true /\
    fs (snd (DownloadAndConvertOcrModels.download_onnx w t p info s)) !! p
    = Some body.
Proof.
  unfold DownloadAndConvertOcrModels.download_onnx.
  set (u := DownloadAndConvertOcrModels.url info).
  set (d := DownloadAndConvertOcrModels.description info).
  rewrite bind_run. cbv beta. rewrite bind_run. cbv beta.
  assert (B : forall s1,
    fst (match DownloadAndConvertOcrModels.backup_urls info with
         | Some backups =>
             bind (print (Note "Trying backup sources..."))
               (fun _ => DownloadAndConvertOcrModels.try_backups w t p backups)
         | None => ret false
         end s1) = true ->
    exists (u' : string) (body : bytes),
      In u' (u :: default [] (DownloadAndConvertOcrModels.backup_urls info)) /\
      fetch w u' = Fetched body /\ good_source w t u' = true /\
      fs (snd (match DownloadAndConvertOcrModels.backup_urls info with
               | Some backups =>
                   bind (print (Note "Trying backup sources..."))
                     (fun _ => DownloadAndConvertOcrModels.try_backups w t p backups)
               | None => ret false
               end s1)) !! p = Some body).
  { intros s1. destruct (DownloadAndConvertOcrModels.backup_urls info)
      as [backups|]; cbn [default]; [|cbn; discriminate].
    rewrite bind_run. cbv beta. intros H.
    destruct (try_backups_true w t p backups _ H) as (u' & b' & Hin & Hx).
    exists u', b'. split; [right; exact Hin|exact Hx]. }
  destruct (fst (DownloadAndConvertOcrModels.download_file w u p d s)) eqn:Ed.
  - rewrite bind_run. cbv beta.
    destruct (fst (DownloadAndConvertOcrModels.verify_onnx_model t p _)) eqn:Ev.
    + rewrite !ret_run. cbn [fst snd negb]. rewrite ret_run. intros _.
      destruct (convert_source_kept w t p u d s Ed Ev) as (body & Hf & Hg & Hp).
      exists u, body. split; [left; reflexivity|]. auto.
    + rewrite bind_run. cbv beta. rewrite !ret_run. cbn [fst snd negb].
      apply B.
  - rewrite !ret_run. cbn [fst snd negb]. apply B.
Qed.

Lemma create_fallback_tflite_true (w : World) (t : Toolchain) (p : Path)
    (d : string) (s : State) :
  fst (DownloadAndConvertOcrModels.create_fallback_tflite w t p d s) = true ->
  exists data : bytes,
    keras_fallback t (str_in "detection" (lower (str p))) = Some data /\
    fs (snd (DownloadAndConvertOcrModels.create_fallback_tflite w t p d s)) !! p
    = Some data.
Proof.
  unfold DownloadAndConvertOcrModels.create_fallback_tflite. mrun.
  destruct (keras_fallback t _) as [data|]; [|mrun; discriminate].
  destruct (writable w p); mrun; [|discriminate].
  intros _. exists data. split; [reflexivity|apply lookup_insert_eq].
Qed.

Lemma convert_onnx_to_tflite_true (w : World) (t : Toolchain)
    (onnx_path tflite_path : Path) (s : State) (body : bytes) :
  tflite_path <> pdiv (temp_dir t) "tf_model" ->
  fs s !! onnx_path = Some body ->
  fst (DownloadAndConvertOcrModels.convert_onnx_to_tflite w t onnx_path
         tflite_path s) = true ->
  exists model saved tfl : bytes,
    onnx_load t body = Some model /\ export_graph t model = Some saved /\
    tflite_convert t saved = Some tfl /\
    fs (snd (DownloadAndConvertOcrModels.convert_onnx_to_tflite w t onnx_path
               tflite_path s)) !! tflite_path = Some tfl.
Proof.
  intros Hne Hb Ht.
  pose proof (convert_onnx_to_tflite_run w t onnx_path tflite_path s Hne) as R.
  cbv zeta in R. unfold staged in R. rewrite Hb in R.
  cbn [mbind option_bind] in R.
  destruct (onnx_load t body) as [model|] eqn:E1; cbn [mbind option_bind] in R;
    [|congruence].
  destruct (export_graph t model) as [saved|] eqn:E2;
    cbn [mbind option_bind] in R; [|congruence].
  destruct (tflite_convert t saved) as [tfl|] eqn:E3;
    cbn [mbind option_bind] in R; [|congruence].
  destruct (writable w tflite_path); [|congruence].
  exists model, saved, tfl. destruct R as (_ & R & _). auto.
Qed.

(** X18: in download_and_convert_ocr_models.py a model is counted only
    with a TFLite file at its target that is either the Keras fallback or
    the conversion, through TensorFlow, of an ONNX body that one of the
    model's URLs delivered and that passed [verify_onnx_model]; in the
    second case the downloaded ONNX file has been removed again. *)
Theorem X18_counted_model_is_conversion_or_fallback (w : World)
    (t : Toolchain) (script_dir : Path) (c : nat) (onnx_filename : string)
    (info : DownloadAndConvertOcrModels.ModelInfo) (s : State) :
  let onnx_path := pdiv script_dir onnx_filename in
  let tflite_path :=
    pdiv script_dir (DownloadAndConvertOcrModels.output_tflite info) in
  onnx_filename <> DownloadAndConvertOcrModels.output_tflite info ->
  tflite_path <> pdiv (temp_dir t) "tf_model" ->
  let r := DownloadAndConvertOcrModels.process_model w t script_dir c
             (onnx_filename, info) s in
  (fst r = c \/ fst r = S c) /\
  (fst r = S c ->
   exists data : bytes,
     fs (snd r) !! tflite_path = Some data /\
     (keras_fallback t (str_in "detection" (lower (str tflite_path)))
        = Some data \/
      exists (u : string) (body model saved : bytes),
        In u (DownloadAndConvertOcrModels.url info
              :: default [] (DownloadAndConvertOcrModels.backup_urls info)) /\
        fetch w u = Fetched body /\
        onnx_load t body = Some model /\ onnx_check t model = true /\
        export_graph t model = Some saved /\
        tflite_convert t saved = Some data /\
        fs (snd r) !! onnx_path = None)).
Proof.
  cbv zeta. intros Hnames Htmp.
  assert (Hpaths : pdiv script_dir (DownloadAndConvertOcrModels.output_tflite info)
                   <> pdiv script_dir onnx_filename).
  { intros E. apply pdiv_inj in E. congruence. }
  assert (Hn : forall n : nat, n <> S n) by (intros n; lia).
  unfold DownloadAndConvertOcrModels.process_model.
  set (onnx_path := pdiv script_dir onnx_filename) in *.
  set (tflite_path := pdiv script_dir _) in *.
  set (d := DownloadAndConvertOcrModels.description info).
  assert (FB : forall s1,
    let r := bind (DownloadAndConvertOcrModels.create_fallback_tflite w t
                     tflite_path d)
               (fun made => if made then ret (S c) else ret c) s1 in
    (fst r = c \/ fst r = S c) /\
    (fst r = S c ->
     exists data : bytes,
       fs (snd r) !! tflite_path = Some data /\
       keras_fallback t (str_in "detection" (lower (str tflite_path)))
       = Some data)).
  { intros s1. cbv zeta. rewrite bind_run. cbv beta.
    destruct (fst (DownloadAndConvertOcrModels.create_fallback_tflite w t
                     tflite_path d s1)) eqn:Em; rewrite ret_run; cbn [fst snd].
    - split; [right; reflexivity|]. intros _.
      destruct (create_fallback_tflite_true w t tflite_path d s1 Em)
        as (data & K & F). exists data. auto.
    - split; [left; reflexivity|]. intros E. destruct (Hn _ E). }
  mstep.
  destruct (fst (DownloadAndConvertOcrModels.download_onnx w t onnx_path info s))
    eqn:Ed.
  - destruct (download_onnx_true w t onnx_path info s Ed)
      as (u & body & Hin & Hf & Hg & Hp).
    mstep.
    destruct (fst (DownloadAndConvertOcrModels.convert_onnx_to_tflite w t
                     onnx_path tflite_path _)) eqn:Ec.
    + destruct (convert_onnx_to_tflite_true w t onnx_path tflite_path _ body
                  Htmp Hp Ec) as (model & saved & tfl & L & E & T & F).
      mstep. rewrite ret_run. cbn [fst snd remove fs].
      split; [right; reflexivity|]. intros _. exists tfl. split.
      * rewrite lookup_delete_ne by (intros X; apply Hpaths; symmetry; exact X).
        exact F.
      * right. exists u, body, model, saved.
        unfold good_source in Hg. rewrite Hf, L in Hg.
        split; [exact Hin|]. split; [exact Hf|]. split; [exact L|].
        split; [exact Hg|]. split; [exact E|]. split; [exact T|].
        apply lookup_delete_eq.
    + mstep. rewrite print_run. cbn [fst snd].
      match goal with |- context [bind _ _ ?s1] => destruct (FB s1) as [F1 F2] end.
      split; [exact F1|]. intros H. destruct (F2 H) as (data & X & Y).
      exists data. auto.
  - mstep. rewrite print_run. cbn [fst snd].
    match goal with |- context [bind _ _ ?s1] => destruct (FB s1) as [F1 F2] end.
    split; [exact F1|]. intros H. destruct (F2 H) as (data & X & Y).
    exists data. auto.
Qed.

Lemma X18_witness :
  exists data : bytes,
    fs (snd (DownloadAndConvertOcrModels.process_model (serving [x00])
               working_tools scripts 0
               ("craft_text_detection.onnx", craft_onnx_info) fresh))
      !! tflite_file = Some data /\
    (keras_fallback working_tools
       (str_in "detection" (lower (str tflite_file))) = Some data \/
     exists (u : string) (body model saved : bytes),
       In u (DownloadAndConvertOcrModels.url craft_onnx_info
             :: default [] (DownloadAndConvertOcrModels.backup_urls
                              craft_onnx_info)) /\
       fetch (serving [x00]) u = Fetched body /\
       onnx_load working_tools body = Some model /\
       onnx_check working_tools model = true /\
       export_graph working_tools model = Some saved /\
       tflite_convert working_tools saved = Some data /\
       fs (snd (DownloadAndConvertOcrModels.process_model (serving [x00])
                  working_tools scripts 0
                  ("craft_text_detection.onnx", craft_onnx_info) fresh))
         !! onnx_file = None).
Proof.
  destruct (X18_counted_model_is_conversion_or_fallback (serving [x00])
              working_tools scripts 0 "craft_text_detection.onnx"
              craft_onnx_info fresh) as [_ H].
  - intros E. discriminate E.
  - intros E. discriminate E.
  - apply H. reflexivity.
Defined.

(** ** download_trocr_models.py: what a counted model is made of *)

Lemma trocr_export_true (w : World) (torch : Torch) (info_type : string)
    (pytorch_path onnx_path : Path) (m : M (option Path)) (s : State) :
  let convert :=
    if String.eqb info_type "detection" then
      DownloadTrocrModelsScript.convert_dbnet_to_onnx w torch pytorch_path
        onnx_path
    else
      bind m (fun config_path =>
        DownloadTrocrModelsScript.convert_trocr_to_onnx w torch pytorch_path
          config_path onnx_path) in
  fst (convert s) = true ->
  exists onnx : bytes,
    (if String.eqb info_type "detection"
     then export_dbnet torch else export_trocr torch) = Some onnx /\
    fs (snd (convert s)) !! onnx_path = Some onnx.
Proof.
  cbv zeta. destruct (String.eqb info_type "detection").
  - unfold DownloadTrocrModelsScript.convert_dbnet_to_onnx.
    destruct (export_dbnet torch) as [onnx|]; mrun; [|discriminate].
    destruct (writable w onnx_path); mrun; [|discriminate].
    intros _. exists onnx. split; [reflexivity|apply lookup_insert_eq].
  - rewrite bind_run. cbv beta.
    unfold DownloadTrocrModelsScript.convert_trocr_to_onnx.
    destruct (export_trocr torch) as [onnx|]; mrun; [|discriminate].
    destruct (writable w onnx_path); mrun; [|discriminate].
    intros _. exists onnx. split; [reflexivity|apply lookup_insert_eq].
Qed.

Lemma trocr_cleanup_frame (p1 p2 q : Path) (s : State) :
  q <> p1 -> q <> p2 ->
  fs (snd (DownloadTrocrModelsScript.cleanup p1 p2 s)) !! q = fs s !! q.
Proof.
  intros H1 H2.
  unfold DownloadTrocrModelsScript.cleanup, DownloadTrocrModelsScript.os_remove.
  mrun. destruct (fs s !! p1); mrun; [|reflexivity].
  destruct (delete p1 (fs s) !! p2); mrun;
    rewrite ?lookup_delete_ne by congruence; reflexivity.
Qed.

Lemma trocr_create_fallback_tflite_true (w : World) (t : Toolchain) (p : Path)
    (model_type : string) (s : State) :
  fst (DownloadTrocrModelsScript.create_fallback_tflite w t p model_type s)
  = true ->
  exists data : bytes,
    keras_fallback t (String.eqb model_type "detection") = Some data /\
    fs (snd (DownloadTrocrModelsScript.create_fallback_tflite w t p model_type s))
      !! p = Some data.
Proof.
  unfold DownloadTrocrModelsScript.create_fallback_tflite. mrun.
  destruct (keras_fallback t _) as [data|]; [|mrun; discriminate].
  destruct (writable w p); mrun; [|discriminate].
  intros _. exists data. split; [reflexivity|apply lookup_insert_eq].
Qed.

(** X19: in download_trocr_models.py the weights that were downloaded
    never reach the result. A model is counted only with a TFLite file at
    its target that is either the Keras fallback or the conversion of the
    ONNX file that torch exported from the script's own small network;
    what the URLs delivered decides only which of the two it is. *)
Theorem X19_trocr_output_ignores_the_download (w : World) (t : Toolchain)
    (torch : Torch) (script_dir assets_dir : Path) (c : nat)
    (model_filename : string) (info : DownloadTrocrModelsScript.ModelInfo)
    (s : State) :
  let pytorch_path := pdiv script_dir (replace ".onnx" ".pth" model_filename) in
  let onnx_path := pdiv script_dir model_filename in
  let tflite_path :=
    pdiv assets_dir (DownloadTrocrModelsScript.output_tflite info) in
  let detection := String.eqb (DownloadTrocrModelsScript.type info) "detection" in
  tflite_path <> pytorch_path -> tflite_path <> onnx_path ->
  tflite_path <> pdiv (temp_dir t) "tf_model" ->
  let r := DownloadTrocrModelsScript.process_model w t torch script_dir
             assets_dir c (model_filename, info) s in
  (fst r = c \/ fst r = S c) /\
  (fst r = S c ->
   exists data : bytes,
     fs (snd r) !! tflite_path = Some data /\
     (keras_fallback t detection = Some data \/
      exists onnx model saved : bytes,
        (if detection then export_dbnet torch else export_trocr torch)
          = Some onnx /\
        onnx_load t onnx = Some model /\
        export_graph t model = Some saved /\
        tflite_convert t saved = Some data)).
Proof.
  cbv zeta. intros Hp Ho Htmp.
  assert (Hn : forall n : nat, n <> S n) by (intros n; lia).
  unfold DownloadTrocrModelsScript.process_model.
  set (pytorch_path := pdiv script_dir (replace _ _ _)) in *.
  set (onnx_path := pdiv script_dir model_filename) in *.
  set (tflite_path := pdiv assets_dir _) in *.
  set (ty := DownloadTrocrModelsScript.type info).
  assert (FB : forall s1,
    let r := bind (DownloadTrocrModelsScript.create_fallback_tflite w t
                     tflite_path ty)
               (fun made => if made then ret (S c) else ret c) s1 in
    (fst r = c \/ fst r = S c) /\
    (fst r = S c ->
     exists data : bytes,
       fs (snd r) !! tflite_path = Some data /\
       keras_fallback t (String.eqb ty "detection") = Some data)).
  { intros s1. cbv zeta. rewrite bind_run. cbv beta.
    destruct (fst (DownloadTrocrModelsScript.create_fallback_tflite w t
                     tflite_path ty s1)) eqn:Em; rewrite ret_run; cbn [fst snd].
    - split; [right; reflexivity|]. intros _.
      destruct (trocr_create_fallback_tflite_true w t tflite_path ty s1 Em)
        as (data & K & F). exists data. auto.
    - split; [left; reflexivity|]. intros E. destruct (Hn _ E). }
  assert (FBP : forall (n : string) s1,
    let r := bind (print (Note n))
               (fun _ => bind (DownloadTrocrModelsScript.create_fallback_tflite
                                 w t tflite_path ty)
                           (fun made => if made then ret (S c) else ret c)) s1 in
    (fst r = c \/ fst r = S c) /\
    (fst r = S c ->
     exists data : bytes,
       fs (snd r) !! tflite_path = Some data /\
       (keras_fallback t (String.eqb ty "detection") = Some data \/
        exists onnx model saved : bytes,
          (if String.eqb ty "detection"
           then export_dbnet torch else export_trocr torch) = Some onnx /\
          onnx_load t onnx = Some model /\
          export_graph t model = Some saved /\
          tflite_convert t saved = Some data))).
  { intros n s1. cbv zeta. rewrite bind_run. cbv beta. rewrite print_run.
    cbn [fst snd].
    match goal with |- context [bind _ _ ?s2] => destruct (FB s2) as [F1 F2] end.
    split; [exact F1|]. intros H. destruct (F2 H) as (data & X & Y).
    exists data. auto. }
  mstep.
  destruct (fst (DownloadTrocrModelsScript.download_model w pytorch_path info s));
    [|apply FBP].
  mstep.
  match goal with |- context [fst ((if String.eqb ty "detection" then _ else bind ?m _) ?s1)] =>
    pose proof (trocr_export_true w torch ty pytorch_path onnx_path m s1) as X;
    cbv zeta in X;
    destruct (fst ((if String.eqb ty "detection"
                    then DownloadTrocrModelsScript.convert_dbnet_to_onnx w torch
                           pytorch_path onnx_path
                    else bind m (fun config_path =>
                           DownloadTrocrModelsScript.convert_trocr_to_onnx w
                             torch pytorch_path config_path onnx_path)) s1))
      eqn:Ex
  end; [|apply FBP].
  destruct (X eq_refl) as (onnx & Hexp & Hfile). clear X.
  mstep. rewrite !trocr_convert_same.
  match goal with |- context [DownloadAndConvertOcrModels.convert_onnx_to_tflite w t onnx_path tflite_path ?s2] =>
    destruct (fst (DownloadAndConvertOcrModels.convert_onnx_to_tflite w t
                     onnx_path tflite_path s2)) eqn:Ec;
    [destruct (convert_onnx_to_tflite_true w t onnx_path tflite_path s2 onnx
                 Htmp Hfile Ec) as (model & saved & tfl & L & E & T & F)
    |apply FBP]
  end.
  mstep. rewrite ret_run. cbn [fst snd].
  split; [right; reflexivity|]. intros _. exists tfl. split.
  - rewrite trocr_cleanup_frame by assumption. exact F.
  - right. exists onnx, model, saved. auto.
Qed.

Lemma X19_witness :
  exists data : bytes,
    fs (snd (DownloadTrocrModelsScript.process_model (serving [x00])
               working_tools (MkTorch (Some [x05]) (Some [x06])) scripts
               (DownloadTrocrModelsScript.assets_dir scripts) 0
               ("dbnet_text_detection.onnx",
                DownloadTrocrModelsScript.MkInfo "detection" "u" None "d"
                  "trocr_text_detection.tflite" None) fresh))
      !! pdiv (DownloadTrocrModelsScript.assets_dir scripts)
              "trocr_text_detection.tflite" = Some data /\
    (keras_fallback working_tools true = Some data \/
     exists onnx model saved : bytes,
       Some [x05] = Some onnx /\
       onnx_load working_tools onnx = Some model /\
       export_graph working_tools model = Some saved /\
       tflite_convert working_tools saved = Some data).
Proof.
  destruct (X19_trocr_output_ignores_the_download (serving [x00])
              working_tools (MkTorch (Some [x05]) (Some [x06])) scripts
              (DownloadTrocrModelsScript.assets_dir scripts) 0
              "dbnet_text_detection.onnx"
              (DownloadTrocrModelsScript.MkInfo "detection" "u" None "d"
                 "trocr_text_detection.tflite" None) fresh) as [_ H].
  - intros E. discriminate E.
  - intros E. discriminate E.
  - intros E. discriminate E.
  - apply H. reflexivity.
Defined.

(** ** The two converting scripts: what [main]'s answer depends on *)

Lemma convert_fallback_made (w : World) (t : Toolchain) (p : Path)
    (description : string) (s : State) :
  (forall b : bool, is_Some (keras_fallback t b)) -> writable w p = true ->
  fst (DownloadAndConvertOcrModels.create_fallback_tflite w t p description s)
  = true.
Proof.
  intros K W. unfold DownloadAndConvertOcrModels.create_fallback_tflite. mrun.
  destruct (K (str_in "detection" (lower (str p)))) as [data ->].
  rewrite W. reflexivity.
Qed.

Lemma trocr_fallback_made (w : World) (t : Toolchain) (p : Path)
    (model_type : string) (s : State) :
  (forall b : bool, is_Some (keras_fallback t b)) -> writable w p = true ->
  fst (DownloadTrocrModelsScript.create_fallback_tflite w t p model_type s)
  = true.
Proof.
  intros K W. unfold DownloadTrocrModelsScript.create_fallback_tflite. mrun.
  destruct (K (String.eqb model_type "detection")) as [data ->].
  rewrite W. reflexivity.
Qed.

Lemma convert_process_model_counted (w : World) (t : Toolchain)
    (script_dir : Path) (c : nat)
    (entry : string * DownloadAndConvertOcrModels.ModelInfo) (s : State) :
  (forall b : bool, is_Some (keras_fallback t b)) ->
  writable w (pdiv script_dir
                (DownloadAndConvertOcrModels.output_tflite (snd entry))) = true ->
  fst (DownloadAndConvertOcrModels.process_model w t script_dir c entry s)
  = S c.
Proof.
  destruct entry as [onnx_filename info]. cbn [snd]. intros K W.
  unfold DownloadAndConvertOcrModels.process_model. mstep.
  destruct (fst (DownloadAndConvertOcrModels.download_onnx w t _ info s)).
  - mstep.
    destruct (fst (DownloadAndConvertOcrModels.convert_onnx_to_tflite w t _ _ _)).
    + reflexivity.
    + mstep. mstep. rewrite convert_fallback_made by assumption. reflexivity.
  - mstep. mstep. rewrite convert_fallback_made by assumption. reflexivity.
Qed.

Lemma trocr_process_model_counted (w : World) (t : Toolchain) (torch : Torch)
    (script_dir assets_dir : Path) (c : nat)
    (entry : string * DownloadTrocrModelsScript.ModelInfo) (s : State) :
  (forall b : bool, is_Some (keras_fallback t b)) ->
  writable w (pdiv assets_dir
                (DownloadTrocrModelsScript.output_tflite (snd entry))) = true ->
  fst (DownloadTrocrModelsScript.process_model w t torch script_dir assets_dir
         c entry s) = S c.
Proof.
  destruct entry as [model_filename info]. cbn [snd]. intros K W.
  unfold DownloadTrocrModelsScript.process_model. mstep.
  destruct (fst (DownloadTrocrModelsScript.download_model w _ info s)).
  - mstep.
    match goal with |- context [fst (?m ?s1)] =>
      lazymatch m with
      | (if String.eqb _ _ then _ else _) => destruct (fst (m s1))
      end
    end.
    + mstep.
      destruct (fst (DownloadTrocrModels.convert_onnx_to_tflite w t _ _ _)).
      * mstep. reflexivity.
      * mstep. mstep. rewrite trocr_fallback_made by assumption. reflexivity.
    + mstep. mstep. rewrite trocr_fallback_made by assumption. reflexivity.
  - mstep. mstep. rewrite trocr_fallback_made by assumption. reflexivity.
Qed.

Lemma convert_process_models_count (w : World) (t : Toolchain)
    (script_dir : Path) (ms : list (string * DownloadAndConvertOcrModels.ModelInfo)) :
  (forall b : bool, is_Some (keras_fallback t b)) ->
  (forall entry, In entry ms ->
     writable w (pdiv script_dir
                   (DownloadAndConvertOcrModels.output_tflite (snd entry)))
     = true) ->
  forall (c : nat) (s : State),
    fst (DownloadAndConvertOcrModels.process_models w t script_dir c ms s)
    = (c + length ms)%nat.
Proof.
  intros K. induction ms as [|entry rest IH]; intros W c s;
    cbn [DownloadAndConvertOcrModels.process_models length].
  - rewrite ret_run. cbn [fst]. lia.
  - mstep. rewrite convert_process_model_counted
      by (try exact K; apply W; left; reflexivity).
    rewrite IH by (intros e He; apply W; right; exact He). lia.
Qed.

Lemma trocr_process_models_count (w : World) (t : Toolchain) (torch : Torch)
    (script_dir assets_dir : Path)
    (ms : list (string * DownloadTrocrModelsScript.ModelInfo)) :
  (forall b : bool, is_Some (keras_fallback t b)) ->
  (forall entry, In entry ms ->
     writable w (pdiv assets_dir
                   (DownloadTrocrModelsScript.output_tflite (snd entry)))
     = true) ->
  forall (c : nat) (s : State),
    fst (DownloadTrocrModelsScript.process_models w t torch script_dir
           assets_dir c ms s) = (c + length ms)%nat.
Proof.
  intros K. induction ms as [|entry rest IH]; intros W c s;
    cbn [DownloadTrocrModelsScript.process_models length].
  - rewrite ret_run. cbn [fst]. lia.
  - mstep. rewrite trocr_process_model_counted
      by (try exact K; apply W; left; reflexivity).
    rewrite IH by (intros e He; apply W; right; exact He). lia.
Qed.

Lemma report_packages_run (py : Python) (packages : list string) (s : State) :
  fs (snd (report_packages py packages s)) = fs s /\
  attempts (out (snd (report_packages py packages s))) = attempts (out s).
Proof.
  revert s. induction packages as [|p l IH]; intros s; cbn [report_packages].
  - rewrite ret_run. auto.
  - mstep. destruct (IH (snd ((if importable py p
                                then print (Note "is installed")
                                else print (Note "is missing")) s)))
      as [I1 I2].
    rewrite I1, I2.
    destruct (importable py p); cbn [print snd fs out];
      rewrite attempts_note; auto.
Qed.

Lemma install_packages_run (py : Python) (disk_after : PipEffect)
    (pip_args : string -> list string) (missing : list string) (s : State) :
  fst (install_packages py disk_after pip_args missing s)
  = forallb (fun package => pip_install py (pip_args package)) missing /\
  attempts (out (snd (install_packages py disk_after pip_args missing s)))
  = attempts (out s).
Proof.
  revert s. induction missing as [|p l IH]; intros s;
    cbn [install_packages forallb].
  - rewrite ret_run. auto.
  - mstep. destruct (pip_install py (pip_args p)); cbn [andb].
    + mstep. match goal with |- context [install_packages _ _ _ l ?s1] =>
        destruct (IH s1) as [I1 I2] end.
      rewrite I1, I2. cbn [print pip snd out]. rewrite attempts_note. auto.
    + mrun. cbn [pip snd out]. rewrite attempts_note. auto.
Qed.

(** the answer of [check_dependencies()]: every package whose import
    failed was installed; it downloads no model *)
Lemma check_dependencies_of_run (required : list string)
    (pip_args : string -> list string) (py : Python) (disk_after : PipEffect)
    (s : State) :
  fst (check_dependencies_of required pip_args py disk_after s)
  = forallb (fun package => pip_install py (pip_args package))
      (List.filter (fun package => negb (importable py package)) required) /\
  attempts (out (snd (check_dependencies_of required pip_args py disk_after s)))
  = attempts (out s).
Proof.
  unfold check_dependencies_of. do 2 mstep.
  match goal with |- context [report_packages py required ?s1] =>
    destruct (report_packages_run py required s1) as [_ R] end.
  cbn [print snd out] in R. rewrite attempts_note in R.
  destruct (List.filter _ required) as [|p l].
  - rewrite ret_run. cbn [fst snd forallb]. auto.
  - mstep.
    match goal with |- context [install_packages _ _ _ (p :: l) ?s1] =>
      destruct (install_packages_run py disk_after pip_args (p :: l) s1)
        as [I1 I2] end.
    rewrite I1, I2. cbn [print snd out]. rewrite attempts_note. auto.
Qed.

(** the run of [check_dependencies] answers what the list of its installs
    says *)
Lemma run_check_dependencies_answer (py : Python) (disk_after : PipEffect)
    (s : State) :
  fst (ConvertDependencies.run_check_dependencies py disk_after s)
  = fst (ConvertDependencies.check_dependencies py).
Proof.
  destruct (check_dependencies_of_run ConvertDependencies.required_packages
              ConvertDependencies.pip_args py disk_after s) as [C _].
  fold ConvertDependencies.run_check_dependencies in C.
  fold (ConvertDependencies.missing_packages py) in C. rewrite C. clear C.
  unfold ConvertDependencies.check_dependencies.
  induction (ConvertDependencies.missing_packages py) as [|p l IH];
    cbn [forallb ConvertDependencies.install]; [reflexivity|].
  destruct (pip_install py (ConvertDependencies.pip_args p)); cbn [andb];
    [|reflexivity].
  rewrite IH. destruct (ConvertDependencies.install py l). reflexivity.
Qed.

(** X20: when Keras can build both fallback networks and the TFLite
    targets can be written, [main] of download_and_convert_ocr_models.py
    and [main] of download_trocr_models.py answer exactly what
    [check_dependencies] answered, that is whether every package whose
    import failed could be installed: whether any model was downloaded,
    exported or converted has no part in it. When the answer is [False]
    no download was attempted. *)
Theorem X20_converters_answer_is_the_dependency_check (w : World)
    (py : Python) (disk_after : PipEffect) (t : Toolchain) (torch : Torch)
    (script_dir : Path)
    (ms : list (string * DownloadAndConvertOcrModels.ModelInfo))
    (ts : list (string * DownloadTrocrModelsScript.ModelInfo)) (s : State) :
  (forall b : bool, is_Some (keras_fallback t b)) ->
  (forall entry, In entry ms ->
     writable w (pdiv script_dir
                   (DownloadAndConvertOcrModels.output_tflite (snd entry)))
     = true) ->
  (forall entry, In entry ts ->
     writable w (pdiv (DownloadTrocrModelsScript.assets_dir script_dir)
                   (DownloadTrocrModelsScript.output_tflite (snd entry)))
     = true) ->
  let r := DownloadAndConvertOcrModels.main_with ms w py disk_after t
             script_dir s in
  let r' := DownloadTrocrModelsScript.main_with ts w py disk_after t torch
              script_dir s in
  fst r = fst (ConvertDependencies.run_check_dependencies py disk_after s) /\
  fst r = forallb (fun package =>
                     pip_install py (ConvertDependencies.pip_args package))
            (ConvertDependencies.missing_packages py) /\
  fst r' = fst (TrocrDependencies.run_check_dependencies py disk_after s) /\
  fst r' = forallb (fun package =>
                      pip_install py (TrocrDependencies.pip_args package))
             (TrocrDependencies.missing_packages py) /\
  (fst r = false -> attempts (out (snd r)) = attempts (out s)) /\
  (fst r' = false -> attempts (out (snd r')) = attempts (out s)).
Proof.
  intros K W W'. cbv zeta.
  unfold DownloadAndConvertOcrModels.main_with,
    DownloadTrocrModelsScript.main_with.
  destruct (check_dependencies_of_run ConvertDependencies.required_packages
              ConvertDependencies.pip_args py disk_after s) as [C1 C2].
  destruct (check_dependencies_of_run TrocrDependencies.required_packages
              TrocrDependencies.pip_args py disk_after s) as [T1 T2].
  fold ConvertDependencies.run_check_dependencies in C1, C2.
  fold TrocrDependencies.run_check_dependencies in T1, T2.
  fold (ConvertDependencies.missing_packages py) in C1.
  fold (TrocrDependencies.missing_packages py) in T1.
  rewrite <- C1, <- T1. rewrite !bind_run. cbv beta.
  assert (A : fst ((if negb (fst (ConvertDependencies.run_check_dependencies
                                    py disk_after s))
      then bind (print (Note "Dependency check failed. Please install required packages."))
             (fun _ => ret false)
      else bind (DownloadAndConvertOcrModels.process_models w t script_dir 0 ms)
             (fun success_count => ret (success_count =? length ms)%nat))
     (snd (ConvertDependencies.run_check_dependencies py disk_after s)))
    = fst (ConvertDependencies.run_check_dependencies py disk_after s)).
  { destruct (fst (ConvertDependencies.run_check_dependencies py disk_after s));
      cbn [negb]; [|reflexivity].
    mstep. rewrite ret_run. cbn [fst].
    rewrite convert_process_models_count by assumption. apply Nat.eqb_refl. }
  assert (B : fst ((if negb (fst (TrocrDependencies.run_check_dependencies
                                    py disk_after s))
      then bind (print (Note "Dependency check failed. Please install required packages."))
             (fun _ => ret false)
      else bind (DownloadTrocrModelsScript.process_models w t torch script_dir
                   (DownloadTrocrModelsScript.assets_dir script_dir) 0 ts)
             (fun success_count => ret (success_count =? length ts)%nat))
     (snd (TrocrDependencies.run_check_dependencies py disk_after s)))
    = fst (TrocrDependencies.run_check_dependencies py disk_after s)).
  { destruct (fst (TrocrDependencies.run_check_dependencies py disk_after s));
      cbn [negb]; [|reflexivity].
    mstep. rewrite ret_run. cbn [fst].
    rewrite trocr_process_models_count by assumption. apply Nat.eqb_refl. }
  rewrite A, B.
  split; [reflexivity|]. split; [reflexivity|].
  split; [reflexivity|]. split; [reflexivity|]. split.
  - intros H. rewrite H. cbn [negb]. mrun. rewrite attempts_note. exact C2.
  - intros H. rewrite H. cbn [negb]. mrun. rewrite attempts_note. exact T2.
Qed.

Lemma X20_witness :
  fst (DownloadAndConvertOcrModels.main offline all_installed (fun _ m => m)
         working_tools scripts fresh) = true /\
  fst (DownloadTrocrModelsScript.main offline all_installed (fun _ m => m)
         working_tools (MkTorch None None) scripts fresh) = true.
Proof.
  destruct (X20_converters_answer_is_the_dependency_check offline all_installed
              (fun _ m => m) working_tools (MkTorch None None) scripts
              DownloadAndConvertOcrModels.ONNX_MODELS
              DownloadTrocrModelsScript.TROCR_MODELS fresh)
    as (_ & H1 & _ & H2 & _).
  - intros b. exists [x04]. reflexivity.
  - intros entry _. reflexivity.
  - intros entry _. reflexivity.
  - split; [exact H1|exact H2].
Defined.
